(** * Mitre_mapper/mapper.py: rule engine, risk reducer and report merger

    A shallow embedding of [mapper.py].  Every Python object the program
    handles is JSON-like data, so one type [value] covers what
    [json.loads] yields and what the program builds (technique and report
    dictionaries).  Exceptions are explicit results, and the parts that
    touch the file system or standard output run in a state monad over a
    [world].

    Numbers: Python's [int] and [float] are both embedded as exact
    rationals ([Q]).  Mixed comparisons and equality of [int] and [float]
    are exact in Python as well; what the embedding leaves out is the
    rounding of [/], [+] and [*] on doubles, the non-finite values
    [NaN]/[Infinity] and [OverflowError] on huge integers.  Strings are
    byte strings; [lower] and [strip] act on ASCII.  The parser has two
    outcomes, a value or [JSONDecodeError]; the exceptions with which
    [json.loads] gives up on a resource limit are left out. *)

From Stdlib Require Import QArith Qround Qminmax String Ascii List Bool Arith Lia Lqa.
From Stdlib Require Import DecimalString.
Import ListNotations.

Set Warnings "-register-all".


Open Scope string_scope.
Open Scope Q_scope.

(** ** Python values, exceptions and builtins *)

Module Py.

Inductive value : Type :=
| VNone
| VBool (b : bool)
| VNum (q : Q)
| VStr (s : string)
| VList (l : list value)
| VDict (d : list (string * value)).

Inductive exn : Type :=
| TypeError
| AttributeError
| KeyError
| ZeroDivisionError
| FileNotFoundError
| PermissionError
| IsADirectoryError
| UnicodeDecodeError
| JSONDecodeError
| SystemExit (code : Z).

Inductive result (A : Type) : Type :=
| Ok (a : A)
| Raise (e : exn).

Arguments Ok {A} a.
Arguments Raise {A} e.

Definition bind {A B : Type} (m : result A) (k : A -> result B) : result B :=
  match m with
  | Ok a => k a
  | Raise e => Raise e
  end.

Declare Scope py_scope.
Delimit Scope py_scope with py.
Notation "x <- m ;; k" := (bind m (fun x => k))
  (at level 61, m at next level, right associativity) : py_scope.

(** *** Numbers *)

Definition Qlt_bool (x y : Q) : bool := negb (Qle_bool y x).

(** [bool] is a subclass of [int]: [True] counts as 1, [False] as 0. *)
Definition as_num (v : value) : option Q :=
  match v with
  | VNum q => Some q
  | VBool true => Some 1
  | VBool false => Some 0
  | _ => None
  end.

(** [a > b], [a < b], [a >= b].  At every call site of the program one
    operand is a number, so any other operand raises [TypeError]. *)
Definition py_gt (a b : value) : result bool :=
  match as_num a, as_num b with
  | Some x, Some y => Ok (Qlt_bool y x)
  | _, _ => Raise TypeError
  end.

(** [a / b] (true division). *)
Definition py_truediv (a b : value) : result Q :=
  match as_num a, as_num b with
  | Some x, Some y => if Qeq_bool y 0 then Raise ZeroDivisionError else Ok (x / y)
  | _, _ => Raise TypeError
  end.

(** [min(a, b)]: the first argument unless the second is smaller. *)
Definition py_min (a b : Q) : Q := if Qlt_bool b a then b else a.

(** *** Dictionaries as insertion-ordered association lists

    A dictionary holds one binding per key, so the first match of a
    lookup is the only one. *)

Fixpoint assoc {A : Type} (k : string) (d : list (string * A)) : option A :=
  match d with
  | [] => None
  | (k', v) :: d' => if String.eqb k k' then Some v else assoc k d'
  end.

(** [d.get(k, default)] *)
Definition py_get (d : value) (k : string) (default : value) : result value :=
  match d with
  | VDict l => Ok (match assoc k l with Some v => v | None => default end)
  | _ => Raise AttributeError
  end.

(** [d[k]] *)
Definition py_getitem (d : value) (k : string) : result value :=
  match d with
  | VDict l => match assoc k l with Some v => Ok v | None => Raise KeyError end
  | _ => Raise TypeError
  end.

(** *** Equality and truth value *)

(** [a == b].  Numbers compare by value across [bool], [int] and [float];
    dictionaries compare as mappings. *)
Fixpoint py_eq (a b : value) {struct a} : bool :=
  match a, b with
  | VNone, VNone => true
  | VStr s, VStr t => String.eqb s t
  | VList l, VList m =>
      (fix eq_list (l : list value) (m : list value) {struct l} : bool :=
         match l, m with
         | [], [] => true
         | x :: l', y :: m' => py_eq x y && eq_list l' m'
         | _, _ => false
         end) l m
  | VDict l, VDict m =>
      Nat.eqb (length l) (length m) &&
      (fix eq_items (l : list (string * value)) : bool :=
         match l with
         | [] => true
         | (k, x) :: l' =>
             match assoc k m with
             | Some y => py_eq x y && eq_items l'
             | None => false
             end
         end) l
  | _, _ =>
      match as_num a, as_num b with
      | Some x, Some y => Qeq_bool x y
      | _, _ => false
      end
  end.

(** [bool(v)], as used by [if v:], [not v] and the conditional expression. *)
Definition truthy (v : value) : bool :=
  match v with
  | VNone => false
  | VBool b => b
  | VNum q => negb (Qeq_bool q 0)
  | VStr s => negb (String.eqb s "")
  | VList l => match l with [] => false | _ => true end
  | VDict d => match d with [] => false | _ => true end
  end.

(** *** Strings *)

Definition is_upper (c : ascii) : bool :=
  let n := nat_of_ascii c in (65 <=? n)%nat && (n <=? 90)%nat.

Definition lower_char (c : ascii) : ascii :=
  if is_upper c then ascii_of_nat (nat_of_ascii c + 32) else c.

(** [s.lower()] *)
Fixpoint lower (s : string) : string :=
  match s with
  | EmptyString => EmptyString
  | String c t => String (lower_char c) (lower t)
  end.

(** The ASCII characters [str.isspace] accepts. *)
Definition is_space (c : ascii) : bool :=
  let n := nat_of_ascii c in
  ((9 <=? n)%nat && (n <=? 13)%nat) || ((28 <=? n)%nat && (n <=? 32)%nat).

Fixpoint lstrip (s : string) : string :=
  match s with
  | EmptyString => EmptyString
  | String c t => if is_space c then lstrip t else s
  end.

Fixpoint rstrip (s : string) : string :=
  match s with
  | EmptyString => EmptyString
  | String c t =>
      let t' := rstrip t in
      if is_space c && String.eqb t' "" then EmptyString else String c t'
  end.

(** [s.strip()] *)
Definition strip (s : string) : string := rstrip (lstrip s).

(** [needle in hay] *)
Fixpoint contains (needle hay : string) : bool :=
  String.prefix needle hay ||
  match hay with
  | EmptyString => false
  | String _ t => contains needle t
  end.

(** [s.split('->')]: [cur] holds the characters of the current piece. *)
Fixpoint split_arrow_from (cur s : string) : list string :=
  match s with
  | EmptyString => [cur]
  | String "-" (String ">" rest) => cur :: split_arrow_from "" rest
  | String c t => split_arrow_from (cur ++ String c "") t
  end.

Definition split_arrow (s : string) : list string := split_arrow_from "" s.

(** [v.split('->')] on an arbitrary object. *)
Definition py_split_arrow (v : value) : result (list string) :=
  match v with
  | VStr s => Ok (split_arrow s)
  | _ => Raise AttributeError
  end.

(** [v.lower()] on an arbitrary object. *)
Definition py_lower (v : value) : result string :=
  match v with
  | VStr s => Ok (lower s)
  | _ => Raise AttributeError
  end.

Definition chars (s : string) : list value :=
  map (fun c => VStr (String c "")) (list_ascii_of_string s).

(** The items [for x in v] visits. *)
Definition py_iter (v : value) : result (list value) :=
  match v with
  | VList l => Ok l
  | VStr s => Ok (chars s)
  | VDict d => Ok (map (fun kv => VStr (fst kv)) d)
  | _ => Raise TypeError
  end.

(** [len(v)] *)
Definition py_len (v : value) : result nat :=
  match v with
  | VList l => Ok (length l)
  | VStr s => Ok (String.length s)
  | VDict d => Ok (length d)
  | _ => Raise TypeError
  end.

(** *** Formatting *)

Definition str_of_nat (n : nat) : string := NilZero.string_of_uint (Nat.to_uint n).

(** Nearest integer, ties to even. *)
Definition round_half_even (q : Q) : Z :=
  let f := Qfloor q in
  let r := q - inject_Z f in
  if Qlt_bool r 0.5 then f
  else if Qlt_bool 0.5 r then (f + 1)%Z
  else if Z.even f then f else (f + 1)%Z.

Definition two_digits (n : nat) : string :=
  if (n <? 10)%nat then "0" ++ str_of_nat n else str_of_nat n.

(** [f"{q:.2f}"] for [q >= 0], the only sign the program formats. *)
Definition format_2f (q : Q) : string :=
  let n := Z.to_nat (round_half_even (q * 100)) in
  str_of_nat (n / 100) ++ "." ++ two_digits (n mod 100).

End Py.

(** ** The rule engine ([class UEBAMitreMapper]) and the normalizer *)

Module Mapper.
Import Py.
Open Scope py_scope.

Definition REPORT_FILE_NAME : string := "mitre_detection_report.json".

(** The dictionary literal every rule appends, field by field. *)
Definition technique (id name : string) (confidence : Q)
    (rule_matched description : string) (evidence : list (string * value)) : value :=
  VDict [ ("id", VStr id);
          ("name", VStr name);
          ("confidence", VNum confidence);
          ("rule_matched", VStr rule_matched);
          ("description", VStr description);
          ("evidence", VDict evidence) ].

Definition markov_evidence (anomaly_score : Q) : list (string * value) :=
  [ ("anomaly_score", VNum anomaly_score); ("source", VStr "markov") ].

(** [any('login' in action.lower() for action in sequence)]: the generator
    stops at the first hit, so later items are never lowered. *)
Fixpoint any_login (sequence : list value) : result bool :=
  match sequence with
  | [] => Ok false
  | action :: rest =>
      a <- py_lower action;;
      if contains "login" a then Ok true else any_login rest
  end.

Definition noise_actions : list string :=
  [ "auth_login"; "auth_logout"; "sys_windows_event" ].

(** [action_counts[k] = action_counts.get(k, 0) + 1]: an existing key keeps
    its place, a new key goes last. *)
Fixpoint increment (k : string) (action_counts : list (string * nat)) : list (string * nat) :=
  match action_counts with
  | [] => [(k, 1%nat)]
  | (k', c) :: rest =>
      if String.eqb k k' then (k', S c) :: rest else (k', c) :: increment k rest
  end.

(** The counting loop, lines 58-60. *)
Fixpoint count_actions (sequence : list value) (action_counts : list (string * nat))
    : result (list (string * nat)) :=
  match sequence with
  | [] => Ok action_counts
  | action :: rest =>
      a <- py_lower action;;
      if negb (existsb (String.eqb a) noise_actions)
      then count_actions rest (increment a action_counts)
      else count_actions rest action_counts
  end.

(** [count >= len(sequence) * 0.6] *)
Definition repetitive (len_sequence : nat) (entry : string * nat) : bool :=
  Qle_bool (inject_Z (Z.of_nat len_sequence) * 0.6) (inject_Z (Z.of_nat (snd entry))).

Definition markov_login_match (anomaly_score : Q) : value :=
  technique "T1078" "Valid Accounts" (py_min 0.7 anomaly_score)
    "markov_suspicious_login_pattern"
    "Suspicious login activity detected (Markov)"
    (markov_evidence anomaly_score).

Definition markov_repetitive_match (anomaly_score : Q) : value :=
  technique "T1041" "Exfiltration Over Command and Control Channel"
    (py_min 0.6 anomaly_score)
    "markov_repetitive_action_pattern"
    "Highly repetitive action pattern (Markov)"
    (markov_evidence anomaly_score).

Definition markov_fallback_match (anomaly_score : Q) : value :=
  technique "TA0009" "Collection" 0.55
    "markov_max_anomaly_score_fallback"
    "Sequence had maximum anomaly (score 0.0) but matched no specific pattern."
    (markov_evidence anomaly_score).

(** [UEBAMitreMapper._map_markov_generic], lines 28-84. *)
Definition _map_markov_generic (sequence_data : value) : result (list value) :=
  let techniques : list value := [] in
  sequence_str <- py_get sequence_data "sequence" (VStr "");;
  sequence <- (if truthy sequence_str
               then parts <- py_split_arrow sequence_str;;
                    Ok (VList (map (fun a => VStr (strip a)) parts))
               else py_get sequence_data "actions" (VList []));;
  score <- py_get sequence_data "score" VNone;;
  anomaly_score <-
    match score with
    | VNone => Ok 0.0
    | _ =>
        if py_eq score (VNum 0.0) then Ok 1.0
        else
          positive <- py_gt score (VNum 0.0);;
          if positive
          then scaled <- py_truediv score (VNum 4.0);; Ok (py_min 1.0 scaled)
          else Ok 0.0
    end;;
  if Qlt_bool anomaly_score 0.9 then Ok techniques
  else
    actions <- py_iter sequence;;
    login <- any_login actions;;
    let techniques :=
      if login then (techniques ++ [markov_login_match anomaly_score])%list
      else techniques in
    len_sequence <- py_len sequence;;
    techniques <-
      (if (3 <=? len_sequence)%nat
       then action_counts <- count_actions actions [];;
            (* the loop over the items appends once and breaks *)
            Ok (if existsb (repetitive len_sequence) action_counts
                then (techniques ++ [markov_repetitive_match anomaly_score])%list
                else techniques)
       else Ok techniques);;
    let techniques :=
      if Qeq_bool anomaly_score 1.0 && negb (truthy (VList techniques))
      then (techniques ++ [markov_fallback_match anomaly_score])%list
      else techniques in
    Ok techniques.

(** [UEBAMitreMapper.map_markov_sequence], lines 25-26. *)
Definition map_markov_sequence (sequence_data : value) : result (list value) :=
  _map_markov_generic sequence_data.

(** [UEBAMitreMapper.map_som_results], lines 86-126. *)
Definition map_som_results (som_data : value) : result (list value) :=
  let techniques : list value := [] in
  attack_score <- py_get som_data "attack_score" (VNum 0);;
  benign_score <- py_get som_data "benign_score" (VNum 0);;
  total_epochs <- py_get som_data "total_epochs" (VNum 1);;
  anomaly_metric <- py_truediv attack_score total_epochs;;
  let techniques :=
    if Qle_bool 0.3 anomaly_metric
    then
      let confidence := py_min 0.9 (0.5 + anomaly_metric) in
      (techniques ++
       [technique "T1070.004" "Indicator Removal: File Deletion" confidence
          "som_high_attack_score"
          ("SOM flagged high attack-like behavior (" ++ format_2f anomaly_metric
             ++ ") over time.")%string
          [ ("attack_score", attack_score);
            ("anomaly_metric", VNum anomaly_metric);
            ("source", VStr "som") ]])%list
    else techniques in
  flagged_epochs <- py_get som_data "flagged_epochs" (VNum 0);;
  techniques <-
    (if py_eq flagged_epochs total_epochs && py_eq attack_score (VNum 0)
     then
       flagged <- py_getitem som_data "flagged_epochs";;
       Ok (techniques ++
           [technique "T1090" "Proxy" 0.65
              "som_always_flagged_no_attack_score"
              "User consistently flagged, but low attack score, suggesting an unusual persistent process."
              [ ("flagged_epochs", flagged); ("source", VStr "som") ]])%list
     else Ok techniques);;
  attack_positive <- py_gt attack_score (VNum 0);;
  mixed <-
    (if attack_positive
     then benign_positive <- py_gt benign_score (VNum 0);;
          if benign_positive then py_gt attack_score benign_score else Ok false
     else Ok false);;
  let techniques :=
    if mixed
    then (techniques ++
          [technique "T1078" "Valid Accounts" (py_min 0.8 (0.5 + anomaly_metric))
             "som_mixed_high_attack_score"
             "Mixed normal and attack activity, hinting at legitimate credential misuse."
             [ ("attack_score", attack_score);
               ("benign_score", benign_score);
               ("source", VStr "som") ]])%list
    else techniques in
  Ok techniques.

(** [calculate_risk_score], lines 128-137. *)
Definition calculate_risk_score (sequence_data : value) : result Q :=
  score <- py_get sequence_data "score" VNone;;
  match score with
  | VNone => Ok 0.0
  | _ =>
      if py_eq score (VNum 0.0) then Ok 1.0
      else
        positive <- py_gt score (VNum 0.0);;
        if positive
        then scaled <- py_truediv score (VNum 4.0);; Ok (py_min 1.0 scaled)
        else Ok 0.0
  end.

(** ** Files, standard output and the program's I/O *)

(** What the program can observe of a path. *)
Inductive file_state : Type :=
| Missing                      (* no such file *)
| Denied (size : nat)          (* exists, [open] raises PermissionError *)
| Directory (size : nat)       (* exists, [open] raises IsADirectoryError *)
| Undecodable (size : nat)     (* opens, reading raises UnicodeDecodeError *)
| Text (content : string).     (* opens and reads as text *)

Record world : Type := {
  files : string -> file_state;
  write_denied : string -> bool;
  stdout : list string
}.

Definition IO (A : Type) : Type := world -> result A * world.

Definition ret {A : Type} (a : A) : IO A := fun w => (Ok a, w).

Definition raise {A : Type} (e : exn) : IO A := fun w => (Raise e, w).

Definition bindIO {A B : Type} (m : IO A) (k : A -> IO B) : IO B :=
  fun w =>
    match m w with
    | (Ok a, w') => k a w'
    | (Raise e, w') => (Raise e, w')
    end.

Notation "x <~ m ;; k" := (bindIO m (fun x => k))
  (at level 61, m at next level, right associativity) : py_scope.
Notation "m ;;; k" := (bindIO m (fun _ => k))
  (at level 61, right associativity) : py_scope.

Definition lift {A : Type} (r : result A) : IO A := fun w => (r, w).

(** [try: body except <handled>: handler] *)
Definition try_except {A : Type} (body : IO A) (handled : exn -> bool)
    (handler : exn -> IO A) : IO A :=
  fun w =>
    match body w with
    | (Ok a, w') => (Ok a, w')
    | (Raise e, w') => if handled e then handler e w' else (Raise e, w')
    end.

Definition print (line : string) : IO unit :=
  fun w => (Ok tt, {| files := files w;
                      write_denied := write_denied w;
                      stdout := stdout w ++ [line] |}).

Definition path_exists (path : string) : IO bool :=
  fun w => (Ok (match files w path with Missing => false | _ => true end), w).

Definition getsize (path : string) : IO nat :=
  fun w =>
    (match files w path with
     | Missing => Raise FileNotFoundError
     | Denied n | Directory n | Undecodable n => Ok n
     | Text s => Ok (String.length s)
     end, w).

(** [open(path, 'r')]: the handle is the state of the file. *)
Definition open_r (path : string) : IO file_state :=
  fun w =>
    (match files w path with
     | Missing => Raise FileNotFoundError
     | Denied _ => Raise PermissionError
     | Directory _ => Raise IsADirectoryError
     | f => Ok f
     end, w).

(** [f.read()] *)
Definition read (f : file_state) : IO string :=
  match f with
  | Text s => ret s
  | _ => raise UnicodeDecodeError
  end.

(** [open(path, 'w')] truncates, the dump then writes the text. *)
Definition write_file (path : string) (text : string) : IO unit :=
  fun w =>
    if write_denied w path then (Raise PermissionError, w)
    else
      match files w path with
      | Directory _ => (Raise IsADirectoryError, w)
      | _ =>
          (Ok tt, {| files := fun p => if String.eqb p path then Text text else files w p;
                     write_denied := write_denied w;
                     stdout := stdout w |})
      end.

Definition nl : string := String "010" "".

(** The lines [for line in f] yields: each keeps its terminator, and
    text mode turns ["\r\n"] and ["\r"] into ["\n"]. *)
Fixpoint file_lines_from (cur s : string) : list string :=
  match s with
  | EmptyString => if String.eqb cur "" then [] else [cur]
  | String "010" rest => (cur ++ nl)%string :: file_lines_from "" rest
  | String "013" (String "010" rest) => (cur ++ nl)%string :: file_lines_from "" rest
  | String "013" rest => (cur ++ nl)%string :: file_lines_from "" rest
  | String c rest => file_lines_from (cur ++ String c "") rest
  end.

Definition file_lines (s : string) : list string := file_lines_from "" s.

(** [str(e)], abbreviated to the name of the exception. *)
Definition exn_str (e : exn) : string :=
  match e with
  | TypeError => "TypeError"
  | AttributeError => "AttributeError"
  | KeyError => "KeyError"
  | ZeroDivisionError => "ZeroDivisionError"
  | FileNotFoundError => "FileNotFoundError"
  | PermissionError => "PermissionError"
  | IsADirectoryError => "IsADirectoryError"
  | UnicodeDecodeError => "UnicodeDecodeError"
  | JSONDecodeError => "JSONDecodeError"
  | SystemExit _ => "SystemExit"
  end.

(** [lst.append(x)] *)
Definition py_append (lst x : value) : result value :=
  match lst with
  | VList l => Ok (VList (l ++ [x]))
  | _ => Raise AttributeError
  end.

(** The per-user table of [process_markov_file]: keys are user ids, in
    insertion order. *)
Record risk_item : Type := {
  risk_score : Q;
  data : value;
  original_line_num : nat
}.

Definition user_table : Type := list (value * risk_item).

Definition hashable (v : value) : bool :=
  match v with
  | VList _ | VDict _ => false
  | _ => true
  end.

Fixpoint lookup_user (user_id : value) (t : user_table) : option risk_item :=
  match t with
  | [] => None
  | (k, item) :: rest => if py_eq k user_id then Some item else lookup_user user_id rest
  end.

(** [user_id not in t] *)
Definition user_absent (user_id : value) (t : user_table) : result bool :=
  if hashable user_id
  then Ok (match lookup_user user_id t with Some _ => false | None => true end)
  else Raise TypeError.

(** [t[user_id]['risk_score']] *)
Definition stored_risk (user_id : value) (t : user_table) : result Q :=
  match lookup_user user_id t with
  | Some item => Ok (risk_score item)
  | None => Raise KeyError
  end.

(** [t[user_id] = item]: an existing key keeps its key object and place. *)
Fixpoint store_user (user_id : value) (item : risk_item) (t : user_table) : user_table :=
  match t with
  | [] => [(user_id, item)]
  | (k, old) :: rest =>
      if py_eq k user_id then (k, item) :: rest
      else (k, old) :: store_user user_id item rest
  end.

Record args : Type := {
  markov_file : option string;
  som_file : option string;
  test : bool
}.

(** Truth value of an optional string argument. *)
Definition given (a : option string) : option string :=
  match a with
  | Some s => if String.eqb s "" then None else Some s
  | None => None
  end.

(** [parser.print_help()], abbreviated to the usage line. *)
Definition help_text : string :=
  "usage: mapper.py [-h] [--markov-file MARKOV_FILE] [--som-file SOM_FILE] [--test]".

Section Program.

(** [json.loads]: [None] stands for [JSONDecodeError]. *)
Variable json_loads : string -> option value.
(** [json.dumps(v, indent=4)] *)
Variable json_dumps : value -> string.

(** [json.load(f)] *)
Definition json_load (f : file_state) : IO value :=
  text <~ read f;;
  match json_loads text with
  | Some v => ret v
  | None => raise JSONDecodeError
  end.

(** [load_existing_report], lines 139-148. *)
Definition load_existing_report (file_path : string) : IO value :=
  try_except
    (present <~ path_exists file_path;;
     nonempty <~ (if present
                  then size <~ getsize file_path;; ret (0 <? size)%nat
                  else ret false);;
     if nonempty
     then f <~ open_r file_path;;
          print ("Loading existing report: " ++ file_path) ;;;
          json_load f
     else ret (VList []))
    (fun e => match e with
              | FileNotFoundError | JSONDecodeError => true
              | _ => false
              end)
    (fun e =>
       print ("Warning: Could not load existing report. Starting new report. Error: "
                ++ exn_str e) ;;;
       ret (VList [])).

(** The first loop of [process_markov_file], lines 160-179. *)
Fixpoint scan_lines (lines : list string) (total_sequences : nat)
    (riskiest_sequences_by_user : user_table) : result (nat * user_table) :=
  match lines with
  | [] => Ok (total_sequences, riskiest_sequences_by_user)
  | line :: rest =>
      let total_sequences := S total_sequences in
      match json_loads (strip line) with
      | None => scan_lines rest total_sequences riskiest_sequences_by_user
      | Some sequence_data =>
          user_id <- py_get sequence_data "user_id" VNone;;
          if negb (truthy user_id)
          then scan_lines rest total_sequences riskiest_sequences_by_user
          else
            current_risk <- calculate_risk_score sequence_data;;
            absent <- user_absent user_id riskiest_sequences_by_user;;
            better <- (if absent then Ok true
                       else stored <- stored_risk user_id riskiest_sequences_by_user;;
                            Ok (Qlt_bool stored current_risk));;
            scan_lines rest total_sequences
              (if better
               then store_user user_id
                      {| risk_score := current_risk;
                         data := sequence_data;
                         original_line_num := total_sequences |}
                      riskiest_sequences_by_user
               else riskiest_sequences_by_user)
      end
  end.

Definition markov_entry (sequence_id : string) (user_id sequence_data : value)
    (techniques : list value) : value :=
  VDict [ ("sequence_id", VStr sequence_id);
          ("user_id", user_id);
          ("raw_data", sequence_data);
          ("source", VStr "markov");
          ("detected_techniques", VList techniques) ].

(** The second loop of [process_markov_file], lines 188-203; [i] is the
    index [enumerate] has reached. *)
Fixpoint map_riskiest (items : user_table) (i : nat) (detections_count : nat)
    (report_list : value) : result (nat * value) :=
  match items with
  | [] => Ok (detections_count, report_list)
  | (user_id, item) :: rest =>
      let sequence_data := data item in
      let sequence_id := ("Markov_User_" ++ str_of_nat (i + 1) ++ "_TopRisk")%string in
      techniques <- map_markov_sequence sequence_data;;
      if truthy (VList techniques)
      then report_list <- py_append report_list
                            (markov_entry sequence_id user_id sequence_data techniques);;
           map_riskiest rest (S i) (S detections_count) report_list
      else map_riskiest rest (S i) detections_count report_list
  end.

(** [process_markov_file], lines 150-205.  The list object is shared with
    the caller, so the function hands back the list after its appends. *)
Definition process_markov_file (file_path : string) (report_list : value) : IO value :=
  print (nl ++ "--- Analyzing Markov Sequences for Filtering (Source: " ++ file_path
            ++ ") ---") ;;;
  scanned <~ try_except
               (f <~ open_r file_path;;
                text <~ read f;;
                r <~ lift (scan_lines (file_lines text) 0 []);;
                ret (Some (snd r)))
               (fun e => match e with FileNotFoundError => true | _ => false end)
               (fun _ =>
                  print ("Error: Markov file not found at path: " ++ file_path) ;;;
                  ret None);;
  match scanned with
  | None => ret report_list
  | Some riskiest_sequences_by_user =>
      let riskiest_count := length riskiest_sequences_by_user in
      print ("--- Processing " ++ str_of_nat riskiest_count
               ++ " Riskiest Sequences (1 per user) ---") ;;;
      r <~ lift (map_riskiest riskiest_sequences_by_user 0 0 report_list);;
      print ("   Markov Summary: " ++ str_of_nat (fst r) ++ " new detections out of "
               ++ str_of_nat riskiest_count ++ " unique users processed.") ;;;
      ret (snd r)
  end.

Definition som_entry (i : nat) (user_id som_data : value) (techniques : list value) : value :=
  VDict [ ("sequence_id", VStr ("SOM_User_" ++ str_of_nat (i + 1)));
          ("user_id", user_id);
          ("raw_data", som_data);
          ("source", VStr "som");
          ("detected_techniques", VList techniques) ].

(** The loop of [process_som_file], lines 219-232. *)
Fixpoint map_som (som_results : list value) (i : nat) (detections_count : nat)
    (report_list : value) : result (nat * value) :=
  match som_results with
  | [] => Ok (detections_count, report_list)
  | som_data :: rest =>
      techniques <- map_som_results som_data;;
      if truthy (VList techniques)
      then user_id <- py_get som_data "user_id" (VStr "N/A");;
           report_list <- py_append report_list (som_entry i user_id som_data techniques);;
           map_som rest (S i) (S detections_count) report_list
      else map_som rest (S i) detections_count report_list
  end.

(** [process_som_file], lines 207-239.  Both handled exceptions can only
    arise before the first append. *)
Definition process_som_file (file_path : string) (report_list : value) : IO value :=
  print (nl ++ "--- Processing SOM Results (Source: " ++ file_path ++ ") ---") ;;;
  r <~ try_except
         (f <~ open_r file_path;;
          som_results <~ json_load f;;
          total_sequences <~ lift (py_len som_results);;
          items <~ lift (py_iter som_results);;
          r <~ lift (map_som items 0 0 report_list);;
          ret (fst r, total_sequences, snd r))
         (fun e => match e with
                   | FileNotFoundError | JSONDecodeError => true
                   | _ => false
                   end)
         (fun e =>
            match e with
            | FileNotFoundError =>
                print ("Error: SOM file not found at path: " ++ file_path)
            | _ => print ("Error decoding SOM JSON: " ++ exn_str e)
            end ;;;
            ret (0%nat, 0%nat, report_list));;
  let '(detections_count, total_sequences, report_list) := r in
  print ("   SOM Summary: " ++ str_of_nat detections_count ++ " new detections out of "
           ++ str_of_nat total_sequences ++ " users/entries.") ;;;
  ret report_list.

(** Lines 258-262: the two processing steps, in order. *)
Definition process_inputs (a : args) (final_report : value) : IO value :=
  final_report <~ match given (markov_file a) with
                  | Some path => process_markov_file path final_report
                  | None => ret final_report
                  end;;
  match given (som_file a) with
  | Some path => process_som_file path final_report
  | None => ret final_report
  end.

(** Lines 264-271: the guarded rewrite of the report file. *)
Definition write_report (final_report : value) (initial_report_size : nat) : IO unit :=
  size <~ lift (py_len final_report);;
  if (initial_report_size <? size)%nat
  then try_except
         (write_file REPORT_FILE_NAME (json_dumps final_report) ;;;
          print (nl ++ String.concat "" (repeat "=" 50)) ;;;
          print ("FINAL MERGED REPORT successfully written to " ++ REPORT_FILE_NAME))
         (fun e => match e with SystemExit _ => false | _ => true end)
         (fun e => print (nl ++ "Error writing final merged report to file: " ++ exn_str e))
  else ret tt.

(** The [__main__] block, lines 241-275. *)
Definition main (a : args) : IO unit :=
  match given (markov_file a), given (som_file a) with
  | None, None =>
      print "Error: Must provide at least one of --markov-file or --som-file." ;;;
      print help_text ;;;
      raise (SystemExit 1)
  | _, _ =>
      final_report <~ load_existing_report REPORT_FILE_NAME;;
      initial_report_size <~ lift (py_len final_report);;
      final_report <~ process_inputs a final_report;;
      write_report final_report initial_report_size ;;;
      print "FINAL ANALYSIS SUMMARY:" ;;;
      size <~ lift (py_len final_report);;
      print ("   Total entries in merged report: " ++ str_of_nat size) ;;;
      print "Analysis and Merging Complete!"
  end.

End Program.

End Mapper.

Import Py Mapper.
Open Scope py_scope.

(** * Vocabulary of the statements *)

(** ** Sequence source

    The proofs follow [_map_markov_generic] in two steps: lines 31-32
    build the action sequence, lines 43-84 gate and evaluate the rules.
    Lemma [_map_markov_generic_eq] shows that, with [calculate_risk_score]
    in between, the two steps are the method itself. *)

(** Lines 31-32. *)
Definition markov_sequence (sequence_data : value) : result value :=
  sequence_str <- py_get sequence_data "sequence" (VStr "");;
  if truthy sequence_str
  then parts <- py_split_arrow sequence_str;;
       Ok (VList (map (fun a => VStr (strip a)) parts))
  else py_get sequence_data "actions" (VList []).

(** Lines 43-84, for a given sequence and anomaly score. *)
Definition markov_rules (sequence : value) (anomaly_score : Q) : result (list value) :=
  let techniques : list value := [] in
  if Qlt_bool anomaly_score 0.9 then Ok techniques
  else
    actions <- py_iter sequence;;
    login <- any_login actions;;
    let techniques :=
      if login then (techniques ++ [markov_login_match anomaly_score])%list
      else techniques in
    len_sequence <- py_len sequence;;
    techniques <-
      (if (3 <=? len_sequence)%nat
       then action_counts <- count_actions actions [];;
            Ok (if existsb (repetitive len_sequence) action_counts
                then (techniques ++ [markov_repetitive_match anomaly_score])%list
                else techniques)
       else Ok techniques);;
    let techniques :=
      if Qeq_bool anomaly_score 1.0 && negb (truthy (VList techniques))
      then (techniques ++ [markov_fallback_match anomaly_score])%list
      else techniques in
    Ok techniques.

(** The [rule_matched] value of one of the returned matches is [rule]. *)
Definition produced (rule : string) (techniques : list value) : Prop :=
  exists t, In t techniques /\ py_getitem t "rule_matched" = Ok (VStr rule).

(** The three possible matches, present or not, in the order of the rules. *)
Definition matches (m : Q) (login repeated fallback : bool) : list value :=
  ((if login then [markov_login_match m] else []) ++
   (if repeated then [markov_repetitive_match m] else []) ++
   (if fallback then [markov_fallback_match m] else []))%list.

Definition is_str (v : value) : bool :=
  match v with VStr _ => true | _ => false end.

(** A score the normalizer accepts: a number, [None], or no score. *)
Definition score_ok (d : list (string * value)) : bool :=
  match assoc "score" d with
  | None | Some VNone => true
  | Some v => match as_num v with Some _ => true | None => false end
  end.

(** The field types [_map_markov_generic] is written for: [sequence] a
    string, [actions] a list of strings, [score] a number; each may be
    missing. *)
Definition sequence_record (sequence_data : value) : bool :=
  match sequence_data with
  | VDict d =>
      match assoc "sequence" d with
      | None => true
      | Some v => is_str v
      end &&
      match assoc "actions" d with
      | None => true
      | Some (VList l) => forallb is_str l
      | Some _ => false
      end &&
      score_ok d
  | _ => false
  end.

(** ** Map source *)

(** The value a field of a map-source record has after its default. *)
Definition field (d : list (string * value)) (k : string) (default : value) : value :=
  match assoc k d with Some v => v | None => default end.

(** The condition of line 116, with the short circuit of [and]. *)
Definition mixed_condition (attack_score benign_score : value) : result bool :=
  attack_positive <- py_gt attack_score (VNum 0);;
  if attack_positive
  then benign_positive <- py_gt benign_score (VNum 0);;
       if benign_positive then py_gt attack_score benign_score else Ok false
  else Ok false.

Definition som_high_match (attack_score : value) (anomaly_metric : Q) : value :=
  technique "T1070.004" "Indicator Removal: File Deletion"
    (py_min 0.9 (0.5 + anomaly_metric))
    "som_high_attack_score"
    ("SOM flagged high attack-like behavior (" ++ format_2f anomaly_metric
       ++ ") over time.")%string
    [ ("attack_score", attack_score);
      ("anomaly_metric", VNum anomaly_metric);
      ("source", VStr "som") ].

Definition som_proxy_match (flagged_epochs : value) : value :=
  technique "T1090" "Proxy" 0.65
    "som_always_flagged_no_attack_score"
    "User consistently flagged, but low attack score, suggesting an unusual persistent process."
    [ ("flagged_epochs", flagged_epochs); ("source", VStr "som") ].

Definition som_mixed_match (attack_score benign_score : value) (anomaly_metric : Q) : value :=
  technique "T1078" "Valid Accounts" (py_min 0.8 (0.5 + anomaly_metric))
    "som_mixed_high_attack_score"
    "Mixed normal and attack activity, hinting at legitimate credential misuse."
    [ ("attack_score", attack_score);
      ("benign_score", benign_score);
      ("source", VStr "som") ].

Definition som_matches (attack_score benign_score flagged_epochs : value)
    (anomaly_metric : Q) (high proxy mixed : bool) : list value :=
  ((if high then [som_high_match attack_score anomaly_metric] else []) ++
   (if proxy then [som_proxy_match flagged_epochs] else []) ++
   (if mixed then [som_mixed_match attack_score benign_score anomaly_metric] else []))%list.

(** The map-source records on which nothing raises: numeric fields (each
    may be missing) and an epoch count different from zero. *)
Definition som_record (som_data : value) : bool :=
  match som_data with
  | VDict d =>
      match as_num (field d "attack_score" (VNum 0)),
            as_num (field d "benign_score" (VNum 0)),
            as_num (field d "total_epochs" (VNum 1)) with
      | Some _, Some _, Some t => negb (Qeq_bool t 0)
      | _, _, _ => false
      end
  | _ => false
  end.

(** ** Report merger *)

(** An action that leaves the files (and the write permissions) alone. *)
Definition quiet {A : Type} (m : IO A) : Prop :=
  forall w, files (snd (m w)) = files w /\ write_denied (snd (m w)) = write_denied w.

(** [v] is [r] after the appends of [new], in order. *)
Definition appended (r : value) (new : list value) (v : value) : Prop :=
  (new = [] /\ v = r) \/ (exists l, r = VList l /\ v = VList (l ++ new)).

(** A report entry whose [detected_techniques] is the non-empty list the
    rule engine returned for its [raw_data]. *)
Definition detection (engine : value -> result (list value)) (e : value) : Prop :=
  exists raw techniques,
    py_getitem e "raw_data" = Ok raw /\
    py_getitem e "detected_techniques" = Ok (VList techniques) /\
    techniques <> [] /\
    engine raw = Ok techniques.

(** The world after the given lines were printed. *)
Definition printed (w : world) (lines : list string) : world :=
  {| files := files w; write_denied := write_denied w; stdout := stdout w ++ lines |}.

Definition loading_line (path : string) : string :=
  ("Loading existing report: " ++ path)%string.

Definition warning_line (e : exn) : string :=
  ("Warning: Could not load existing report. Starting new report. Error: "
     ++ exn_str e)%string.

(** ** Per-user reducer *)

(** Keys that are pairwise different under [==]. *)
Fixpoint distinct (keys : list value) : Prop :=
  match keys with
  | [] => True
  | k :: rest => Forall (fun k' => py_eq k k' = false) rest /\ distinct rest
  end.

Section Vocabulary.

Variable json_loads : string -> option value.
Variable json_dumps : value -> string.

(** The record on line [i] (counted from 0) of the batch, if the line parses. *)
Definition record_at (lines : list string) (i : nat) : option value :=
  match nth_error lines i with
  | Some line => json_loads (strip line)
  | None => None
  end.

(** A line the first loop passes without an exception: it does not parse,
    or it is an object whose user id is hashable (or false) and whose
    score is a number or missing. *)
Definition scannable (line : string) : bool :=
  match json_loads (strip line) with
  | None => true
  | Some (VDict d) =>
      match assoc "user_id" d with
      | None => true
      | Some u => hashable u || negb (truthy u)
      end &&
      score_ok d
  | Some _ => false
  end.

(** The entry [(k, item)] holds a record of the batch: the one on line
    [original_line_num item], which carries a user id equal to [k], with
    its own risk score. *)
Definition retains (lines : list string) (k : value) (item : risk_item) : Prop :=
  exists i u,
    original_line_num item = S i /\
    record_at lines i = Some (data item) /\
    py_get (data item) "user_id" VNone = Ok u /\
    truthy u = true /\ hashable u = true /\
    hashable k = true /\ py_eq k u = true /\
    calculate_risk_score (data item) = Ok (risk_score item).

(** Every record of the batch with a user id is matched by the entry of
    its user, whose score is at least as high and, when the scores are
    equal, whose line is not a later one. *)
Definition dominates (lines : list string) (t : user_table) : Prop :=
  forall i sequence_data u m,
    record_at lines i = Some sequence_data ->
    py_get sequence_data "user_id" VNone = Ok u ->
    truthy u = true ->
    calculate_risk_score sequence_data = Ok m ->
    exists k item,
      In (k, item) t /\ py_eq k u = true /\
      m <= risk_score item /\
      (m == risk_score item -> (original_line_num item <= S i)%nat).

(** The table is the reduction of the batch. *)
Definition reduced (lines : list string) (t : user_table) : Prop :=
  distinct (map fst t) /\
  (forall k item, In (k, item) t -> retains lines k item) /\
  dominates lines t.

(** The body of [main] once an input file was named. *)
Definition merge (a : args) : IO unit :=
  final_report <~ load_existing_report json_loads REPORT_FILE_NAME;;
  initial_report_size <~ lift (py_len final_report);;
  final_report <~ process_inputs json_loads a final_report;;
  write_report json_dumps final_report initial_report_size ;;;
  print "FINAL ANALYSIS SUMMARY:" ;;;
  size <~ lift (py_len final_report);;
  print ("   Total entries in merged report: " ++ str_of_nat size) ;;;
  print "Analysis and Merging Complete!".

End Vocabulary.

(** ** Vocabulary of the further properties *)

(** The action, lowered, contains "login". *)
Definition mentions_login (action : value) : bool :=
  match action with
  | VStr s => contains "login" (lower s)
  | _ => false
  end.

(** The lowered actions of a sequence of strings. *)
Fixpoint lowered (sequence : list value) : list string :=
  match sequence with
  | [] => []
  | VStr s :: rest => lower s :: lowered rest
  | _ :: rest => lowered rest
  end.

Definition noise (action : string) : bool := existsb (String.eqb action) noise_actions.

(** The count a table holds for a key, 0 without the key. *)
Definition count_of (a : string) (action_counts : list (string * nat)) : nat :=
  match assoc a action_counts with
  | Some n => n
  | None => 0%nat
  end.

(** The number a lowered action occurs in a sequence. *)
Definition occurrences (a : string) (sequence : list value) : nat :=
  count_occ string_dec (lowered sequence) a.

(** [rule_matched] of a match. *)
Definition rule_of (t : value) : result value := py_getitem t "rule_matched".

Definition lower_action (action : value) : value :=
  match action with
  | VStr s => VStr (lower s)
  | _ => action
  end.

(** [l] followed by the entries of a run on the empty report. *)
Definition after (l : list value) (r : result value) : result value :=
  v <- r;;
  match v with
  | VList new => Ok (VList (l ++ new))
  | _ => Raise AttributeError
  end.

(** [l1] is [l2] with some elements left out. *)
Inductive subseq {A : Type} : list A -> list A -> Prop :=
| subseq_nil : subseq [] []
| subseq_skip (x : A) (l1 l2 : list A) : subseq l1 l2 -> subseq l1 (x :: l2)
| subseq_take (x : A) (l1 l2 : list A) : subseq l1 l2 -> subseq (x :: l1) (x :: l2).

(** [user_id] of a report entry. *)
Definition entry_user (e : value) : value :=
  match py_getitem e "user_id" with
  | Ok k => k
  | Raise _ => VNone
  end.

(** ** Vocabulary of the exception properties *)

(** [sys.float_info.max], the largest finite double. *)
Definition float_max : Q := inject_Z (2 ^ 1024 - 2 ^ 971).

(** The value converts to a double: it is no number at all, or a number
    whose magnitude is at most [float_max].  Every float is in this range,
    and so is every [int] that [/] takes as an operand without
    [OverflowError]. *)
Definition in_float_range (v : value) : bool :=
  match as_num v with
  | Some q => Qle_bool (- float_max) q && Qle_bool q float_max
  | None => true
  end.

(** The field [k] of a record converts to a double, when the record is a
    dictionary that has the field. *)
Definition field_in_range (sd : value) (k : string) : bool :=
  match sd with
  | VDict d =>
      match assoc k d with
      | Some v => in_float_range v
      | None => true
      end
  | _ => true
  end.

(** A line of the batch that [json_loads] rejects as malformed, or reads
    as a value whose score converts to a double. *)
Definition score_in_range (json_loads : string -> option value) (line : string) : bool :=
  match json_loads (strip line) with
  | Some sd => field_in_range sd "score"
  | None => true
  end.

(** A batch with a record in range, a line that is not JSON and a line
    that is JSON but no object. *)
Definition mixed_batch : list string :=
  [ "{'user_id': 'u2', 'score': 8}"; "not json"; "[]" ].

(** * Sample data *)

(** Sample records: the three end-to-end examples of the specification. *)
Definition example1 : value :=
  VDict [ ("user_id", VStr "u1");
          ("actions", VList [VStr "login"; VStr "compress_data"]);
          ("score", VNum 0.0) ].

Definition example2 : value :=
  VDict [ ("user_id", VStr "u2");
          ("actions", VList [VStr "foo"; VStr "foo"; VStr "foo"]);
          ("score", VNum 0.5) ].

Definition example3 : value :=
  VDict [ ("user_id", VStr "u3"); ("attack_score", VNum 5); ("benign_score", VNum 1);
          ("total_epochs", VNum 10); ("flagged_epochs", VNum 10) ].

(** An epoch count of zero. *)
Definition zero_epochs_record : value :=
  VDict [ ("user_id", VStr "u4"); ("attack_score", VNum 5); ("benign_score", VNum 1);
          ("total_epochs", VNum 0); ("flagged_epochs", VNum 0) ].

(** A user who was never evaluated: no epoch, none flagged, no score. *)
Definition never_evaluated_fields : list (string * value) :=
  [ ("user_id", VStr "u5"); ("attack_score", VNum 0); ("benign_score", VNum 0);
    ("total_epochs", VNum 0); ("flagged_epochs", VNum 0) ].

Definition never_evaluated_record : value := VDict never_evaluated_fields.

(** Sample texts and a parser that knows them (single quotes stand for
    the double quotes of JSON). *)
Definition sample_texts : list (string * value) :=
  [ ("{'user_id': 'u1', 'actions': ['login', 'compress_data'], 'score': 0.0}", example1);
    ("{'user_id': 'u2', 'actions': ['foo', 'foo', 'foo'], 'score': 0.5}", example2);
    ("{'user_id': 'u2', 'score': 0.0}",
       VDict [("user_id", VStr "u2"); ("score", VNum 0.0)]);
    ("{'user_id': 'u2', 'score': 8}",
       VDict [("user_id", VStr "u2"); ("score", VNum 8)]);
    ("{'score': 0.0}", VDict [("score", VNum 0.0)]);
    ("[{'user_id': 'u3', 'attack_score': 5, 'benign_score': 1, 'total_epochs': 10, 'flagged_epochs': 10}]",
       VList [example3]);
    ("[{'user_id': 'u4', 'attack_score': 5, 'benign_score': 1, 'total_epochs': 0, 'flagged_epochs': 0}]",
       VList [zero_epochs_record]);
    ("[]", VList []) ].

Definition sample_loads (text : string) : option value := assoc text sample_texts.

(** A batch: user u2 three times (scores 0.5, 0.0 and 8, the last two of
    risk 1.0), a record without user id, a line that does not parse. *)
Definition sample_batch : list string :=
  [ "{'user_id': 'u2', 'actions': ['foo', 'foo', 'foo'], 'score': 0.5}" ++ nl;
    "{'user_id': 'u2', 'score': 0.0}" ++ nl;
    "{'score': 0.0}" ++ nl;
    "not json" ++ nl;
    "{'user_id': 'u2', 'score': 8}" ++ nl;
    "{'user_id': 'u1', 'actions': ['login', 'compress_data'], 'score': 0.0}" ++ nl ]%string.

(** A stand-in for [json.dumps]: it tells the number of entries. *)
Definition sample_dumps (v : value) : string :=
  match py_len v with
  | Ok n => ("[" ++ str_of_nat n ++ " entries]")%string
  | Raise _ => "null"
  end.

(** The input files of the sample runs. *)
Definition sample_files (path : string) : file_state :=
  if String.eqb path "markov.jsonl" then Text (String.concat "" sample_batch)
  else if String.eqb path "som.json"
  then Text "[{'user_id': 'u3', 'attack_score': 5, 'benign_score': 1, 'total_epochs': 10, 'flagged_epochs': 10}]"
  else if String.eqb path "quiet.jsonl"
  then Text "{'user_id': 'u2', 'actions': ['foo', 'foo', 'foo'], 'score': 0.5}"
  else if String.eqb path "zero.json"
  then Text "[{'user_id': 'u4', 'attack_score': 5, 'benign_score': 1, 'total_epochs': 0, 'flagged_epochs': 0}]"
  else Missing.

(** No report yet, every path writable, nothing printed. *)
Definition sample_world : world :=
  {| files := sample_files; write_denied := fun _ => false; stdout := [] |}.

(** The same files with a report left by an earlier run. *)
Definition later_world : world :=
  {| files := fun path => if String.eqb path REPORT_FILE_NAME then Text "[]"
                          else sample_files path;
     write_denied := fun _ => false;
     stdout := [] |}.

(** The same files with a report the user may not read. *)
Definition denied_world : world :=
  {| files := fun path => if String.eqb path REPORT_FILE_NAME then Denied 2
                          else sample_files path;
     write_denied := fun _ => false;
     stdout := [] |}.

(** The same files with a report that is not JSON. *)
Definition corrupt_world : world :=
  {| files := fun path => if String.eqb path REPORT_FILE_NAME then Text "not json"
                          else sample_files path;
     write_denied := fun _ => false;
     stdout := [] |}.

(** The entry the sequence source appends for user u1. *)
Definition sample_markov_entry : value :=
  markov_entry "Markov_User_2_TopRisk" (VStr "u1") example1 [markov_login_match 1.0].

Definition quiet_args : args :=
  {| markov_file := Some "quiet.jsonl"; som_file := None; test := false |}.

Definition both_args : args :=
  {| markov_file := Some "markov.jsonl"; som_file := Some "som.json"; test := false |}.

(** A record whose action [upload] fills three of five positions. *)
Definition repeated_record : value :=
  VDict [ ("user_id", VStr "u6");
          ("sequence", VStr "Upload -> auth_login -> upload -> UPLOAD -> read");
          ("score", VNum 4) ].

(** A record in the arrow form. *)
Definition arrow_record : value :=
  VDict [ ("user_id", VStr "u7"); ("sequence", VStr "open -> Login"); ("score", VNum 0) ].

(** A user flagged in every epoch, with no attack score. *)
Definition always_flagged_record : value :=
  VDict [ ("user_id", VStr "u8"); ("attack_score", VNum 0); ("benign_score", VNum 3);
          ("total_epochs", VNum 12); ("flagged_epochs", VNum 12) ].

(** A run on the map file alone. *)
Definition som_only_args : args :=
  {| markov_file := None; som_file := Some "som.json"; test := false |}.

(** The entry the map source appends for the third example. *)
Definition sample_som_entry : value :=
  som_entry 0 (VStr "u3") example3
    [ som_high_match (VNum 5) (5 / 10); som_mixed_match (VNum 5) (VNum 1) (5 / 10) ].

(** A parser that also reads back what [sample_dumps] writes for the
    one-entry report of the map sample. *)
Definition rereading_loads (text : string) : option value :=
  if String.eqb text "[1 entries]" then Some (VList [sample_som_entry])
  else sample_loads text.

(** A table of two users, the first below the gate. *)
Definition two_users : user_table :=
  [ (VStr "u2", {| risk_score := 0.5 / 4.0; data := example2; original_line_num := 1 |});
    (VStr "u1", {| risk_score := 1.0; data := example1; original_line_num := 2 |}) ].

(** * Facts about the builtins *)

Lemma Qlt_bool_iff (x y : Q) : Qlt_bool x y = true <-> x < y.
Proof.
  unfold Qlt_bool. rewrite negb_true_iff. split; intro H.
  - apply Qnot_le_lt. intro Hle. apply Qle_bool_iff in Hle. congruence.
  - destruct (Qle_bool y x) eqn:E; [|reflexivity].
    apply Qle_bool_iff in E. exfalso. exact (Qlt_not_le _ _ H E).
Qed.

Lemma Qlt_bool_false_iff (x y : Q) : Qlt_bool x y = false <-> y <= x.
Proof.
  unfold Qlt_bool. rewrite negb_false_iff. apply Qle_bool_iff.
Qed.

Lemma Qdiv_4 (q : Q) : q / 4.0 == q * (1 # 4).
Proof.
  unfold Qdiv. change (/ 4.0) with (10 # 40). apply Qmult_comp; reflexivity.
Qed.

Lemma py_min_spec (a b : Q) : py_min a b == Qmin a b.
Proof.
  unfold py_min. destruct (Qlt_bool b a) eqn:E.
  - apply Qlt_bool_iff in E. symmetry. apply Q.min_r. apply Qlt_le_weak, E.
  - apply Qlt_bool_false_iff in E. symmetry. apply Q.min_l, E.
Qed.

Lemma py_min_left (a b : Q) : a <= b -> py_min a b = a.
Proof.
  intro H. unfold py_min. apply Qlt_bool_false_iff in H. now rewrite H.
Qed.

Lemma py_min_mono (a x y : Q) : x <= y -> py_min a x <= py_min a y.
Proof.
  intro H. rewrite !py_min_spec. apply Q.min_le_compat_l, H.
Qed.

Lemma py_eq_num (v : value) (q x : Q) :
  as_num v = Some q -> py_eq v (VNum x) = Qeq_bool q x.
Proof.
  destruct v as [|[]| | | |]; simpl; intros [= <-]; reflexivity.
Qed.

(** * The normalizer *)

Lemma risk_score_absent (d : list (string * value)) :
  assoc "score" d = None \/ assoc "score" d = Some VNone ->
  calculate_risk_score (VDict d) = Ok 0.0.
Proof.
  intros [H | H]; unfold calculate_risk_score; simpl; rewrite H; reflexivity.
Qed.

Lemma risk_score_zero (d : list (string * value)) (score : value) :
  assoc "score" d = Some score ->
  py_eq score (VNum 0.0) = true ->
  calculate_risk_score (VDict d) = Ok 1.0.
Proof.
  intros H E. unfold calculate_risk_score. simpl. rewrite H. simpl.
  destruct score; try rewrite E; try reflexivity; discriminate.
Qed.

Lemma risk_score_positive (d : list (string * value)) (score : value) (q : Q) :
  assoc "score" d = Some score ->
  as_num score = Some q ->
  0 < q ->
  calculate_risk_score (VDict d) = Ok (py_min 1.0 (q / 4.0)).
Proof.
  intros H N Hq. unfold calculate_risk_score. simpl. rewrite H. simpl.
  assert (E0 : py_eq score (VNum 0.0) = false).
  { rewrite (py_eq_num _ _ _ N). destruct (Qeq_bool q 0.0) eqn:E; [|reflexivity].
    apply Qeq_bool_iff in E. lra. }
  assert (G : py_gt score (VNum 0.0) = Ok true).
  { unfold py_gt. rewrite N. simpl. f_equal. apply Qlt_bool_iff. lra. }
  assert (D : py_truediv score (VNum 4.0) = Ok (q / 4.0)).
  { unfold py_truediv. rewrite N. reflexivity. }
  destruct score; try discriminate; rewrite E0, G; cbn [bind]; rewrite D; reflexivity.
Qed.

Lemma risk_score_negative (d : list (string * value)) (score : value) (q : Q) :
  assoc "score" d = Some score ->
  as_num score = Some q ->
  q < 0 ->
  calculate_risk_score (VDict d) = Ok 0.0.
Proof.
  intros H N Hq. unfold calculate_risk_score. simpl. rewrite H. simpl.
  assert (E0 : py_eq score (VNum 0.0) = false).
  { rewrite (py_eq_num _ _ _ N). destruct (Qeq_bool q 0.0) eqn:E; [|reflexivity].
    apply Qeq_bool_iff in E. lra. }
  assert (G : py_gt score (VNum 0.0) = Ok false).
  { unfold py_gt. rewrite N. simpl. f_equal. apply Qlt_bool_false_iff. lra. }
  destruct score; try discriminate; rewrite E0, G; reflexivity.
Qed.

(** The engine's own normalizer (lines 34-41) is [calculate_risk_score]. *)
Lemma _map_markov_generic_eq (sequence_data : value) :
  _map_markov_generic sequence_data =
  (sequence <- markov_sequence sequence_data;;
   anomaly_score <- calculate_risk_score sequence_data;;
   markov_rules sequence anomaly_score).
Proof.
  destruct sequence_data; reflexivity.
Qed.

(** The risk score lies in [0, 1]. *)
Lemma risk_score_range (sequence_data : value) (m : Q) :
  calculate_risk_score sequence_data = Ok m -> 0 <= m <= 1.
Proof.
  unfold calculate_risk_score. destruct sequence_data as [| | | | |d]; try discriminate.
  cbn [py_get bind]. set (score := match assoc "score" d with Some v => v | None => VNone end).
  assert (R : (if py_eq score (VNum 0.0) then Ok 1.0
               else positive <- py_gt score (VNum 0.0);;
                    if positive
                    then scaled <- py_truediv score (VNum 4.0);; Ok (py_min 1.0 scaled)
                    else Ok 0.0) = Ok m -> 0 <= m <= 1).
  { destruct (py_eq score (VNum 0.0)).
    - intros [= <-]. split; discriminate.
    - unfold py_gt, py_truediv. destruct (as_num score) as [q|]; [|discriminate].
      cbn [as_num bind]. destruct (Qlt_bool 0.0 q) eqn:P.
      + change (Qeq_bool 4.0 0) with false. cbn [bind]. intros [= <-].
        apply Qlt_bool_iff in P. unfold py_min.
        destruct (Qlt_bool (q / 4.0) 1.0) eqn:L.
        * apply Qlt_bool_iff in L. revert L. rewrite Qdiv_4. intro L. split; lra.
        * split; discriminate.
      + intros [= <-]. split; discriminate. }
  destruct score; try exact R; intros [= <-]; split; discriminate.
Qed.

(** C1.  The normalizer of the sequence source, [calculate_risk_score]:
    a record without a score has metric 0.0; a record whose score equals
    0.0 has metric exactly 1.0; a record whose score is a number [q > 0]
    has metric [min(1.0, q / 4.0)], which is the least of 1.0 and the
    quotient and does not decrease when the score grows.  The rule engine
    computes its anomaly score by the same steps: [_map_markov_generic] is
    [calculate_risk_score] followed by the gate and the rules. *)
Theorem calculate_risk_score_spec :
  (forall d, assoc "score" d = None -> calculate_risk_score (VDict d) = Ok 0.0) /\
  (forall d score,
      assoc "score" d = Some score -> py_eq score (VNum 0.0) = true ->
      calculate_risk_score (VDict d) = Ok 1.0) /\
  (forall d score q,
      assoc "score" d = Some score -> as_num score = Some q -> 0.0 < q ->
      calculate_risk_score (VDict d) = Ok (py_min 1.0 (q / 4.0)) /\
      py_min 1.0 (q / 4.0) == Qmin 1.0 (q / 4.0)) /\
  (forall d1 d2 score1 score2 q1 q2,
      assoc "score" d1 = Some score1 -> as_num score1 = Some q1 ->
      assoc "score" d2 = Some score2 -> as_num score2 = Some q2 ->
      0.0 < q1 -> q1 <= q2 ->
      exists m1 m2,
        calculate_risk_score (VDict d1) = Ok m1 /\
        calculate_risk_score (VDict d2) = Ok m2 /\
        m1 <= m2) /\
  (forall sequence_data,
      _map_markov_generic sequence_data =
      (sequence <- markov_sequence sequence_data;;
       anomaly_score <- calculate_risk_score sequence_data;;
       markov_rules sequence anomaly_score)).
Proof.
  split; [|split; [|split; [|split]]].
  - intros d H. apply risk_score_absent. now left.
  - intros d score H E. exact (risk_score_zero d score H E).
  - intros d score q H N Hq. split.
    + apply (risk_score_positive d score q H N). lra.
    + apply py_min_spec.
  - intros d1 d2 score1 score2 q1 q2 H1 N1 H2 N2 Hq Hle.
    exists (py_min 1.0 (q1 / 4.0)), (py_min 1.0 (q2 / 4.0)). split; [|split].
    + apply (risk_score_positive d1 score1 q1 H1 N1). lra.
    + apply (risk_score_positive d2 score2 q2 H2 N2). lra.
    + apply py_min_mono. rewrite !Qdiv_4. lra.
  - exact _map_markov_generic_eq.
Qed.

Lemma calculate_risk_score_spec_witness :
  calculate_risk_score (VDict [("user_id", VStr "u0")]) = Ok 0.0 /\
  calculate_risk_score example1 = Ok 1.0 /\
  calculate_risk_score example2 = Ok (py_min 1.0 (0.5 / 4.0)) /\
  (exists m1 m2,
      calculate_risk_score example2 = Ok m1 /\
      calculate_risk_score (VDict [("score", VNum 6)]) = Ok m2 /\
      m1 <= m2).
Proof.
  destruct calculate_risk_score_spec as (Habsent & Hzero & Hpos & Hmono & _).
  split; [|split; [|split]].
  - apply Habsent. reflexivity.
  - apply (Hzero _ (VNum 0.0)); reflexivity.
  - apply (Hpos _ (VNum 0.5) 0.5); reflexivity.
  - apply (Hmono _ _ (VNum 0.5) (VNum 6) 0.5 6); try reflexivity. discriminate.
Defined.

(** * The rules of the sequence source *)

(** What the rules return: nothing below the gate; at or above it, the
    login match, the repetition match and the fallback, each present or
    not, in that order. *)
Lemma markov_rules_shape (sequence : value) (m : Q) (techniques : list value) :
  markov_rules sequence m = Ok techniques ->
  (Qlt_bool m 0.9 = true /\ techniques = []) \/
  (Qlt_bool m 0.9 = false /\
   exists login repeated : bool,
     techniques =
       ((if login then [markov_login_match m] else []) ++
        (if repeated then [markov_repetitive_match m] else []) ++
        (if Qeq_bool m 1.0 && negb (login || repeated)
         then [markov_fallback_match m] else []))%list).
Proof.
  unfold markov_rules. destruct (Qlt_bool m 0.9) eqn:G.
  - intros [= <-]. now left.
  - intro H. right. split; [reflexivity|].
    destruct (py_iter sequence) as [actions|]; [|discriminate]. cbn [bind] in H.
    destruct (any_login actions) as [login|]; [|discriminate]. cbn [bind] in H.
    destruct (py_len sequence) as [n|]; [|discriminate]. cbn [bind] in H.
    destruct (3 <=? n)%nat.
    + destruct (count_actions actions []) as [counts|]; [|discriminate].
      cbn [bind] in H. exists login, (existsb (repetitive n) counts).
      destruct login, (existsb (repetitive n) counts), (Qeq_bool m 1.0);
        injection H as <-; reflexivity.
    + cbn [bind] in H. exists login, false.
      destruct login, (Qeq_bool m 1.0); injection H as <-; reflexivity.
Qed.

Lemma map_markov_sequence_shape (sequence_data : value) (techniques : list value) :
  map_markov_sequence sequence_data = Ok techniques ->
  exists sequence m,
    markov_sequence sequence_data = Ok sequence /\
    calculate_risk_score sequence_data = Ok m /\
    markov_rules sequence m = Ok techniques.
Proof.
  unfold map_markov_sequence. rewrite _map_markov_generic_eq.
  destruct (markov_sequence sequence_data) as [sequence|]; [|discriminate].
  cbn [bind]. destruct (calculate_risk_score sequence_data) as [m|]; [|discriminate].
  cbn [bind]. intro H. now exists sequence, m.
Qed.

Ltac split_members :=
  repeat match goal with
         | H : exists _, _ |- _ => destruct H
         | H : _ /\ _ |- _ => destruct H
         | H : In _ _ |- _ => cbn in H
         | H : _ \/ _ |- _ => destruct H
         | H : False |- _ => destruct H
         end; subst.

Lemma produced_login (m : Q) (login repeated fallback : bool) :
  produced "markov_suspicious_login_pattern" (matches m login repeated fallback)
  <-> login = true.
Proof.
  unfold produced, matches. split.
  - intro H. destruct login; [reflexivity|].
    destruct repeated, fallback; split_members; discriminate.
  - intros ->. exists (markov_login_match m). split; [now left | reflexivity].
Qed.

Lemma produced_repetitive (m : Q) (login repeated fallback : bool) :
  produced "markov_repetitive_action_pattern" (matches m login repeated fallback)
  <-> repeated = true.
Proof.
  unfold produced, matches. split.
  - intro H. destruct repeated; [reflexivity|].
    destruct login, fallback; split_members; discriminate.
  - intros ->. exists (markov_repetitive_match m). split; [|reflexivity].
    destruct login; cbn; auto.
Qed.

Lemma produced_fallback (m : Q) (login repeated fallback : bool) :
  (exists t, In t (matches m login repeated fallback) /\
             py_getitem t "id" = Ok (VStr "TA0009"))
  <-> fallback = true.
Proof.
  unfold matches. split.
  - intro H. destruct fallback; [reflexivity|].
    destruct login, repeated; split_members; discriminate.
  - intros ->. exists (markov_fallback_match m). split; [|reflexivity].
    destruct login, repeated; cbn; auto.
Qed.

Lemma matches_member (m : Q) (login repeated fallback : bool) (t : value) :
  In t (matches m login repeated fallback) ->
  t = markov_login_match m \/ t = markov_repetitive_match m \/ t = markov_fallback_match m.
Proof.
  unfold matches. destruct login, repeated, fallback; intro H; split_members; auto.
Qed.

(** ** Totality on well-typed records *)

Lemma any_login_total (l : list value) :
  forallb is_str l = true -> exists b, any_login l = Ok b.
Proof.
  induction l as [|a l IH]; intro H.
  - now exists false.
  - cbn in H. apply andb_true_iff in H as [Ha Hl].
    destruct a; try discriminate. cbn.
    destruct (contains "login" (lower s)); [now exists true | auto].
Qed.

Lemma count_actions_total (l : list value) (counts : list (string * nat)) :
  forallb is_str l = true -> exists counts', count_actions l counts = Ok counts'.
Proof.
  revert counts. induction l as [|a l IH]; intros counts H.
  - now exists counts.
  - cbn in H. apply andb_true_iff in H as [Ha Hl].
    destruct a; try discriminate. cbn [count_actions py_lower bind].
    destruct (negb _); auto.
Qed.

Lemma markov_rules_total (l : list value) (m : Q) :
  forallb is_str l = true -> exists techniques, markov_rules (VList l) m = Ok techniques.
Proof.
  intro H. unfold markov_rules. destruct (Qlt_bool m 0.9); [now eexists|].
  cbn [py_iter py_len bind].
  destruct (any_login_total l H) as [login ->]. cbn [bind].
  destruct (3 <=? length l)%nat.
  - destruct (count_actions_total l [] H) as [counts ->]. cbn [bind]. now eexists.
  - cbn [bind]. now eexists.
Qed.

Lemma forallb_is_str_map (f : string -> string) (l : list string) :
  forallb is_str (map (fun a => VStr (f a)) l) = true.
Proof.
  induction l; [reflexivity | exact IHl].
Qed.

Lemma markov_sequence_total (sequence_data : value) :
  sequence_record sequence_data = true ->
  exists l, markov_sequence sequence_data = Ok (VList l) /\ forallb is_str l = true.
Proof.
  destruct sequence_data as [| | | | |d]; try discriminate. unfold sequence_record.
  rewrite !andb_true_iff. intros [[Hs Ha] _].
  unfold markov_sequence. cbn [py_get bind].
  assert (A : exists l, py_get (VDict d) "actions" (VList []) = Ok (VList l)
                        /\ forallb is_str l = true).
  { cbn [py_get]. destruct (assoc "actions" d) as [[]|]; try discriminate;
      eexists; split; try reflexivity; assumption. }
  destruct (assoc "sequence" d) as [v|].
  - destruct v; try discriminate. destruct (truthy (VStr s)); [|exact A].
    cbn [py_split_arrow bind]. eexists. split; [reflexivity|].
    apply forallb_is_str_map.
  - exact A.
Qed.

Lemma risk_score_total (d : list (string * value)) :
  score_ok d = true -> exists m, calculate_risk_score (VDict d) = Ok m.
Proof.
  unfold score_ok, calculate_risk_score. cbn [py_get bind]. intro Hs.
  destruct (assoc "score" d) as [score|]; [|now eexists].
  destruct (as_num score) as [q|] eqn:N.
  - assert (R : exists m,
               (if py_eq score (VNum 0.0) then Ok 1.0
                else positive <- py_gt score (VNum 0.0);;
                     if positive
                     then scaled <- py_truediv score (VNum 4.0);; Ok (py_min 1.0 scaled)
                     else Ok 0.0) = Ok m).
    { destruct (py_eq score (VNum 0.0)); [now eexists|].
      unfold py_gt, py_truediv. rewrite N. cbn [as_num bind].
      change (Qeq_bool 4.0 0) with false. destruct (Qlt_bool 0.0 q); now eexists. }
    destruct score; try discriminate; exact R.
  - destruct score; try discriminate. now eexists.
Qed.

Lemma calculate_risk_score_total (sequence_data : value) :
  sequence_record sequence_data = true ->
  exists m, calculate_risk_score sequence_data = Ok m.
Proof.
  destruct sequence_data as [| | | | |d]; try discriminate. unfold sequence_record.
  rewrite !andb_true_iff. intros [_ Hs]. apply risk_score_total, Hs.
Qed.

Lemma map_markov_sequence_total (sequence_data : value) :
  sequence_record sequence_data = true ->
  exists techniques, map_markov_sequence sequence_data = Ok techniques.
Proof.
  intro H. unfold map_markov_sequence. rewrite _map_markov_generic_eq.
  destruct (markov_sequence_total _ H) as (l & -> & Hl).
  destruct (calculate_risk_score_total _ H) as (m & ->).
  cbn [bind]. apply markov_rules_total, Hl.
Qed.

(** ** The end-to-end examples of the specification *)

Example example1_matches : map_markov_sequence example1 = Ok [markov_login_match 1.0].
Proof. reflexivity. Qed.

Example example1_confidence :
  py_getitem (markov_login_match 1.0) "confidence" = Ok (VNum 0.7).
Proof. reflexivity. Qed.

Example example2_metric : calculate_risk_score example2 = Ok (0.5 / 4.0).
Proof. reflexivity. Qed.

Example example2_matches : map_markov_sequence example2 = Ok [].
Proof. reflexivity. Qed.

(** A [sequence] field that is not a string ends the method at line 32,
    before the gate is reached. *)
Example sequence_not_a_string :
  map_markov_sequence (VDict [("sequence", VNum 5); ("score", VNum 1)])
  = Raise AttributeError.
Proof. reflexivity. Qed.

(** C2.  Below the 0.9 gate the rule engine returns no match, whatever
    the actions are: for every record whose [sequence] field, when set, is
    a string, and whose anomaly metric is below 0.9, [map_markov_sequence]
    returns the empty list.  Nothing is assumed of [actions]. *)
Theorem map_markov_sequence_below_gate (d : list (string * value)) (m : Q) :
  (forall v, assoc "sequence" d = Some v -> truthy v = true -> is_str v = true) ->
  calculate_risk_score (VDict d) = Ok m ->
  m < 0.9 ->
  map_markov_sequence (VDict d) = Ok [].
Proof.
  intros Hseq Hm Hlt. unfold map_markov_sequence. rewrite _map_markov_generic_eq.
  assert (S : exists sequence, markov_sequence (VDict d) = Ok sequence).
  { unfold markov_sequence. cbn [py_get bind].
    destruct (assoc "sequence" d) as [v|] eqn:E.
    - destruct (truthy v) eqn:T; [|now eexists].
      specialize (Hseq v eq_refl T). destruct v; try discriminate. now eexists.
    - now eexists. }
  destruct S as [sequence ->]. rewrite Hm. cbn [bind]. unfold markov_rules.
  apply Qlt_bool_iff in Hlt. now rewrite Hlt.
Qed.

Lemma map_markov_sequence_below_gate_witness :
  calculate_risk_score example2 = Ok (py_min 1.0 (0.5 / 4.0)) /\
  py_min 1.0 (0.5 / 4.0) < 0.9 /\
  map_markov_sequence example2 = Ok [].
Proof.
  split; [reflexivity | split; [reflexivity|]].
  apply (map_markov_sequence_below_gate _ (py_min 1.0 (0.5 / 4.0))).
  - intros v H. discriminate H.
  - reflexivity.
  - reflexivity.
Defined.

(** C5.  On every well-typed sequence record the engine returns, and the
    fallback match (id TA0009) is among the returned matches exactly when
    the anomaly metric equals 1.0 and neither the suspicious-login rule
    nor the repetitive-action rule produced a match; a returned TA0009
    match is named Collection and has confidence 0.55. *)
Theorem markov_fallback_iff (sequence_data : value) :
  sequence_record sequence_data = true ->
  exists m techniques,
    calculate_risk_score sequence_data = Ok m /\
    map_markov_sequence sequence_data = Ok techniques /\
    ((exists t, In t techniques /\ py_getitem t "id" = Ok (VStr "TA0009"))
     <->
     (m == 1.0 /\
      ~ produced "markov_suspicious_login_pattern" techniques /\
      ~ produced "markov_repetitive_action_pattern" techniques)) /\
    (forall t, In t techniques -> py_getitem t "id" = Ok (VStr "TA0009") ->
               py_getitem t "name" = Ok (VStr "Collection") /\
               py_getitem t "confidence" = Ok (VNum 0.55) /\
               py_getitem t "rule_matched" = Ok (VStr "markov_max_anomaly_score_fallback")).
Proof.
  intro W. destruct (map_markov_sequence_total _ W) as [techniques Ht].
  destruct (map_markov_sequence_shape _ _ Ht) as (sequence & m & _ & Hm & Hr).
  exists m, techniques. split; [exact Hm|]. split; [exact Ht|].
  destruct (markov_rules_shape _ _ _ Hr) as [[G ->] | [G (login & repeated & ->)]].
  - split.
    + split.
      * intros (t & [] & _).
      * intros (E & _). apply Qlt_bool_iff in G. lra.
    + intros t [].
  - fold (matches m login repeated (Qeq_bool m 1.0 && negb (login || repeated))).
    split.
    + rewrite produced_fallback, produced_login, produced_repetitive.
      rewrite andb_true_iff, negb_true_iff, orb_false_iff, Qeq_bool_iff.
      destruct login, repeated; intuition congruence.
    + intros t Hin Hid.
      destruct (matches_member _ _ _ _ _ Hin) as [-> | [-> | ->]];
        try discriminate Hid. repeat split.
Qed.

Lemma markov_fallback_iff_witness :
  sequence_record example1 = true /\
  exists m techniques,
    calculate_risk_score example1 = Ok m /\
    map_markov_sequence example1 = Ok techniques /\
    ((exists t, In t techniques /\ py_getitem t "id" = Ok (VStr "TA0009"))
     <->
     (m == 1.0 /\
      ~ produced "markov_suspicious_login_pattern" techniques /\
      ~ produced "markov_repetitive_action_pattern" techniques)) /\
    (forall t, In t techniques -> py_getitem t "id" = Ok (VStr "TA0009") ->
               py_getitem t "name" = Ok (VStr "Collection") /\
               py_getitem t "confidence" = Ok (VNum 0.55) /\
               py_getitem t "rule_matched" = Ok (VStr "markov_max_anomaly_score_fallback")).
Proof.
  split; [reflexivity|]. apply (markov_fallback_iff example1). reflexivity.
Defined.

(** C10.  The gate makes the [min] of the two confidence formulas
    vacuous: whatever the record and its score, a T1078 match returned by
    the engine has confidence exactly 0.7 and a T1041 match has confidence
    exactly 0.6. *)
Theorem markov_confidence_fixed (sequence_data : value) (techniques : list value)
    (t : value) :
  map_markov_sequence sequence_data = Ok techniques ->
  In t techniques ->
  (py_getitem t "id" = Ok (VStr "T1078") -> py_getitem t "confidence" = Ok (VNum 0.7)) /\
  (py_getitem t "id" = Ok (VStr "T1041") -> py_getitem t "confidence" = Ok (VNum 0.6)).
Proof.
  intros Ht Hin.
  destruct (map_markov_sequence_shape _ _ Ht) as (sequence & m & _ & _ & Hr).
  destruct (markov_rules_shape _ _ _ Hr) as [[G ->] | [G (login & repeated & ->)]].
  - destruct Hin.
  - apply Qlt_bool_false_iff in G.
    fold (matches m login repeated (Qeq_bool m 1.0 && negb (login || repeated))) in Hin.
    destruct (matches_member _ _ _ _ _ Hin) as [-> | [-> | ->]];
      (split; intro Hid; try discriminate Hid); cbn; do 2 f_equal;
      apply py_min_left; lra.
Qed.

Lemma markov_confidence_fixed_witness :
  map_markov_sequence example1 = Ok [markov_login_match 1.0] /\
  In (markov_login_match 1.0) [markov_login_match 1.0] /\
  (py_getitem (markov_login_match 1.0) "id" = Ok (VStr "T1078") ->
   py_getitem (markov_login_match 1.0) "confidence" = Ok (VNum 0.7)) /\
  (py_getitem (markov_login_match 1.0) "id" = Ok (VStr "T1041") ->
   py_getitem (markov_login_match 1.0) "confidence" = Ok (VNum 0.6)).
Proof.
  split; [reflexivity|]. split; [now left|].
  apply (markov_confidence_fixed example1 [markov_login_match 1.0]).
  - reflexivity.
  - now left.
Defined.

(** * The per-user reducer *)

(** ** Equality of dictionary keys *)

Lemma py_eq_refl (a : value) : hashable a = true -> py_eq a a = true.
Proof.
  destruct a as [|[]|q|s|l|d]; intro H; try discriminate H; try reflexivity.
  - apply Qeq_bool_refl.
  - apply String.eqb_refl.
Qed.

Lemma py_eq_sym (a b : value) :
  hashable a = true -> hashable b = true -> py_eq a b = py_eq b a.
Proof.
  destruct a as [|[]| | | |], b as [|[]| | | |]; cbn [py_eq as_num hashable];
    intros Ha Hb; try reflexivity; try discriminate;
    first [apply Qeq_bool_comm | apply String.eqb_sym].
Qed.

Lemma py_eq_trans (a b c : value) :
  hashable a = true -> hashable b = true -> hashable c = true ->
  py_eq a b = true -> py_eq b c = true -> py_eq a c = true.
Proof.
  destruct a as [|[]| | | |], b as [|[]| | | |], c as [|[]| | | |];
    cbn [py_eq as_num hashable];
    intros Ha Hb Hc H1 H2; try reflexivity; try discriminate;
    first [ exact (Qeq_bool_trans _ _ _ H1 H2)
          | apply String.eqb_eq in H1; subst; exact H2 ].
Qed.

(** ** The table operations *)

Lemma lookup_user_found (u : value) (t : user_table) (old : risk_item) :
  lookup_user u t = Some old -> exists k, In (k, old) t /\ py_eq k u = true.
Proof.
  induction t as [|[k it] t IH]; [discriminate|]. cbn.
  destruct (py_eq k u) eqn:E.
  - intros [= ->]. exists k. auto.
  - intro H. destruct (IH H) as (k' & Hin & Hk). exists k'. auto.
Qed.

Lemma lookup_user_missing (u : value) (t : user_table) :
  lookup_user u t = None -> Forall (fun k => py_eq k u = false) (map fst t).
Proof.
  induction t as [|[k it] t IH]; [constructor|]. cbn.
  destruct (py_eq k u) eqn:E; [discriminate|]. intro H. constructor; auto.
Qed.

Lemma store_user_new (u : value) (new : risk_item) (t : user_table) :
  lookup_user u t = None -> store_user u new t = (t ++ [(u, new)])%list.
Proof.
  induction t as [|[k it] t IH]; [reflexivity|]. cbn.
  destruct (py_eq k u); [discriminate|]. intro H. now rewrite IH.
Qed.

Lemma store_user_keys (u : value) (new old : risk_item) (t : user_table) :
  lookup_user u t = Some old -> map fst (store_user u new t) = map fst t.
Proof.
  induction t as [|[k it] t IH]; [discriminate|]. cbn.
  destruct (py_eq k u); [reflexivity|]. intro H. cbn. now rewrite IH.
Qed.

Lemma store_user_found (u : value) (new old : risk_item) (t : user_table) :
  lookup_user u t = Some old ->
  exists k,
    py_eq k u = true /\
    In (k, old) t /\
    In (k, new) (store_user u new t) /\
    (forall e, In e t -> e = (k, old) \/ In e (store_user u new t)) /\
    (forall e, In e (store_user u new t) -> e = (k, new) \/ In e t).
Proof.
  induction t as [|[k it] t IH]; [discriminate|]. cbn [lookup_user store_user].
  destruct (py_eq k u) eqn:E.
  - intros [= ->]. exists k. split; [exact E|]. split; [now left|].
    split; [now left|]. split.
    + intros e [<- | He]; [now left | right; now right].
    + intros e [<- | He]; [now left | right; now right].
  - intro H. destruct (IH H) as (k' & Hk & Hino & Hin & Hold & Hnew). exists k'.
    split; [exact Hk|]. split; [now right|]. split; [now right|]. split.
    + intros e [<- | He]; [right; now left|].
      destruct (Hold e He) as [-> | He']; [now left | right; now right].
    + intros e [<- | He]; [right; now left|].
      destruct (Hnew e He) as [-> | He']; [now left | right; now right].
Qed.

Lemma distinct_snoc (keys : list value) (u : value) :
  distinct keys -> Forall (fun k => py_eq k u = false) keys -> distinct (keys ++ [u]).
Proof.
  induction keys as [|k keys IH]; cbn.
  - intros _ _. split; [constructor | exact I].
  - intros [Hk Hd] Hu. inversion Hu as [|? ? Hku Hrest]; subst. split.
    + apply Forall_app. split; [exact Hk | constructor; [exact Hku | constructor]].
    + apply IH; assumption.
Qed.

Lemma distinct_unique (t : user_table) (k1 k2 u : value) (i1 i2 : risk_item) :
  distinct (map fst t) ->
  Forall (fun k => hashable k = true) (map fst t) -> hashable u = true ->
  In (k1, i1) t -> In (k2, i2) t ->
  py_eq k1 u = true -> py_eq k2 u = true ->
  (k1, i1) = (k2, i2).
Proof.
  intros Hd Hh Hu.
  assert (Clash : forall a b, hashable a = true -> hashable b = true ->
                  py_eq a u = true -> py_eq b u = true -> py_eq a b = true).
  { intros a b Ha Hb E1 E2. apply (py_eq_trans a u b); auto.
    rewrite (py_eq_sym u b); auto. }
  induction t as [|[k it] t IH]; [intros []|].
  cbn in Hd, Hh. destruct Hd as [Hk Hd]. inversion Hh as [|? ? Hkh Hth]; subst.
  assert (Other : forall k' i', In (k', i') t -> py_eq k' u = true ->
                  py_eq k u = true -> False).
  { intros k' i' Hin E' E. rewrite Forall_forall in Hk, Hth.
    assert (Hin' : In k' (map fst t)) by (apply (in_map fst) in Hin; exact Hin).
    specialize (Hk k' Hin'). rewrite (Clash k k') in Hk; auto. discriminate. }
  intros [[= <- <-] | H1] [[= <- <-] | H2] E1 E2.
  - reflexivity.
  - exfalso. exact (Other _ _ H2 E2 E1).
  - exfalso. exact (Other _ _ H1 E1 E2).
  - apply IH; assumption.
Qed.

Section Reducer.

Variable json_loads : string -> option value.

Lemma record_at_old (pre : list string) (line : string) (i : nat) (r : value) :
  record_at json_loads pre i = Some r -> record_at json_loads (pre ++ [line]) i = Some r /\ (i < length pre)%nat.
Proof.
  unfold record_at. destruct (nth_error pre i) as [l|] eqn:E; [|discriminate].
  assert (Hi : (i < length pre)%nat) by (apply nth_error_Some; congruence).
  rewrite nth_error_app1 by exact Hi. rewrite E. auto.
Qed.

Lemma record_at_snoc (pre : list string) (line : string) (i : nat) (r : value) :
  record_at json_loads (pre ++ [line]) i = Some r ->
  record_at json_loads pre i = Some r \/ (i = length pre /\ json_loads (strip line) = Some r).
Proof.
  unfold record_at. destruct (Nat.lt_ge_cases i (length pre)) as [Hi | Hi].
  - rewrite nth_error_app1 by exact Hi. auto.
  - rewrite nth_error_app2 by exact Hi.
    destruct (i - length pre)%nat as [|n] eqn:E.
    + cbn. intro H. right. split; [lia | exact H].
    + cbn. destruct n; discriminate.
Qed.

Lemma record_at_last (pre : list string) (line : string) :
  record_at json_loads (pre ++ [line]) (length pre) = json_loads (strip line).
Proof.
  unfold record_at. rewrite nth_error_app2 by lia. now rewrite Nat.sub_diag.
Qed.

Lemma retains_snoc (pre : list string) (line : string) (k : value) (item : risk_item) :
  retains json_loads pre k item ->
  retains json_loads (pre ++ [line]) k item /\ (original_line_num item <= length pre)%nat.
Proof.
  intros (i & u & Hn & Hr & Hrest).
  destruct (record_at_old pre line i _ Hr) as [Hr' Hi].
  split; [|lia]. exists i, u. auto.
Qed.

(** A line that adds no record to consider leaves the table reduced. *)
Lemma reduced_skip (pre : list string) (line : string) (t : user_table) :
  reduced json_loads pre t ->
  (forall sequence_data u,
      json_loads (strip line) = Some sequence_data ->
      py_get sequence_data "user_id" VNone = Ok u -> truthy u = false) ->
  reduced json_loads (pre ++ [line]) t.
Proof.
  intros (Hd & Hret & Hdom) Hskip. split; [exact Hd|]. split.
  - intros k item Hin. apply retains_snoc, Hret, Hin.
  - intros i sd u m Hr Hu Ht Hm.
    destruct (record_at_snoc _ _ _ _ Hr) as [Hold | [_ Hnew]].
    + exact (Hdom i sd u m Hold Hu Ht Hm).
    + rewrite (Hskip sd u Hnew Hu) in Ht. discriminate.
Qed.

(** A record that does not beat the stored one leaves the table reduced. *)
Lemma reduced_keep (pre : list string) (line : string) (t : user_table)
    (sequence_data u : value) (m : Q) (old : risk_item) :
  reduced json_loads pre t ->
  json_loads (strip line) = Some sequence_data ->
  py_get sequence_data "user_id" VNone = Ok u ->
  calculate_risk_score sequence_data = Ok m ->
  lookup_user u t = Some old ->
  Qlt_bool (risk_score old) m = false ->
  reduced json_loads (pre ++ [line]) t.
Proof.
  intros (Hd & Hret & Hdom) Hline Hu Hm Hold Hle. split; [exact Hd|]. split.
  - intros k item Hin. apply retains_snoc, Hret, Hin.
  - intros i sd' u' m' Hr Hu' Ht' Hm'.
    destruct (record_at_snoc _ _ _ _ Hr) as [Hprev | [Hi Hnew]].
    + exact (Hdom i sd' u' m' Hprev Hu' Ht' Hm').
    + rewrite Hline in Hnew. injection Hnew as <-.
      rewrite Hu in Hu'. injection Hu' as <-.
      rewrite Hm in Hm'. injection Hm' as <-.
      destruct (lookup_user_found _ _ _ Hold) as (k & Hin & Hk).
      exists k, old. split; [exact Hin|]. split; [exact Hk|].
      apply Qlt_bool_false_iff in Hle. split; [exact Hle|].
      intros _. destruct (retains_snoc pre line k old (Hret _ _ Hin)) as [_ Hn]. lia.
Qed.

(** The first record of a user enters the table. *)
Lemma reduced_insert (pre : list string) (line : string) (t : user_table)
    (sequence_data u : value) (m : Q) :
  reduced json_loads pre t ->
  json_loads (strip line) = Some sequence_data ->
  py_get sequence_data "user_id" VNone = Ok u ->
  truthy u = true -> hashable u = true ->
  calculate_risk_score sequence_data = Ok m ->
  lookup_user u t = None ->
  reduced json_loads (pre ++ [line])
    (store_user u {| risk_score := m; data := sequence_data;
                     original_line_num := S (length pre) |} t).
Proof.
  intros (Hd & Hret & Hdom) Hline Hu Ht Hh Hm Hnone.
  rewrite (store_user_new _ _ _ Hnone).
  set (new := {| risk_score := m; data := sequence_data;
                 original_line_num := S (length pre) |}).
  assert (Rnew : retains json_loads (pre ++ [line]) u new).
  { exists (length pre), u. rewrite record_at_last. repeat split; auto.
    apply py_eq_refl, Hh. }
  split; [|split].
  - rewrite map_app. apply distinct_snoc; [exact Hd|].
    apply lookup_user_missing, Hnone.
  - intros k item Hin. apply in_app_or in Hin as [Hin | [[= <- <-] | []]].
    + apply retains_snoc, Hret, Hin.
    + exact Rnew.
  - intros i sd' u' m' Hr Hu' Ht' Hm'.
    destruct (record_at_snoc _ _ _ _ Hr) as [Hprev | [Hi Hnew]].
    + destruct (Hdom i sd' u' m' Hprev Hu' Ht' Hm') as (k & item & Hin & Hrest).
      exists k, item. split; [apply in_or_app; now left | exact Hrest].
    + rewrite Hline in Hnew. injection Hnew as <-.
      rewrite Hu in Hu'. injection Hu' as <-.
      rewrite Hm in Hm'. injection Hm' as <-.
      exists u, new. split; [apply in_or_app; right; now left|].
      split; [apply py_eq_refl, Hh|]. split; [apply Qle_refl|].
      intros _. cbn. lia.
Qed.

(** A record with a strictly higher score replaces the stored one. *)
Lemma reduced_replace (pre : list string) (line : string) (t : user_table)
    (sequence_data u : value) (m : Q) (old : risk_item) :
  reduced json_loads pre t ->
  json_loads (strip line) = Some sequence_data ->
  py_get sequence_data "user_id" VNone = Ok u ->
  truthy u = true -> hashable u = true ->
  calculate_risk_score sequence_data = Ok m ->
  lookup_user u t = Some old ->
  Qlt_bool (risk_score old) m = true ->
  reduced json_loads (pre ++ [line])
    (store_user u {| risk_score := m; data := sequence_data;
                     original_line_num := S (length pre) |} t).
Proof.
  intros (Hd & Hret & Hdom) Hline Hu Ht Hh Hm Hold Hlt.
  set (new := {| risk_score := m; data := sequence_data;
                 original_line_num := S (length pre) |}).
  destruct (store_user_found u new old t Hold) as (k & Hk & Hkold & Hin & Hkept & Hfrom).
  apply Qlt_bool_iff in Hlt.
  assert (Rnew : retains json_loads (pre ++ [line]) k new).
  { destruct (Hret _ _ Hkold) as (i0 & u0 & _ & _ & _ & _ & _ & Hkh & _).
    exists (length pre), u. rewrite record_at_last. repeat split; auto. }
  split; [|split].
  - rewrite (store_user_keys u new old t Hold). exact Hd.
  - intros k' item Hin'. destruct (Hfrom _ Hin') as [[= -> ->] | Hprev].
    + exact Rnew.
    + apply retains_snoc, Hret, Hprev.
  - intros i sd' u' m' Hr Hu' Ht' Hm'.
    destruct (record_at_snoc _ _ _ _ Hr) as [Hprev | [Hi Hnew]].
    + destruct (Hdom i sd' u' m' Hprev Hu' Ht' Hm') as (k' & item & Hin' & Hku & Hle & Htie).
      destruct (Hkept _ Hin') as [[= -> ->] | Hstill].
      * exists k, new. split; [exact Hin|]. split; [exact Hku|]. cbn.
        split; [lra|]. intro E. lra.
      * exists k', item. auto.
    + rewrite Hline in Hnew. injection Hnew as <-.
      rewrite Hu in Hu'. injection Hu' as <-.
      rewrite Hm in Hm'. injection Hm' as <-.
      exists k, new. split; [exact Hin|]. split; [exact Hk|].
      split; [apply Qle_refl|]. intros _. cbn. lia.
Qed.

(** The first loop, started after the lines [pre] with a reduced table,
    ends with the reduced table of all the lines. *)
Lemma scan_lines_reduced (rest pre : list string) (t : user_table) :
  forallb (scannable json_loads) rest = true ->
  reduced json_loads pre t ->
  exists t',
    scan_lines json_loads rest (length pre) t = Ok (length (pre ++ rest), t') /\
    reduced json_loads (pre ++ rest) t'.
Proof.
  revert pre t. induction rest as [|line rest IH]; intros pre t Hs Hred.
  - exists t. rewrite app_nil_r. auto.
  - cbn [forallb] in Hs. apply andb_true_iff in Hs as [Hline Hrest].
    assert (Next : forall t1, reduced json_loads (pre ++ [line]) t1 ->
              exists t', scan_lines json_loads rest (S (length pre)) t1
                         = Ok (length (pre ++ line :: rest), t') /\
                         reduced json_loads (pre ++ line :: rest) t').
    { intros t1 H1. destruct (IH (pre ++ [line])%list t1 Hrest H1) as (t' & Heq & Hr).
      rewrite <- app_assoc in Heq, Hr. cbn [app] in Heq, Hr.
      rewrite length_app in Heq at 1. cbn [length] in Heq.
      rewrite Nat.add_1_r in Heq. exists t'. auto. }
    cbn [scan_lines]. unfold scannable in Hline.
    destruct (json_loads (strip line)) as [sequence_data|] eqn:Hparse.
    2:{ apply Next, reduced_skip; [exact Hred|]. intros sd u H. congruence. }
    destruct sequence_data as [| | | | |d]; try discriminate.
    apply andb_true_iff in Hline as [Huser Hscore].
    cbn [py_get bind].
    set (u := match assoc "user_id" d with Some v => v | None => VNone end).
    assert (Hu : py_get (VDict d) "user_id" VNone = Ok u) by reflexivity.
    destruct (truthy u) eqn:Ht; cbn [negb].
    2:{ apply Next, reduced_skip; [exact Hred|]. intros sd u' H Hu'.
        rewrite Hparse in H. injection H as <-. rewrite Hu in Hu'.
        injection Hu' as <-. exact Ht. }
    assert (Hh : hashable u = true).
    { unfold u in *. destruct (assoc "user_id" d) as [v|]; [|discriminate].
      rewrite Ht in Huser. cbn in Huser. now rewrite orb_false_r in Huser. }
    destruct (risk_score_total d Hscore) as [m Hm]. rewrite Hm. cbn [bind].
    unfold user_absent, stored_risk. rewrite Hh.
    destruct (lookup_user u t) as [old|] eqn:Hold; cbn [bind].
    + destruct (Qlt_bool (risk_score old) m) eqn:Hlt.
      * apply Next. eapply reduced_replace; eassumption.
      * apply Next. eapply reduced_keep; eassumption.
    + apply Next. eapply reduced_insert; eassumption.
Qed.

End Reducer.

(** C4.  The per-user reducer (the first loop of [process_markov_file]).
    On every batch whose parsed lines are records with a hashable user id
    and a numeric (or missing) score, the loop ends without an exception,
    having counted every line, and its table
    - holds at most one entry per user identifier;
    - holds in each entry a record of the batch that carries that user
      identifier, with its risk score and line number;
    - holds, for every record of the batch that has a user identifier, the
      entry of that user, whose risk score is the greater or equal one and
      whose line, when the two scores are equal, is the same or an earlier
      one (the first record met wins a tie);
    - holds no record without a user identifier. *)
Theorem scan_lines_riskiest_per_user
    (json_loads : string -> option value) (lines : list string) :
  forallb (scannable json_loads) lines = true ->
  exists t,
    scan_lines json_loads lines 0 [] = Ok (length lines, t) /\
    (forall u k1 item1 k2 item2,
        hashable u = true ->
        In (k1, item1) t -> In (k2, item2) t ->
        py_eq k1 u = true -> py_eq k2 u = true ->
        (k1, item1) = (k2, item2)) /\
    (forall k item, In (k, item) t -> retains json_loads lines k item) /\
    dominates json_loads lines t /\
    (forall i sequence_data u k item,
        record_at json_loads lines i = Some sequence_data ->
        py_get sequence_data "user_id" VNone = Ok u ->
        truthy u = false ->
        In (k, item) t ->
        original_line_num item <> S i).
Proof.
  intro Hs.
  assert (H0 : reduced json_loads [] []).
  { split; [exact I|]. split; [intros k item []|].
    intros i sd u m Hr. unfold record_at in Hr. rewrite nth_error_nil in Hr.
    discriminate. }
  destruct (scan_lines_reduced json_loads lines [] [] Hs H0) as (t & Heq & Hd & Hret & Hdom).
  cbn [app length] in Heq, Hd, Hret, Hdom. exists t.
  split; [exact Heq|]. split; [|split; [exact Hret|split; [exact Hdom|]]].
  { intros u k1 item1 k2 item2 Hu. apply distinct_unique; [exact Hd| |exact Hu].
    apply Forall_forall. intros k Hk. apply in_map_iff in Hk as ([k' item] & <- & Hin).
    destruct (Hret k' item Hin) as (i & u' & _ & _ & _ & _ & _ & Hh & _). exact Hh. }
  intros i sd u k item Hr Hu Hfalse Hin Hline.
  destruct (Hret k item Hin) as (i' & u' & Hn & Hr' & Hu' & Ht' & _).
  assert (i' = i) by congruence. subst i'.
  rewrite Hr in Hr'. injection Hr' as E. rewrite <- E in Hu'.
  rewrite Hu in Hu'. injection Hu' as E'. congruence.
Qed.

Lemma scan_lines_riskiest_per_user_witness :
  forallb (scannable sample_loads) sample_batch = true /\
  exists t,
    scan_lines sample_loads sample_batch 0 [] = Ok (length sample_batch, t) /\
    (forall u k1 item1 k2 item2,
        hashable u = true ->
        In (k1, item1) t -> In (k2, item2) t ->
        py_eq k1 u = true -> py_eq k2 u = true ->
        (k1, item1) = (k2, item2)) /\
    (forall k item, In (k, item) t -> retains sample_loads sample_batch k item) /\
    dominates sample_loads sample_batch t /\
    (forall i sequence_data u k item,
        record_at sample_loads sample_batch i = Some sequence_data ->
        py_get sequence_data "user_id" VNone = Ok u ->
        truthy u = false ->
        In (k, item) t ->
        original_line_num item <> S i).
Proof.
  split; [reflexivity|].
  apply (scan_lines_riskiest_per_user sample_loads sample_batch). reflexivity.
Defined.

(** On the sample batch: u2 keeps line 2 (risk 1.0, met before the equal
    line 5), u1 keeps line 6, the record without user id is gone. *)
Example scan_lines_sample :
  scan_lines sample_loads sample_batch 0 [] =
  Ok (6%nat,
      [ (VStr "u2", {| risk_score := 1.0;
                       data := VDict [("user_id", VStr "u2"); ("score", VNum 0.0)];
                       original_line_num := 2 |});
        (VStr "u1", {| risk_score := 1.0; data := example1; original_line_num := 6 |}) ]).
Proof. reflexivity. Qed.

(** * The rules of the map source *)

Lemma py_eq_num_r (v w : value) (q : Q) :
  as_num w = Some q ->
  py_eq v w = match as_num v with Some x => Qeq_bool x q | None => false end.
Proof.
  destruct w as [|[]| | | |]; cbn [as_num]; intros [= <-];
    destruct v as [|[]| | | |]; reflexivity.
Qed.

Ltac som_conditions :=
  repeat match goal with
         | |- context [bind (py_gt ?x ?y) _] => destruct (py_gt x y) as [[]|]; cbn [bind]
         end;
  try reflexivity;
  match goal with
  | |- context [Qle_bool ?x ?y] => destruct (Qle_bool x y); reflexivity
  end.

(** With a numeric attack score and a non-zero epoch count the method is
    the three rules in a row; only the third condition can still raise. *)
Lemma map_som_results_eval (d : list (string * value)) (a t : Q) :
  as_num (field d "attack_score" (VNum 0)) = Some a ->
  as_num (field d "total_epochs" (VNum 1)) = Some t ->
  Qeq_bool t 0 = false ->
  map_som_results (VDict d) =
  (mixed <- mixed_condition (field d "attack_score" (VNum 0))
                            (field d "benign_score" (VNum 0));;
   Ok (som_matches (field d "attack_score" (VNum 0)) (field d "benign_score" (VNum 0))
         (field d "flagged_epochs" (VNum 0)) (a / t)
         (Qle_bool 0.3 (a / t))
         (py_eq (field d "flagged_epochs" (VNum 0)) (field d "total_epochs" (VNum 1))
          && py_eq (field d "attack_score" (VNum 0)) (VNum 0))
         mixed)).
Proof.
  intros Na Nt Z. unfold map_som_results. cbn [py_get bind].
  fold (field d "attack_score" (VNum 0)). fold (field d "benign_score" (VNum 0)).
  fold (field d "total_epochs" (VNum 1)). fold (field d "flagged_epochs" (VNum 0)).
  unfold py_truediv. rewrite Na, Nt, Z. cbn [bind]. unfold mixed_condition.
  destruct (py_eq (field d "flagged_epochs" (VNum 0)) (field d "total_epochs" (VNum 1))
            && py_eq (field d "attack_score" (VNum 0)) (VNum 0)) eqn:P.
  - assert (K : py_getitem (VDict d) "flagged_epochs"
                = Ok (field d "flagged_epochs" (VNum 0))).
    { cbn [py_getitem]. apply andb_true_iff in P as [P _]. revert P. unfold field at 1 3.
      destruct (assoc "flagged_epochs" d) as [v|]; [reflexivity|].
      rewrite (py_eq_num_r _ _ _ Nt). cbn [as_num]. rewrite Qeq_bool_comm. congruence. }
    rewrite K. cbn [bind]. som_conditions.
  - cbn [bind]. som_conditions.
Qed.

Lemma map_som_results_shape (som_data : value) (techniques : list value) :
  map_som_results som_data = Ok techniques ->
  exists d a t mixed,
    som_data = VDict d /\
    as_num (field d "attack_score" (VNum 0)) = Some a /\
    as_num (field d "total_epochs" (VNum 1)) = Some t /\
    Qeq_bool t 0 = false /\
    mixed_condition (field d "attack_score" (VNum 0))
                    (field d "benign_score" (VNum 0)) = Ok mixed /\
    techniques =
      som_matches (field d "attack_score" (VNum 0)) (field d "benign_score" (VNum 0))
        (field d "flagged_epochs" (VNum 0)) (a / t)
        (Qle_bool 0.3 (a / t))
        (py_eq (field d "flagged_epochs" (VNum 0)) (field d "total_epochs" (VNum 1))
         && py_eq (field d "attack_score" (VNum 0)) (VNum 0))
        mixed.
Proof.
  destruct som_data as [| | | | |d]; try discriminate. intro H.
  assert (N : exists a t, as_num (field d "attack_score" (VNum 0)) = Some a /\
                          as_num (field d "total_epochs" (VNum 1)) = Some t /\
                          Qeq_bool t 0 = false).
  { revert H. unfold map_som_results. cbn [py_get bind].
    fold (field d "attack_score" (VNum 0)). fold (field d "total_epochs" (VNum 1)).
    unfold py_truediv.
    destruct (as_num (field d "attack_score" (VNum 0))) as [a|]; [|discriminate].
    destruct (as_num (field d "total_epochs" (VNum 1))) as [t|]; [|discriminate].
    destruct (Qeq_bool t 0) eqn:Z; [discriminate|]. intros _. exists a, t. auto. }
  destruct N as (a & t & Na & Nt & Z).
  rewrite (map_som_results_eval d a t Na Nt Z) in H.
  destruct (mixed_condition _ _) as [mixed|] eqn:M; [|discriminate].
  cbn [bind] in H. injection H as <-. exists d, a, t, mixed. repeat split; auto.
Qed.

Lemma map_som_results_total (som_data : value) :
  som_record som_data = true ->
  exists techniques, map_som_results som_data = Ok techniques.
Proof.
  destruct som_data as [| | | | |d]; try discriminate. unfold som_record.
  destruct (as_num (field d "attack_score" (VNum 0))) as [a|] eqn:Na; [|discriminate].
  destruct (as_num (field d "benign_score" (VNum 0))) as [b|] eqn:Nb; [|discriminate].
  destruct (as_num (field d "total_epochs" (VNum 1))) as [t|] eqn:Nt; [|discriminate].
  intro Z. apply negb_true_iff in Z.
  rewrite (map_som_results_eval d a t Na Nt Z).
  unfold mixed_condition, py_gt. rewrite Na, Nb. cbn [as_num bind].
  destruct (Qlt_bool 0 a); [destruct (Qlt_bool 0 b)|]; cbn [bind]; now eexists.
Qed.

Lemma som_matches_proxy (attack benign flagged : value) (q : Q) (high proxy mixed : bool) :
  (exists m, In m (som_matches attack benign flagged q high proxy mixed) /\
             py_getitem m "id" = Ok (VStr "T1090"))
  <-> proxy = true.
Proof.
  unfold som_matches. split.
  - intro H. destruct proxy; [reflexivity|].
    destruct high, mixed; split_members; discriminate.
  - intros ->. exists (som_proxy_match flagged). split; [|reflexivity].
    destruct high; cbn; auto.
Qed.

Lemma som_matches_member (attack benign flagged : value) (q : Q)
    (high proxy mixed : bool) (m : value) :
  In m (som_matches attack benign flagged q high proxy mixed) ->
  m = som_high_match attack q \/ m = som_proxy_match flagged \/
  m = som_mixed_match attack benign q.
Proof.
  unfold som_matches. destruct high, proxy, mixed; intro H; split_members; auto.
Qed.

(** The "always flagged, zero attack score" rule on the records on which
    the division does not fault: the T1090 match is returned exactly when
    [flagged_epochs == total_epochs and attack_score == 0], and its
    confidence is 0.65. *)
Lemma som_proxy_rule (som_data : value) :
  som_record som_data = true ->
  exists d techniques,
    som_data = VDict d /\
    map_som_results som_data = Ok techniques /\
    ((exists m, In m techniques /\ py_getitem m "id" = Ok (VStr "T1090"))
     <->
     (py_eq (field d "flagged_epochs" (VNum 0)) (field d "total_epochs" (VNum 1)) = true /\
      py_eq (field d "attack_score" (VNum 0)) (VNum 0) = true)) /\
    (forall m, In m techniques -> py_getitem m "id" = Ok (VStr "T1090") ->
               py_getitem m "name" = Ok (VStr "Proxy") /\
               py_getitem m "confidence" = Ok (VNum 0.65)).
Proof.
  intro W. destruct (map_som_results_total _ W) as [techniques Ht].
  destruct (map_som_results_shape _ _ Ht) as (d & a & t & mixed & -> & _ & _ & _ & _ & ->).
  exists d. eexists. split; [reflexivity|]. split; [exact Ht|]. split.
  - rewrite som_matches_proxy. apply andb_true_iff.
  - intros m Hin Hid.
    destruct (som_matches_member _ _ _ _ _ _ _ _ Hin) as [-> | [-> | ->]];
      try discriminate Hid. split; reflexivity.
Qed.

Example example3_matches :
  map_som_results example3
  = Ok [ som_high_match (VNum 5) (5 / 10); som_mixed_match (VNum 5) (VNum 1) (5 / 10) ].
Proof. reflexivity. Qed.

Example example3_confidences :
  py_getitem (som_high_match (VNum 5) (5 / 10)) "confidence" = Ok (VNum 0.9) /\
  py_getitem (som_mixed_match (VNum 5) (VNum 1) (5 / 10)) "confidence" = Ok (VNum 0.8).
Proof. split; reflexivity. Qed.

(** C3.  The division of line 93 is not guarded: on every record whose
    [total_epochs] is a number equal to zero (and whose attack score is a
    number), [map_som_results] raises [ZeroDivisionError].  The default 1
    covers the missing key only. *)
Theorem map_som_results_zero_epochs (d : list (string * value)) (total_epochs : value)
    (a t : Q) :
  as_num (field d "attack_score" (VNum 0)) = Some a ->
  assoc "total_epochs" d = Some total_epochs ->
  as_num total_epochs = Some t ->
  t == 0 ->
  map_som_results (VDict d) = Raise ZeroDivisionError.
Proof.
  intros Na Hd Nt Z. unfold map_som_results. cbn [py_get bind].
  fold (field d "attack_score" (VNum 0)). rewrite Hd.
  unfold py_truediv. rewrite Na, Nt. apply Qeq_bool_iff in Z. now rewrite Z.
Qed.

Lemma map_som_results_zero_epochs_witness :
  as_num (VNum 5) = Some 5 /\ as_num (VNum 0) = Some 0 /\ 0 == 0 /\
  map_som_results zero_epochs_record = Raise ZeroDivisionError.
Proof.
  split; [reflexivity|]. split; [reflexivity|]. split; [reflexivity|].
  apply (map_som_results_zero_epochs _ (VNum 0) 5 0); reflexivity.
Defined.

(** Without the key the epoch count is 1 and the division cannot fault. *)
Lemma map_som_results_default_epochs (d : list (string * value)) (a : Q) :
  as_num (field d "attack_score" (VNum 0)) = Some a ->
  assoc "total_epochs" d = None ->
  map_som_results (VDict d) <> Raise ZeroDivisionError.
Proof.
  intros Na Hd. assert (Nt : as_num (field d "total_epochs" (VNum 1)) = Some 1).
  { unfold field. now rewrite Hd. }
  rewrite (map_som_results_eval d a 1 Na Nt eq_refl).
  unfold mixed_condition, py_gt. rewrite Na. cbn [as_num bind].
  destruct (Qlt_bool 0 a); [|discriminate].
  destruct (as_num (field d "benign_score" (VNum 0))); [|discriminate]. cbn [bind].
  destruct (Qlt_bool 0 q); discriminate.
Qed.

(** C6.  On the record of a user with no epoch at all, the condition of
    the "always flagged, zero attack score" rule holds, and the engine
    returns no T1090 match: the method has already raised
    [ZeroDivisionError] on line 93. *)
Theorem map_som_results_proxy_lost :
  py_eq (field never_evaluated_fields "flagged_epochs" (VNum 0))
        (field never_evaluated_fields "total_epochs" (VNum 1)) = true /\
  py_eq (field never_evaluated_fields "attack_score" (VNum 0)) (VNum 0) = true /\
  map_som_results never_evaluated_record = Raise ZeroDivisionError.
Proof.
  repeat split.
Qed.

(** * The report merger *)

Lemma quiet_ret {A : Type} (a : A) : quiet (ret a).
Proof. intro w. split; reflexivity. Qed.

Lemma quiet_raise {A : Type} (e : exn) : quiet (@raise A e).
Proof. intro w. split; reflexivity. Qed.

Lemma quiet_lift {A : Type} (r : result A) : quiet (lift r).
Proof. intro w. split; reflexivity. Qed.

Lemma quiet_print (line : string) : quiet (print line).
Proof. intro w. split; reflexivity. Qed.

Lemma quiet_path_exists (path : string) : quiet (path_exists path).
Proof. intro w. split; reflexivity. Qed.

Lemma quiet_getsize (path : string) : quiet (getsize path).
Proof. intro w. split; reflexivity. Qed.

Lemma quiet_open_r (path : string) : quiet (open_r path).
Proof. intro w. split; reflexivity. Qed.

Lemma quiet_read (f : file_state) : quiet (read f).
Proof. intro w. destruct f; split; reflexivity. Qed.

Lemma quiet_bind {A B : Type} (m : IO A) (k : A -> IO B) :
  quiet m -> (forall a, quiet (k a)) -> quiet (bindIO m k).
Proof.
  intros Hm Hk w. unfold bindIO. specialize (Hm w).
  destruct (m w) as [[a|e] w1]; cbn [snd] in Hm.
  - destruct (Hk a w1) as [H1 H2]. destruct Hm as [H3 H4]. split; congruence.
  - exact Hm.
Qed.

Lemma quiet_try {A : Type} (body : IO A) (handled : exn -> bool) (handler : exn -> IO A) :
  quiet body -> (forall e, quiet (handler e)) -> quiet (try_except body handled handler).
Proof.
  intros Hb Hh w. unfold try_except. specialize (Hb w).
  destruct (body w) as [[a|e] w1]; cbn [snd] in Hb; [exact Hb|].
  destruct (handled e); [|exact Hb].
  destruct (Hh e w1) as [H1 H2]. destruct Hb as [H3 H4]. split; congruence.
Qed.

Create HintDb quiet.

#[local] Hint Resolve quiet_ret quiet_raise quiet_lift quiet_print quiet_path_exists
  quiet_getsize quiet_open_r quiet_read : quiet.

Ltac quiet_steps :=
  repeat first
    [ apply quiet_bind; [|intro]
    | apply quiet_try; [|intro]
    | solve [auto with quiet]
    | match goal with
      | |- quiet (match ?x with _ => _ end) => destruct x
      | |- quiet (let '(_, _) := ?x in _) => destruct x
      end ].

Section Merger.

Variable json_loads : string -> option value.
Variable json_dumps : value -> string.

Lemma quiet_json_load (f : file_state) : quiet (json_load json_loads f).
Proof. unfold json_load. quiet_steps. Qed.

#[local] Hint Resolve quiet_json_load : quiet.

Lemma quiet_load_existing_report (path : string) :
  quiet (load_existing_report json_loads path).
Proof. unfold load_existing_report. quiet_steps. Qed.

Lemma quiet_process_markov_file (path : string) (report_list : value) :
  quiet (process_markov_file json_loads path report_list).
Proof. unfold process_markov_file. quiet_steps. Qed.

Lemma quiet_process_som_file (path : string) (report_list : value) :
  quiet (process_som_file json_loads path report_list).
Proof. unfold process_som_file. quiet_steps. Qed.

#[local] Hint Resolve quiet_process_markov_file quiet_process_som_file : quiet.

Lemma quiet_process_inputs (a : args) (final_report : value) :
  quiet (process_inputs json_loads a final_report).
Proof.
  unfold process_inputs. quiet_steps.
Qed.

End Merger.

(** ** Entries are appended, and only with matches *)

Lemma appended_refl (r : value) : appended r [] r.
Proof. left. auto. Qed.

Lemma appended_step (r r1 v x : value) (new : list value) :
  py_append r x = Ok r1 -> appended r1 new v -> appended r (x :: new) v.
Proof.
  destruct r as [| | | |l|]; try discriminate. intros [= <-] [[-> ->] | (l' & [= <-] & ->)].
  - right. exists l. auto.
  - right. exists l. rewrite <- app_assoc. auto.
Qed.

Lemma bindIO_ok {A B : Type} (m : IO A) (k : A -> IO B) (w w' : world) (b : B) :
  bindIO m k w = (Ok b, w') -> exists a w1, m w = (Ok a, w1) /\ k a w1 = (Ok b, w').
Proof.
  unfold bindIO. destruct (m w) as [[a|e] w1]; [|discriminate].
  intro H. now exists a, w1.
Qed.

Lemma try_except_ok {A : Type} (body : IO A) (handled : exn -> bool)
    (handler : exn -> IO A) (w w' : world) (a : A) :
  try_except body handled handler w = (Ok a, w') ->
  body w = (Ok a, w') \/
  (exists e w1, body w = (Raise e, w1) /\ handled e = true /\ handler e w1 = (Ok a, w')).
Proof.
  unfold try_except. destruct (body w) as [[x|e] w1].
  - intros [= -> ->]. now left.
  - destruct (handled e) eqn:E; [|discriminate]. intro H. right. now exists e, w1.
Qed.

Lemma lift_ok {A : Type} (r : result A) (w w' : world) (a : A) :
  lift r w = (Ok a, w') -> r = Ok a.
Proof. unfold lift. now intros [= -> _]. Qed.

Lemma ret_ok {A : Type} (x a : A) (w w' : world) : ret x w = (Ok a, w') -> x = a.
Proof. unfold ret. now intros [= -> _]. Qed.

Lemma map_riskiest_appends (items : user_table) (i c : nat) (r : value) (c' : nat) (v : value) :
  map_riskiest items i c r = Ok (c', v) ->
  exists new, appended r new v /\ Forall (detection map_markov_sequence) new.
Proof.
  revert i c r. induction items as [|[user_id item] items IH]; intros i c r.
  - intros [= _ <-]. exists []. split; [apply appended_refl | constructor].
  - cbn [map_riskiest].
    destruct (map_markov_sequence (data item)) as [techniques|] eqn:M; [|discriminate].
    cbn [bind]. destruct (truthy (VList techniques)) eqn:T.
    + destruct (py_append r _) as [r1|] eqn:P; [|discriminate]. cbn [bind].
      intro H. destruct (IH _ _ _ H) as (new & Hnew & Hall).
      eexists (_ :: new). split; [exact (appended_step _ _ _ _ _ P Hnew)|].
      constructor; [|exact Hall]. exists (data item), techniques.
      repeat split; auto. destruct techniques; [discriminate T | discriminate].
    + apply IH.
Qed.

Lemma map_som_appends (items : list value) (i c : nat) (r : value) (c' : nat) (v : value) :
  map_som items i c r = Ok (c', v) ->
  exists new, appended r new v /\ Forall (detection map_som_results) new.
Proof.
  revert i c r. induction items as [|som_data items IH]; intros i c r.
  - intros [= _ <-]. exists []. split; [apply appended_refl | constructor].
  - cbn [map_som].
    destruct (map_som_results som_data) as [techniques|] eqn:M; [|discriminate].
    cbn [bind]. destruct (truthy (VList techniques)) eqn:T.
    + destruct (py_get som_data "user_id" (VStr "N/A")) as [user_id|]; [|discriminate].
      cbn [bind]. destruct (py_append r _) as [r1|] eqn:P; [|discriminate]. cbn [bind].
      intro H. destruct (IH _ _ _ H) as (new & Hnew & Hall).
      eexists (_ :: new). split; [exact (appended_step _ _ _ _ _ P Hnew)|].
      constructor; [|exact Hall]. exists som_data, techniques.
      repeat split; auto. destruct techniques; [discriminate T | discriminate].
    + apply IH.
Qed.

Section Appends.

Variable json_loads : string -> option value.

Lemma process_markov_file_appends (path : string) (r v : value) (w w' : world) :
  process_markov_file json_loads path r w = (Ok v, w') ->
  exists new, appended r new v /\ Forall (detection map_markov_sequence) new.
Proof.
  unfold process_markov_file. intro H.
  apply bindIO_ok in H as (_ & w1 & _ & H).
  apply bindIO_ok in H as ([t|] & w2 & _ & H).
  - apply bindIO_ok in H as (_ & w3 & _ & H).
    apply bindIO_ok in H as ([c' v'] & w4 & Hm & H).
    apply lift_ok in Hm.
    apply bindIO_ok in H as (_ & w5 & _ & H). apply ret_ok in H. cbn [snd] in H. subst v'.
    exact (map_riskiest_appends _ _ _ _ _ _ Hm).
  - apply ret_ok in H. subst v. exists []. split; [apply appended_refl | constructor].
Qed.

Lemma process_som_file_appends (path : string) (r v : value) (w w' : world) :
  process_som_file json_loads path r w = (Ok v, w') ->
  exists new, appended r new v /\ Forall (detection map_som_results) new.
Proof.
  unfold process_som_file. intro H.
  apply bindIO_ok in H as (_ & w1 & _ & H).
  apply bindIO_ok in H as ([[c n] r'] & w2 & Ht & H).
  apply bindIO_ok in H as (_ & w3 & _ & H). apply ret_ok in H. subst r'.
  apply try_except_ok in Ht as [Ht | (e & w4 & _ & _ & Ht)].
  - apply bindIO_ok in Ht as (f & w5 & _ & Ht).
    apply bindIO_ok in Ht as (som_results & w6 & _ & Ht).
    apply bindIO_ok in Ht as (total & w7 & _ & Ht).
    apply bindIO_ok in Ht as (items & w8 & _ & Ht).
    apply bindIO_ok in Ht as ([c' v'] & w9 & Hm & Ht).
    apply lift_ok in Hm. apply ret_ok in Ht. cbn [fst snd] in Ht. injection Ht as _ _ ->.
    exact (map_som_appends _ _ _ _ _ _ Hm).
  - apply bindIO_ok in Ht as (_ & w5 & _ & Ht). apply ret_ok in Ht. injection Ht as _ _ <-.
    exists []. split; [apply appended_refl | constructor].
Qed.

(** C9.  Each processing step returns the report it was given with new
    entries appended, and every appended entry carries a non-empty
    [detected_techniques] list: the list the rule engine returned for the
    entry's [raw_data]. *)
Theorem appended_entries_have_techniques (path : string) (r v : value) (w : world) :
  (fst (process_markov_file json_loads path r w) = Ok v ->
   exists new, appended r new v /\ Forall (detection map_markov_sequence) new) /\
  (fst (process_som_file json_loads path r w) = Ok v ->
   exists new, appended r new v /\ Forall (detection map_som_results) new).
Proof.
  split; intro H.
  - apply (process_markov_file_appends path r v w (snd (process_markov_file json_loads path r w))).
    rewrite <- H. apply surjective_pairing.
  - apply (process_som_file_appends path r v w (snd (process_som_file json_loads path r w))).
    rewrite <- H. apply surjective_pairing.
Qed.

End Appends.

(** On the sample batch the sequence source appends two entries. *)
Lemma appended_entries_have_techniques_witness :
  fst (process_markov_file sample_loads "markov.jsonl" (VList []) sample_world)
  = Ok (VList [ markov_entry "Markov_User_1_TopRisk" (VStr "u2")
                  (VDict [("user_id", VStr "u2"); ("score", VNum 0.0)])
                  [markov_fallback_match 1.0];
                sample_markov_entry ]) /\
  exists new,
    appended (VList [])
      new
      (VList [ markov_entry "Markov_User_1_TopRisk" (VStr "u2")
                 (VDict [("user_id", VStr "u2"); ("score", VNum 0.0)])
                 [markov_fallback_match 1.0];
               sample_markov_entry ]) /\
    Forall (detection map_markov_sequence) new.
Proof.
  split; [reflexivity|].
  apply (appended_entries_have_techniques sample_loads "markov.jsonl" (VList []) _ sample_world).
  reflexivity.
Defined.

(** ** Loading the earlier report *)

Section Loading.

Variable json_loads : string -> option value.

(** The states of the report file that [load_existing_report] handles.
    It returns
    - the empty report, printing nothing, when the file is missing or is an
      empty text;
    - the parsed value, after the "Loading" line, when the file is a
      non-empty text that parses;
    - the empty report, after the "Loading" line and the warning, when the
      file is a non-empty text that does not parse. *)
Theorem load_existing_report_spec (path : string) (w : world) :
  (files w path = Missing \/ files w path = Text "" ->
   load_existing_report json_loads path w = (Ok (VList []), w)) /\
  (forall text v,
      files w path = Text text -> text <> "" -> json_loads text = Some v ->
      load_existing_report json_loads path w = (Ok v, printed w [loading_line path])) /\
  (forall text,
      files w path = Text text -> text <> "" -> json_loads text = None ->
      load_existing_report json_loads path w
      = (Ok (VList []), printed w [loading_line path; warning_line JSONDecodeError])).
Proof.
  unfold load_existing_report, try_except, bindIO, path_exists, getsize, open_r, print,
    json_load, read, ret, raise.
  split; [|split].
  - intros [H | H]; repeat (rewrite H; cbn); reflexivity.
  - intros text v H Hne Hv. repeat (rewrite H; cbn).
    destruct text as [|c text]; [congruence|]. cbn. repeat (rewrite H; cbn).
    rewrite Hv. reflexivity.
  - intros text H Hne Hv. repeat (rewrite H; cbn).
    destruct text as [|c text]; [congruence|]. cbn. repeat (rewrite H; cbn).
    rewrite Hv. cbn. unfold printed. cbn. rewrite <- app_assoc. reflexivity.
Qed.

End Loading.

Lemma load_existing_report_spec_witness :
  load_existing_report sample_loads REPORT_FILE_NAME sample_world
  = (Ok (VList []), sample_world) /\
  load_existing_report sample_loads REPORT_FILE_NAME later_world
  = (Ok (VList []), printed later_world [loading_line REPORT_FILE_NAME]) /\
  load_existing_report sample_loads REPORT_FILE_NAME corrupt_world
  = (Ok (VList []),
     printed corrupt_world [loading_line REPORT_FILE_NAME; warning_line JSONDecodeError]).
Proof.
  split; [|split].
  - apply (load_existing_report_spec sample_loads REPORT_FILE_NAME sample_world).
    left. reflexivity.
  - apply (load_existing_report_spec sample_loads REPORT_FILE_NAME later_world) with (text := "[]").
    + reflexivity.
    + discriminate.
    + reflexivity.
  - apply (load_existing_report_spec sample_loads REPORT_FILE_NAME corrupt_world)
      with (text := "not json").
    + reflexivity.
    + discriminate.
    + reflexivity.
Defined.

(** C8.  The handler of line 146 is there to start a new report when the
    earlier one cannot be loaded, but it names [FileNotFoundError] and
    [JSONDecodeError] only.  On a report that exists and may not be read,
    [open] raises [PermissionError]: the load does not return the empty
    report, no warning is printed, and the exception ends the run before
    any input is read. *)
Lemma load_existing_report_permission_error :
  load_existing_report sample_loads REPORT_FILE_NAME denied_world
  = (Raise PermissionError, denied_world) /\
  fst (main sample_loads sample_dumps
         {| markov_file := Some "markov.jsonl"; som_file := None; test := false |}
         denied_world)
  = Raise PermissionError.
Proof. split; reflexivity. Qed.

(** ** The guarded rewrite *)

Lemma appended_len (r v : value) (new : list value) (n0 n1 : nat) :
  appended r new v -> py_len r = Ok n0 -> py_len v = Ok n1 ->
  n1 = (n0 + length new)%nat.
Proof.
  intros [[-> ->] | (l & -> & ->)] H0 H1.
  - cbn. rewrite H0 in H1. injection H1 as <-. lia.
  - cbn in H0, H1. rewrite length_app in H1. congruence.
Qed.

Lemma appended_trans (r r1 v : value) (new1 new2 : list value) :
  appended r new1 r1 -> appended r1 new2 v -> appended r (new1 ++ new2) v.
Proof.
  intros [[-> ->] | (l & -> & ->)] H2; [exact H2|].
  destruct H2 as [[-> ->] | (l' & [= <-] & ->)].
  - right. exists l. rewrite app_nil_r. auto.
  - right. exists l. rewrite app_assoc. auto.
Qed.

Section Rewrite.

Variable json_loads : string -> option value.
Variable json_dumps : value -> string.

Lemma main_cases (a : args) :
  quiet (main json_loads json_dumps a) \/ main json_loads json_dumps a = merge json_loads json_dumps a.
Proof.
  unfold main. destruct (given (markov_file a)), (given (som_file a)); auto.
  left. quiet_steps.
Qed.

Lemma process_inputs_appends (a : args) (r v : value) (w : world) :
  fst (process_inputs json_loads a r w) = Ok v ->
  exists new, appended r new v.
Proof.
  intro H.
  assert (H' : process_inputs json_loads a r w
               = (Ok v, snd (process_inputs json_loads a r w))).
  { rewrite <- H. apply surjective_pairing. }
  clear H. revert H'. generalize (snd (process_inputs json_loads a r w)). intros w' H.
  unfold process_inputs in H. apply bindIO_ok in H as (r1 & w1 & H1 & H2).
  assert (A1 : exists new, appended r new r1).
  { destruct (given (markov_file a)).
    - destruct (process_markov_file_appends _ _ _ _ _ _ H1) as (new & Hn & _). now exists new.
    - apply ret_ok in H1. subst. exists []. apply appended_refl. }
  assert (A2 : exists new, appended r1 new v).
  { destruct (given (som_file a)).
    - destruct (process_som_file_appends _ _ _ _ _ _ H2) as (new & Hn & _). now exists new.
    - apply ret_ok in H2. subst. exists []. apply appended_refl. }
  destruct A1 as [new1 A1], A2 as [new2 A2]. exists (new1 ++ new2)%list.
  exact (appended_trans _ _ _ _ _ A1 A2).
Qed.

(** The write step touches the files only when the report has grown. *)
Lemma write_report_guard (final_report : value) (initial_report_size : nat) (w : world) :
  files (snd (write_report json_dumps final_report initial_report_size w)) = files w \/
  exists size, py_len final_report = Ok size /\ (initial_report_size < size)%nat.
Proof.
  unfold write_report, bindIO, lift. destruct (py_len final_report) as [size|]; [|now left].
  destruct (initial_report_size <? size)%nat eqn:G.
  - right. exists size. split; [reflexivity|]. apply Nat.ltb_lt, G.
  - now left.
Qed.

(** C7.  The run rewrites the report file only when the report in memory
    is longer than it was when loaded: either the run leaves every file
    as it was, or the loaded report of length [n0] grew, by entries
    appended in this run, to a length [n1 > n0].  So a run whose
    processing appends nothing (the report comes back as loaded) leaves
    the files, the report file included, unchanged. *)
Theorem main_rewrites_only_on_growth (a : args) (w : world) :
  (files (snd (main json_loads json_dumps a w)) = files w \/
   exists loaded final new n0 n1,
     fst (load_existing_report json_loads REPORT_FILE_NAME w) = Ok loaded /\
     fst (process_inputs json_loads a loaded
            (snd (load_existing_report json_loads REPORT_FILE_NAME w))) = Ok final /\
     appended loaded new final /\
     py_len loaded = Ok n0 /\ py_len final = Ok n1 /\ (n0 < n1)%nat /\
     n1 = (n0 + length new)%nat) /\
  (forall loaded,
     fst (load_existing_report json_loads REPORT_FILE_NAME w) = Ok loaded ->
     fst (process_inputs json_loads a loaded
            (snd (load_existing_report json_loads REPORT_FILE_NAME w))) = Ok loaded ->
     files (snd (main json_loads json_dumps a w)) = files w).
Proof.
  assert (Main :
    files (snd (main json_loads json_dumps a w)) = files w \/
    exists loaded final new n0 n1,
      fst (load_existing_report json_loads REPORT_FILE_NAME w) = Ok loaded /\
      fst (process_inputs json_loads a loaded
             (snd (load_existing_report json_loads REPORT_FILE_NAME w))) = Ok final /\
      appended loaded new final /\
      py_len loaded = Ok n0 /\ py_len final = Ok n1 /\ (n0 < n1)%nat /\
      n1 = (n0 + length new)%nat).
  { destruct (main_cases a) as [Q | ->]; [left; apply Q|].
    unfold merge. unfold bindIO at 1.
    pose proof (quiet_load_existing_report json_loads REPORT_FILE_NAME w) as [QL _].
    destruct (load_existing_report json_loads REPORT_FILE_NAME w) as [[loaded|e] w1];
      cbn [snd fst] in *; [|now left].
    unfold bindIO at 1, lift at 1.
    destruct (py_len loaded) as [n0|] eqn:L0; [|now left].
    unfold bindIO at 1.
    pose proof (quiet_process_inputs json_loads a loaded w1) as [QP _].
    pose proof (process_inputs_appends a loaded) as PA. specialize (fun v => PA v w1).
    destruct (process_inputs json_loads a loaded w1) as [[final|e] w2] eqn:EP;
      cbn [snd fst] in *; [|left; congruence].
    destruct (PA final eq_refl) as [new Hnew].
    unfold bindIO at 1.
    destruct (write_report_guard final n0 w2) as [QW | (n1 & L1 & G)].
    - left.
      assert (QR : quiet
                (print "FINAL ANALYSIS SUMMARY:" ;;;
                 size <~ lift (py_len final);;
                 print ("   Total entries in merged report: " ++ str_of_nat size) ;;;
                 print "Analysis and Merging Complete!")) by quiet_steps.
      destruct (write_report json_dumps final n0 w2) as [[[]|e] w3]; cbn [snd] in *.
      + destruct (QR w3) as [QF _]. congruence.
      + congruence.
    - right. exists loaded, final, new, n0, n1. rewrite EP.
      repeat split; auto. exact (appended_len _ _ _ _ _ Hnew L0 L1). }
  split; [exact Main|].
  intros loaded HL HP. destruct Main as [Q | (l' & final & new & n0 & n1 & HL' & HP' & _ & L0 & L1 & G & _)].
  - exact Q.
  - rewrite HL in HL'. injection HL' as <-. rewrite HP in HP'. injection HP' as <-.
    rewrite L0 in L1. injection L1 as <-. lia.
Qed.

End Rewrite.

Lemma main_rewrites_only_on_growth_witness :
  fst (load_existing_report sample_loads REPORT_FILE_NAME later_world) = Ok (VList []) /\
  fst (process_inputs sample_loads quiet_args (VList [])
         (snd (load_existing_report sample_loads REPORT_FILE_NAME later_world)))
  = Ok (VList []) /\
  files (snd (main sample_loads sample_dumps quiet_args later_world)) = files later_world.
Proof.
  split; [reflexivity|]. split; [reflexivity|].
  apply (proj2 (main_rewrites_only_on_growth sample_loads sample_dumps quiet_args
                  later_world) (VList [])).
  - reflexivity.
  - reflexivity.
Defined.

(** A run that finds detections writes the merged report. *)
Example main_writes_new_detections :
  files (snd (main sample_loads sample_dumps both_args sample_world)) REPORT_FILE_NAME
  = Text "[3 entries]".
Proof. reflexivity. Qed.

(** The unguarded division ends the whole run: nothing is written, the
    detections of the sequence source included. *)
Example main_zero_epochs :
  fst (main sample_loads sample_dumps
         {| markov_file := Some "markov.jsonl"; som_file := Some "zero.json"; test := false |}
         sample_world) = Raise ZeroDivisionError /\
  files (snd (main sample_loads sample_dumps
                {| markov_file := Some "markov.jsonl"; som_file := Some "zero.json";
                   test := false |}
                sample_world)) REPORT_FILE_NAME = Missing.
Proof. split; reflexivity. Qed.

(** * Further properties of the normalizer *)

Lemma risk_score_range_witness :
  calculate_risk_score example2 = Ok (0.5 / 4.0) /\ 0 <= 0.5 / 4.0 <= 1.
Proof.
  split; [reflexivity|]. apply (risk_score_range example2). reflexivity.
Defined.

(** What [calculate_risk_score] does off the expected inputs: an object
    that is not a dictionary has no [get]; a score that is neither a
    number nor [None] cannot be compared with 0.0; a negative score counts
    as no anomaly. *)
Theorem calculate_risk_score_edges :
  (forall sequence_data,
      (forall d, sequence_data <> VDict d) ->
      calculate_risk_score sequence_data = Raise AttributeError) /\
  (forall d score,
      assoc "score" d = Some score -> score <> VNone -> as_num score = None ->
      calculate_risk_score (VDict d) = Raise TypeError) /\
  (forall d score q,
      assoc "score" d = Some score -> as_num score = Some q -> q < 0 ->
      calculate_risk_score (VDict d) = Ok 0.0).
Proof.
  split; [|split].
  - intros sd H. destruct sd; try reflexivity. now destruct (H d).
  - intros d score Hs Hn Hnum. unfold calculate_risk_score. cbn [py_get bind].
    rewrite Hs. destruct score as [|[]| | | |]; try discriminate; try reflexivity.
    now destruct Hn.
  - intros d score q. apply risk_score_negative.
Qed.

Lemma calculate_risk_score_edges_witness :
  calculate_risk_score (VList []) = Raise AttributeError /\
  calculate_risk_score (VDict [("score", VStr "high")]) = Raise TypeError /\
  calculate_risk_score (VDict [("score", VNum (-2))]) = Ok 0.0.
Proof.
  destruct calculate_risk_score_edges as (Hobj & Htype & Hneg).
  split; [|split].
  - apply Hobj. discriminate.
  - apply (Htype _ (VStr "high")); [reflexivity | discriminate | reflexivity].
  - apply (Hneg _ (VNum (-2)) (-2)); reflexivity.
Defined.

(** The gate and the fallback in terms of the raw score: a numeric score
    [q] passes the 0.9 gate exactly when it is 0 or at least 3.6, and has
    the maximal metric exactly when it is 0 or at least 4. *)
Theorem score_thresholds (d : list (string * value)) (score : value) (q : Q) :
  assoc "score" d = Some score ->
  as_num score = Some q ->
  exists m,
    calculate_risk_score (VDict d) = Ok m /\
    (Qlt_bool m 0.9 = false <-> q == 0 \/ 3.6 <= q) /\
    (Qeq_bool m 1.0 = true <-> q == 0 \/ 4 <= q).
Proof.
  intros Hs Hn.
  destruct (Qlt_le_dec q 0) as [Hneg | Hnn].
  - exists 0.0. split; [exact (risk_score_negative d score q Hs Hn Hneg)|]. split.
    + split; [discriminate|]. intros [E | G]; lra.
    + split; [discriminate|]. intros [E | G]; lra.
  - destruct (Qeq_dec q 0) as [Hz | Hnz].
    + exists 1.0. split.
      * apply (risk_score_zero d score Hs). rewrite (py_eq_num _ _ _ Hn).
        apply Qeq_bool_iff. lra.
      * split; (split; [now left | reflexivity]).
    + assert (Hpos : 0 < q) by (apply Qle_lteq in Hnn as [H | H]; [exact H | now destruct Hnz]).
      exists (py_min 1.0 (q / 4.0)).
      split; [exact (risk_score_positive d score q Hs Hn Hpos)|].
      pose proof (Qdiv_4 q) as D. unfold py_min. set (x := q / 4.0) in *.
      destruct (Qlt_bool x 1.0) eqn:L.
      * apply Qlt_bool_iff in L. split.
        -- rewrite Qlt_bool_false_iff. split; [intro; right; lra|].
           intros [E | G]; lra.
        -- rewrite Qeq_bool_iff. split; [intro; lra|]. intros [E | G]; lra.
      * apply Qlt_bool_false_iff in L. split.
        -- split; [intro; right; lra | reflexivity].
        -- split; [intro; right; lra | reflexivity].
Qed.

Lemma score_thresholds_witness :
  exists m,
    calculate_risk_score (VDict [("score", VNum 3.6)]) = Ok m /\
    (Qlt_bool m 0.9 = false <-> 3.6 == 0 \/ 3.6 <= 3.6) /\
    (Qeq_bool m 1.0 = true <-> 3.6 == 0 \/ 4 <= 3.6).
Proof.
  apply (score_thresholds [("score", VNum 3.6)] (VNum 3.6) 3.6); reflexivity.
Defined.

(** * Further properties of the sequence rules *)

Lemma any_login_spec (l : list value) :
  forallb is_str l = true -> any_login l = Ok (existsb mentions_login l).
Proof.
  induction l as [|a l IH]; intro H; [reflexivity|].
  cbn [forallb] in H. apply andb_true_iff in H as [Ha Hl].
  destruct a; try discriminate. cbn [any_login py_lower bind existsb mentions_login].
  destruct (contains "login" (lower s)); [reflexivity | exact (IH Hl)].
Qed.

Lemma count_of_increment (a k : string) (counts : list (string * nat)) :
  count_of a (increment k counts)
  = if String.eqb a k then S (count_of a counts) else count_of a counts.
Proof.
  unfold count_of. induction counts as [|[k' c] counts IH]; cbn [increment assoc].
  - destruct (String.eqb a k); reflexivity.
  - destruct (String.eqb k k') eqn:E.
    + apply String.eqb_eq in E. subst k'. cbn [assoc].
      destruct (String.eqb a k); reflexivity.
    + cbn [assoc]. destruct (String.eqb a k') eqn:E'.
      * apply String.eqb_eq in E'. subst k'. rewrite String.eqb_sym, E. reflexivity.
      * exact IH.
Qed.

Lemma increment_keys (k : string) (counts : list (string * nat)) :
  NoDup (map fst counts) -> NoDup (map fst (increment k counts)) /\
  (forall a, In a (map fst (increment k counts)) <-> a = k \/ In a (map fst counts)).
Proof.
  induction counts as [|[k' c] counts IH]; cbn [increment map fst]; intro H.
  - split; [constructor; [intros []|constructor]|]. intro a. cbn. intuition.
  - inversion H as [|? ? Hnin Hnd]; subst. destruct (String.eqb k k') eqn:E.
    + apply String.eqb_eq in E. subst k'. cbn [map fst]. split; [exact H|].
      intro a. cbn. intuition.
    + destruct (IH Hnd) as [IH1 IH2]. cbn [map fst]. split.
      * constructor; [|exact IH1]. rewrite IH2. intros [-> | Hin].
        -- rewrite String.eqb_refl in E. discriminate.
        -- exact (Hnin Hin).
      * intro a. cbn. rewrite IH2. intuition.
Qed.

Lemma count_actions_spec (l : list value) (counts : list (string * nat)) :
  forallb is_str l = true ->
  NoDup (map fst counts) ->
  (forall a n, In (a, n) counts -> (0 < n)%nat /\ noise a = false) ->
  exists counts',
    count_actions l counts = Ok counts' /\
    NoDup (map fst counts') /\
    (forall a n, In (a, n) counts' -> (0 < n)%nat /\ noise a = false) /\
    (forall a, count_of a counts'
               = (count_of a counts + if noise a then 0 else occurrences a l)%nat).
Proof.
  revert counts. induction l as [|x l IH]; intros counts Hs Hnd Hpos.
  - exists counts. split; [reflexivity|]. split; [exact Hnd|]. split; [exact Hpos|].
    intro a. unfold occurrences. cbn [lowered count_occ]. destruct (noise a); lia.
  - cbn [forallb] in Hs. apply andb_true_iff in Hs as [Hx Hl].
    destruct x; try discriminate. cbn [count_actions py_lower bind].
    fold (noise (lower s)). destruct (noise (lower s)) eqn:N; cbn [negb].
    + destruct (IH counts Hl Hnd Hpos) as (c' & Hc & Hnd' & Hpos' & Hcount).
      exists c'. split; [exact Hc|]. split; [exact Hnd'|]. split; [exact Hpos'|].
      intro a. rewrite Hcount. unfold occurrences. cbn [lowered count_occ].
      destruct (noise a) eqn:Na; [reflexivity|].
      destruct (string_dec (lower s) a) as [<- | _]; [congruence | reflexivity].
    + destruct (increment_keys (lower s) counts Hnd) as [Hnd1 Hkeys].
      assert (Hpos1 : forall a n, In (a, n) (increment (lower s) counts) ->
                                  (0 < n)%nat /\ noise a = false).
      { clear - Hpos N. induction counts as [|[k c] counts IHc]; cbn [increment].
        - intros a n [[= <- <-] | []]. split; [lia | exact N].
        - destruct (String.eqb (lower s) k) eqn:E.
          + apply String.eqb_eq in E. subst k.
            intros a n [[= <- <-] | Hin]; [split; [lia | exact N]|].
            apply Hpos. now right.
          + intros a n [[= <- <-] | Hin]; [apply Hpos; now left|].
            apply IHc; [|exact Hin]. intros a' n' H'. apply Hpos. now right. }
      destruct (IH _ Hl Hnd1 Hpos1) as (c' & Hc & Hnd' & Hpos' & Hcount).
      exists c'. split; [exact Hc|]. split; [exact Hnd'|]. split; [exact Hpos'|].
      intro a. rewrite Hcount, count_of_increment. unfold occurrences.
      cbn [lowered count_occ]. destruct (String.eqb a (lower s)) eqn:E.
      * apply String.eqb_eq in E. subst a. rewrite N.
        destruct (string_dec (lower s) (lower s)); [lia | congruence].
      * destruct (string_dec (lower s) a) as [<- | _].
        -- rewrite String.eqb_refl in E. discriminate.
        -- reflexivity.
Qed.

Lemma assoc_in {A : Type} (a : string) (n : A) (counts : list (string * A)) :
  NoDup (map fst counts) -> (In (a, n) counts <-> assoc a counts = Some n).
Proof.
  induction counts as [|[k c] counts IH]; cbn [assoc map fst]; intro H.
  - split; [intros [] | discriminate].
  - inversion H as [|? ? Hnin Hnd]; subst. destruct (String.eqb a k) eqn:E.
    + apply String.eqb_eq in E. subst k. split.
      * intros [[= <-] | Hin]; [reflexivity|].
        exfalso. apply Hnin. apply (in_map fst) in Hin. exact Hin.
      * intros [= <-]. now left.
    + rewrite <- (IH Hnd). split.
      * intros [[= <- <-] | Hin]; [|exact Hin].
        rewrite String.eqb_refl in E. discriminate.
      * intro Hin. now right.
Qed.

(** The rules on a sequence of strings, in closed form. *)
Lemma markov_rules_eval (l : list value) (m : Q) :
  forallb is_str l = true ->
  exists counts,
    count_actions l [] = Ok counts /\
    NoDup (map fst counts) /\
    (forall a n, In (a, n) counts -> (0 < n)%nat /\ noise a = false) /\
    (forall a, count_of a counts = if noise a then 0%nat else occurrences a l) /\
    markov_rules (VList l) m =
    Ok (if Qlt_bool m 0.9 then []
        else matches m (existsb mentions_login l)
               ((3 <=? length l)%nat && existsb (repetitive (length l)) counts)
               (Qeq_bool m 1.0 &&
                negb (existsb mentions_login l
                      || ((3 <=? length l)%nat && existsb (repetitive (length l)) counts)))).
Proof.
  intro H.
  destruct (count_actions_spec l [] H) as (counts & Hc & Hnd & Hpos & Hcount).
  { constructor. } { intros a n []. }
  exists counts. split; [exact Hc|]. split; [exact Hnd|]. split; [exact Hpos|].
  split; [intro a; rewrite Hcount; reflexivity|].
  unfold markov_rules. destruct (Qlt_bool m 0.9); [reflexivity|].
  cbn [py_iter py_len bind]. rewrite (any_login_spec l H). cbn [bind].
  destruct (3 <=? length l)%nat; cbn [bind andb].
  - rewrite Hc. cbn [bind].
    destruct (existsb mentions_login l), (existsb (repetitive (length l)) counts),
      (Qeq_bool m 1.0); reflexivity.
  - destruct (existsb mentions_login l), (Qeq_bool m 1.0); reflexivity.
Qed.

Lemma repetitive_exists (l : list value) (counts : list (string * nat)) :
  (3 <= length l)%nat ->
  NoDup (map fst counts) ->
  (forall a n, In (a, n) counts -> (0 < n)%nat /\ noise a = false) ->
  (forall a, count_of a counts = if noise a then 0%nat else occurrences a l) ->
  (existsb (repetitive (length l)) counts = true <->
   exists a, noise a = false /\
             inject_Z (Z.of_nat (length l)) * 0.6 <= inject_Z (Z.of_nat (occurrences a l))).
Proof.
  intros Hlen Hnd Hpos Hcount. rewrite existsb_exists. split.
  - intros ([a n] & Hin & Hr). unfold repetitive in Hr. cbn [snd] in Hr.
    apply Qle_bool_iff in Hr. destruct (Hpos a n Hin) as [_ Hn].
    exists a. split; [exact Hn|]. specialize (Hcount a). rewrite Hn in Hcount.
    apply (assoc_in a n counts Hnd) in Hin. unfold count_of in Hcount.
    rewrite Hin in Hcount. now subst n.
  - intros (a & Hn & Hle). exists (a, occurrences a l). split.
    + apply (assoc_in _ _ _ Hnd). specialize (Hcount a). rewrite Hn in Hcount.
      unfold count_of in Hcount. destruct (assoc a counts) as [n|]; [now subst|].
      exfalso. rewrite <- Hcount in Hle. revert Hle.
      assert (3 <= inject_Z (Z.of_nat (length l))).
      { change 3 with (inject_Z 3). rewrite <- Zle_Qle. lia. }
      change (inject_Z (Z.of_nat 0)) with 0. lra.
    + unfold repetitive. cbn [snd]. apply Qle_bool_iff, Hle.
Qed.

Lemma gate_open (m : Q) : Qlt_bool m 0.9 = false <-> 0.9 <= m.
Proof. apply Qlt_bool_false_iff. Qed.

(** The suspicious-login rule of lines 46-54.  On a well-typed record
    the T1078 match is returned exactly when the metric reaches the gate
    and some action, lowered, contains "login"; the noise actions
    [auth_login] and [auth_logout] count here like any other. *)
Theorem login_rule_iff (sequence_data : value) :
  sequence_record sequence_data = true ->
  exists l m techniques,
    markov_sequence sequence_data = Ok (VList l) /\
    calculate_risk_score sequence_data = Ok m /\
    map_markov_sequence sequence_data = Ok techniques /\
    (produced "markov_suspicious_login_pattern" techniques
     <-> 0.9 <= m /\ exists action, In action l /\ mentions_login action = true).
Proof.
  intro W. destruct (markov_sequence_total _ W) as (l & Hl & Hs).
  destruct (calculate_risk_score_total _ W) as (m & Hm).
  destruct (markov_rules_eval l m Hs) as (counts & _ & _ & _ & _ & Hr).
  exists l, m. eexists. split; [exact Hl|]. split; [exact Hm|]. split.
  - unfold map_markov_sequence. rewrite _map_markov_generic_eq, Hl, Hm. cbn [bind].
    exact Hr.
  - rewrite <- gate_open. destruct (Qlt_bool m 0.9).
    + split; [intros (t & [] & _) | intros [E _]; discriminate].
    + rewrite produced_login, existsb_exists. intuition.
Qed.

Lemma login_rule_iff_witness :
  sequence_record example1 = true /\
  exists l m techniques,
    markov_sequence example1 = Ok (VList l) /\
    calculate_risk_score example1 = Ok m /\
    map_markov_sequence example1 = Ok techniques /\
    (produced "markov_suspicious_login_pattern" techniques
     <-> 0.9 <= m /\ exists action, In action l /\ mentions_login action = true).
Proof.
  split; [reflexivity|]. apply (login_rule_iff example1). reflexivity.
Defined.

(** The repetitive-action rule of lines 56-72.  On a well-typed record
    the T1041 match is returned exactly when the metric reaches the gate,
    the sequence has at least 3 actions, and some action outside the noise
    list occurs, case ignored, in at least 60% of the positions of the
    sequence (noise actions included in the length). *)
Theorem repetition_rule_iff (sequence_data : value) :
  sequence_record sequence_data = true ->
  exists l m techniques,
    markov_sequence sequence_data = Ok (VList l) /\
    calculate_risk_score sequence_data = Ok m /\
    map_markov_sequence sequence_data = Ok techniques /\
    (produced "markov_repetitive_action_pattern" techniques
     <-> 0.9 <= m /\ (3 <= length l)%nat /\
         exists a, noise a = false /\
                   inject_Z (Z.of_nat (length l)) * 0.6
                   <= inject_Z (Z.of_nat (occurrences a l))).
Proof.
  intro W. destruct (markov_sequence_total _ W) as (l & Hl & Hs).
  destruct (calculate_risk_score_total _ W) as (m & Hm).
  destruct (markov_rules_eval l m Hs) as (counts & _ & Hnd & Hpos & Hcount & Hr).
  exists l, m. eexists. split; [exact Hl|]. split; [exact Hm|]. split.
  - unfold map_markov_sequence. rewrite _map_markov_generic_eq, Hl, Hm. cbn [bind].
    exact Hr.
  - rewrite <- gate_open. destruct (Qlt_bool m 0.9).
    + split; [intros (t & [] & _) | intros [E _]; discriminate].
    + rewrite produced_repetitive, andb_true_iff, Nat.leb_le. split.
      * intros [Hlen He]. split; [reflexivity|]. split; [exact Hlen|].
        apply (repetitive_exists l counts Hlen Hnd Hpos Hcount), He.
      * intros (_ & Hlen & He). split; [exact Hlen|].
        apply (repetitive_exists l counts Hlen Hnd Hpos Hcount), He.
Qed.

Lemma repetition_rule_iff_witness :
  sequence_record repeated_record = true /\
  exists l m techniques,
    markov_sequence repeated_record = Ok (VList l) /\
    calculate_risk_score repeated_record = Ok m /\
    map_markov_sequence repeated_record = Ok techniques /\
    (produced "markov_repetitive_action_pattern" techniques
     <-> 0.9 <= m /\ (3 <= length l)%nat /\
         exists a, noise a = false /\
                   inject_Z (Z.of_nat (length l)) * 0.6
                   <= inject_Z (Z.of_nat (occurrences a l))).
Proof.
  split; [reflexivity|]. apply (repetition_rule_iff repeated_record). reflexivity.
Defined.

Example repeated_record_matches :
  map_markov_sequence repeated_record
  = Ok [markov_login_match 1.0; markov_repetitive_match 1.0].
Proof. reflexivity. Qed.

(** The list the sequence engine returns: at most two matches, the login
    match first; no two matches of the same rule; and a fallback match is
    the only match of its list. *)
Theorem markov_matches_shape (sequence_data : value) (techniques : list value) :
  map_markov_sequence sequence_data = Ok techniques ->
  (length techniques <= 2)%nat /\
  NoDup (map rule_of techniques) /\
  (forall t, In t techniques -> py_getitem t "id" = Ok (VStr "TA0009") ->
             techniques = [t]) /\
  (produced "markov_suspicious_login_pattern" techniques ->
   exists t rest, techniques = t :: rest /\
                  rule_of t = Ok (VStr "markov_suspicious_login_pattern")).
Proof.
  intro Ht. destruct (map_markov_sequence_shape _ _ Ht) as (sequence & m & _ & _ & Hr).
  destruct (markov_rules_shape _ _ _ Hr) as [[G ->] | [G (login & repeated & ->)]].
  - split; [cbn; lia|]. split; [constructor|]. split; [intros t []|].
    intros (t & [] & _).
  - destruct login, repeated, (Qeq_bool m 1.0); cbn [andb negb orb app length map];
      (split; [lia|]); (split; [repeat constructor; cbn; intuition discriminate|]);
      (split; [intros t Hin Hid; split_members; try discriminate Hid; reflexivity|]);
      intro H; try (eexists; eexists; split; reflexivity);
      destruct H as (t & Hin & Hrule); split_members; discriminate Hrule.
Qed.

Lemma markov_matches_shape_witness :
  map_markov_sequence repeated_record
  = Ok [markov_login_match 1.0; markov_repetitive_match 1.0] /\
  (length [markov_login_match 1.0; markov_repetitive_match 1.0] <= 2)%nat /\
  NoDup (map rule_of [markov_login_match 1.0; markov_repetitive_match 1.0]).
Proof.
  split; [reflexivity|].
  destruct (markov_matches_shape repeated_record
              [markov_login_match 1.0; markov_repetitive_match 1.0] eq_refl)
    as (Hlen & Hnd & _).
  split; [exact Hlen | exact Hnd].
Defined.

(** Every match the sequence engine returns records, as evidence, the
    anomaly metric of the record, which is at least 0.9, and the source
    "markov". *)
Theorem markov_evidence_is_metric (sequence_data : value) (techniques : list value)
    (t : value) :
  map_markov_sequence sequence_data = Ok techniques ->
  In t techniques ->
  exists m,
    calculate_risk_score sequence_data = Ok m /\ 0.9 <= m /\
    py_getitem t "evidence"
    = Ok (VDict [("anomaly_score", VNum m); ("source", VStr "markov")]).
Proof.
  intros Ht Hin. destruct (map_markov_sequence_shape _ _ Ht) as (sequence & m & _ & Hm & Hr).
  exists m. split; [exact Hm|].
  destruct (markov_rules_shape _ _ _ Hr) as [[G ->] | [G (login & repeated & ->)]].
  - destruct Hin.
  - split; [apply Qlt_bool_false_iff, G|].
    fold (matches m login repeated (Qeq_bool m 1.0 && negb (login || repeated))) in Hin.
    destruct (matches_member _ _ _ _ _ Hin) as [-> | [-> | ->]]; reflexivity.
Qed.

Lemma markov_evidence_is_metric_witness :
  map_markov_sequence example1 = Ok [markov_login_match 1.0] /\
  exists m,
    calculate_risk_score example1 = Ok m /\ 0.9 <= m /\
    py_getitem (markov_login_match 1.0) "evidence"
    = Ok (VDict [("anomaly_score", VNum m); ("source", VStr "markov")]).
Proof.
  split; [reflexivity|].
  apply (markov_evidence_is_metric example1 [markov_login_match 1.0]).
  - reflexivity.
  - now left.
Defined.

(** The two input shapes agree: a record with a non-empty [sequence]
    string is mapped like the record whose [actions] are the stripped
    pieces between the arrows; its own [actions] field, if any, is not
    read. *)
Theorem sequence_string_is_actions (d : list (string * value)) (s : string) :
  assoc "sequence" d = Some (VStr s) ->
  s <> "" ->
  map_markov_sequence (VDict d)
  = map_markov_sequence
      (VDict [ ("actions", VList (map (fun a => VStr (strip a)) (split_arrow s)));
               ("score", field d "score" VNone) ]).
Proof.
  intros Hs Hne. unfold map_markov_sequence. rewrite !_map_markov_generic_eq.
  assert (T : truthy (VStr s) = true).
  { cbn. destruct s; [congruence | reflexivity]. }
  assert (S1 : markov_sequence (VDict d)
               = Ok (VList (map (fun a => VStr (strip a)) (split_arrow s)))).
  { unfold markov_sequence. cbn [py_get bind]. rewrite Hs, T. reflexivity. }
  assert (R : calculate_risk_score (VDict d)
              = calculate_risk_score
                  (VDict [ ("actions", VList (map (fun a => VStr (strip a)) (split_arrow s)));
                           ("score", field d "score" VNone) ])).
  { unfold calculate_risk_score, field. cbn [py_get bind assoc String.eqb Ascii.eqb Bool.eqb].
    destruct (assoc "score" d); reflexivity. }
  rewrite S1, <- R. reflexivity.
Qed.

Lemma sequence_string_is_actions_witness :
  map_markov_sequence arrow_record
  = map_markov_sequence
      (VDict [ ("actions", VList [VStr "open"; VStr "Login"]); ("score", VNum 0) ]).
Proof.
  apply (sequence_string_is_actions
           [ ("user_id", VStr "u7"); ("sequence", VStr "open -> Login"); ("score", VNum 0) ]
           "open -> Login").
  - reflexivity.
  - discriminate.
Defined.

(** ** Letter case *)

Lemma lower_char_idempotent (c : ascii) : lower_char (lower_char c) = lower_char c.
Proof.
  destruct c as [[] [] [] [] [] [] [] []]; reflexivity.
Qed.

Lemma lower_idempotent (s : string) : lower (lower s) = lower s.
Proof.
  induction s as [|c s IH]; [reflexivity|]. cbn. now rewrite lower_char_idempotent, IH.
Qed.

Lemma any_login_lower (l : list value) :
  any_login (map lower_action l) = any_login l.
Proof.
  induction l as [|a l IH]; [reflexivity|].
  destruct a; try reflexivity. cbn [map lower_action any_login py_lower bind].
  rewrite lower_idempotent, IH. reflexivity.
Qed.

Lemma count_actions_lower (l : list value) (counts : list (string * nat)) :
  count_actions (map lower_action l) counts = count_actions l counts.
Proof.
  revert counts. induction l as [|a l IH]; intro counts; [reflexivity|].
  destruct a; try reflexivity. cbn [map lower_action count_actions py_lower bind].
  rewrite lower_idempotent, !IH. reflexivity.
Qed.

(** The rules ignore letter case: two records that differ only in the
    case of their actions get the same matches (or the same exception). *)
Theorem rules_ignore_case (d1 d2 : list (string * value)) (l : list value) :
  assoc "sequence" d1 = None -> assoc "sequence" d2 = None ->
  assoc "actions" d1 = Some (VList l) ->
  assoc "actions" d2 = Some (VList (map lower_action l)) ->
  assoc "score" d1 = assoc "score" d2 ->
  map_markov_sequence (VDict d1) = map_markov_sequence (VDict d2).
Proof.
  intros S1 S2 A1 A2 Hscore. unfold map_markov_sequence. rewrite !_map_markov_generic_eq.
  unfold markov_sequence, calculate_risk_score. cbn [py_get bind].
  rewrite S1, S2, A1, A2, Hscore. cbn [truthy String.eqb negb bind].
  destruct (match match assoc "score" d2 with Some v => v | None => VNone end with
            | VNone => Ok 0.0
            | _ => _ end) as [m|]; [|reflexivity].
  cbn [bind]. unfold markov_rules. cbn [py_iter py_len bind].
  rewrite any_login_lower, count_actions_lower, length_map. reflexivity.
Qed.

Lemma rules_ignore_case_witness :
  map_markov_sequence
    (VDict [("actions", VList [VStr "LOGIN"; VStr "Read"]); ("score", VNum 0)])
  = map_markov_sequence
      (VDict [("actions", VList [VStr "login"; VStr "read"]); ("score", VNum 0)]).
Proof.
  apply (rules_ignore_case
           [("actions", VList [VStr "LOGIN"; VStr "Read"]); ("score", VNum 0)]
           [("actions", VList [VStr "login"; VStr "read"]); ("score", VNum 0)]
           [VStr "LOGIN"; VStr "Read"]); reflexivity.
Defined.

(** * Further properties of the map rules *)

Lemma mixed_condition_spec (attack_score benign_score : value) (a b : Q) :
  as_num attack_score = Some a -> as_num benign_score = Some b ->
  mixed_condition attack_score benign_score
  = Ok (Qlt_bool 0 a && Qlt_bool 0 b && Qlt_bool b a).
Proof.
  intros Na Nb. unfold mixed_condition, py_gt. rewrite Na, Nb. cbn [as_num bind].
  destruct (Qlt_bool 0 a), (Qlt_bool 0 b); reflexivity.
Qed.

Lemma mixed_condition_raises (attack_score benign_score : value) (e : exn) :
  mixed_condition attack_score benign_score = Raise e -> e = TypeError.
Proof.
  unfold mixed_condition, py_gt.
  destruct (as_num attack_score) as [a|]; cbn [as_num bind]; [|now intros [= <-]].
  destruct (Qlt_bool 0 a); [|discriminate].
  destruct (as_num benign_score) as [b|]; cbn [bind]; [|now intros [= <-]].
  destruct (Qlt_bool 0 b); discriminate.
Qed.

Lemma som_matches_high (attack benign flagged : value) (q : Q) (high proxy mixed : bool) :
  (exists m, In m (som_matches attack benign flagged q high proxy mixed) /\
             py_getitem m "id" = Ok (VStr "T1070.004"))
  <-> high = true.
Proof.
  unfold som_matches. split.
  - intro H. destruct high; [reflexivity|].
    destruct proxy, mixed; split_members; discriminate.
  - intros ->. exists (som_high_match attack q). split; [now left | reflexivity].
Qed.

Lemma som_matches_mixed (attack benign flagged : value) (q : Q) (high proxy mixed : bool) :
  (exists m, In m (som_matches attack benign flagged q high proxy mixed) /\
             py_getitem m "id" = Ok (VStr "T1078"))
  <-> mixed = true.
Proof.
  unfold som_matches. split.
  - intro H. destruct mixed; [reflexivity|].
    destruct high, proxy; split_members; discriminate.
  - intros ->. exists (som_mixed_match attack benign q). split; [|reflexivity].
    destruct high, proxy; cbn; auto.
Qed.

(** What a well-typed map record yields, in closed form. *)
Lemma map_som_results_closed (som_data : value) :
  som_record som_data = true ->
  exists d a b t,
    som_data = VDict d /\
    as_num (field d "attack_score" (VNum 0)) = Some a /\
    as_num (field d "benign_score" (VNum 0)) = Some b /\
    as_num (field d "total_epochs" (VNum 1)) = Some t /\
    ~ t == 0 /\
    map_som_results som_data =
    Ok (som_matches (field d "attack_score" (VNum 0)) (field d "benign_score" (VNum 0))
          (field d "flagged_epochs" (VNum 0)) (a / t)
          (Qle_bool 0.3 (a / t))
          (py_eq (field d "flagged_epochs" (VNum 0)) (field d "total_epochs" (VNum 1))
           && py_eq (field d "attack_score" (VNum 0)) (VNum 0))
          (Qlt_bool 0 a && Qlt_bool 0 b && Qlt_bool b a)).
Proof.
  destruct som_data as [| | | | |d]; try discriminate. unfold som_record.
  destruct (as_num (field d "attack_score" (VNum 0))) as [a|] eqn:Na; [|discriminate].
  destruct (as_num (field d "benign_score" (VNum 0))) as [b|] eqn:Nb; [|discriminate].
  destruct (as_num (field d "total_epochs" (VNum 1))) as [t|] eqn:Nt; [|discriminate].
  intro Z. apply negb_true_iff in Z. exists d, a, b, t.
  split; [reflexivity|]. split; [exact Na|]. split; [exact Nb|]. split; [exact Nt|].
  split; [apply Qeq_bool_neq, Z|].
  rewrite (map_som_results_eval d a t Na Nt Z), (mixed_condition_spec _ _ a b Na Nb).
  reflexivity.
Qed.

(** The "high attack score" rule of lines 95-104.  On a well-typed map
    record the T1070.004 match is returned exactly when the rate
    [attack_score / total_epochs] is at least 0.3; its confidence is
    [min(0.9, 0.5 + rate)], a value between 0.8 and 0.9. *)
Theorem som_high_rule (som_data : value) :
  som_record som_data = true ->
  exists d a t techniques,
    som_data = VDict d /\
    as_num (field d "attack_score" (VNum 0)) = Some a /\
    as_num (field d "total_epochs" (VNum 1)) = Some t /\
    map_som_results som_data = Ok techniques /\
    ((exists m, In m techniques /\ py_getitem m "id" = Ok (VStr "T1070.004"))
     <-> 0.3 <= a / t) /\
    (forall m, In m techniques -> py_getitem m "id" = Ok (VStr "T1070.004") ->
               py_getitem m "confidence" = Ok (VNum (py_min 0.9 (0.5 + a / t))) /\
               0.8 <= py_min 0.9 (0.5 + a / t) <= 0.9).
Proof.
  intro W. destruct (map_som_results_closed _ W) as (d & a & b & t & -> & Na & Nb & Nt & Z & H).
  exists d, a, t. eexists. split; [reflexivity|]. split; [exact Na|]. split; [exact Nt|].
  split; [exact H|]. split.
  - rewrite som_matches_high. apply Qle_bool_iff.
  - intros m Hin Hid.
    destruct (som_matches_member _ _ _ _ _ _ _ _ Hin) as [-> | [-> | ->]];
      try discriminate Hid. split; [reflexivity|].
    assert (G : 0.3 <= a / t).
    { apply Qle_bool_iff. eapply (proj1 (som_matches_high _ _ _ _ _ _ _)).
      eexists. split; [exact Hin | reflexivity]. }
    rewrite py_min_spec. split.
    + apply Q.min_glb; lra.
    + apply Q.le_min_l.
Qed.

Lemma som_high_rule_witness :
  som_record example3 = true /\
  exists d a t techniques,
    example3 = VDict d /\
    as_num (field d "attack_score" (VNum 0)) = Some a /\
    as_num (field d "total_epochs" (VNum 1)) = Some t /\
    map_som_results example3 = Ok techniques /\
    ((exists m, In m techniques /\ py_getitem m "id" = Ok (VStr "T1070.004"))
     <-> 0.3 <= a / t) /\
    (forall m, In m techniques -> py_getitem m "id" = Ok (VStr "T1070.004") ->
               py_getitem m "confidence" = Ok (VNum (py_min 0.9 (0.5 + a / t))) /\
               0.8 <= py_min 0.9 (0.5 + a / t) <= 0.9).
Proof.
  split; [reflexivity|]. apply (som_high_rule example3). reflexivity.
Defined.

(** The "mixed, attack dominant" rule of lines 116-124.  On a well-typed
    map record the T1078 match is returned exactly when
    [attack_score > 0], [benign_score > 0] and
    [attack_score > benign_score]; its confidence is
    [min(0.8, 0.5 + rate)], at most 0.8. *)
Theorem som_mixed_rule (som_data : value) :
  som_record som_data = true ->
  exists d a b t techniques,
    som_data = VDict d /\
    as_num (field d "attack_score" (VNum 0)) = Some a /\
    as_num (field d "benign_score" (VNum 0)) = Some b /\
    as_num (field d "total_epochs" (VNum 1)) = Some t /\
    map_som_results som_data = Ok techniques /\
    ((exists m, In m techniques /\ py_getitem m "id" = Ok (VStr "T1078"))
     <-> 0 < a /\ 0 < b /\ b < a) /\
    (forall m, In m techniques -> py_getitem m "id" = Ok (VStr "T1078") ->
               py_getitem m "confidence" = Ok (VNum (py_min 0.8 (0.5 + a / t))) /\
               py_min 0.8 (0.5 + a / t) <= 0.8).
Proof.
  intro W. destruct (map_som_results_closed _ W) as (d & a & b & t & -> & Na & Nb & Nt & Z & H).
  exists d, a, b, t. eexists. split; [reflexivity|]. split; [exact Na|].
  split; [exact Nb|]. split; [exact Nt|]. split; [exact H|]. split.
  - rewrite som_matches_mixed, !andb_true_iff, !Qlt_bool_iff. tauto.
  - intros m Hin Hid.
    destruct (som_matches_member _ _ _ _ _ _ _ _ Hin) as [-> | [-> | ->]];
      try discriminate Hid. split; [reflexivity|].
    rewrite py_min_spec. apply Q.le_min_l.
Qed.

Lemma som_mixed_rule_witness :
  som_record example3 = true /\
  exists d a b t techniques,
    example3 = VDict d /\
    as_num (field d "attack_score" (VNum 0)) = Some a /\
    as_num (field d "benign_score" (VNum 0)) = Some b /\
    as_num (field d "total_epochs" (VNum 1)) = Some t /\
    map_som_results example3 = Ok techniques /\
    ((exists m, In m techniques /\ py_getitem m "id" = Ok (VStr "T1078"))
     <-> 0 < a /\ 0 < b /\ b < a) /\
    (forall m, In m techniques -> py_getitem m "id" = Ok (VStr "T1078") ->
               py_getitem m "confidence" = Ok (VNum (py_min 0.8 (0.5 + a / t))) /\
               py_min 0.8 (0.5 + a / t) <= 0.8).
Proof.
  split; [reflexivity|]. apply (som_mixed_rule example3). reflexivity.
Defined.

(** The "always flagged" match never comes with another one: when the
    engine returns a T1090 match, it is the whole list. *)
Theorem som_proxy_alone (som_data : value) (techniques : list value) (m : value) :
  map_som_results som_data = Ok techniques ->
  In m techniques ->
  py_getitem m "id" = Ok (VStr "T1090") ->
  techniques = [m].
Proof.
  intros Ht Hin Hid.
  destruct (map_som_results_shape _ _ Ht) as (d & a & t & mixed & -> & Na & Nt & Z & Hmix & ->).
  assert (P : py_eq (field d "flagged_epochs" (VNum 0)) (field d "total_epochs" (VNum 1))
              && py_eq (field d "attack_score" (VNum 0)) (VNum 0) = true).
  { eapply (proj1 (som_matches_proxy _ _ _ _ _ _ _)). eexists. split; [exact Hin | exact Hid]. }
  assert (A0 : a == 0).
  { apply andb_true_iff in P as [_ P]. rewrite (py_eq_num _ _ _ Na) in P.
    apply Qeq_bool_iff, P. }
  assert (Hhigh : Qle_bool 0.3 (a / t) = false).
  { destruct (Qle_bool 0.3 (a / t)) eqn:E; [|reflexivity]. apply Qle_bool_iff in E.
    exfalso. assert (a / t == 0) by (rewrite A0; unfold Qdiv; apply Qmult_0_l). lra. }
  assert (Hmixed : mixed = false).
  { revert Hmix. unfold mixed_condition, py_gt. rewrite Na. cbn [as_num bind].
    assert (L : Qlt_bool 0 a = false) by (apply Qlt_bool_false_iff; lra).
    rewrite L. now intros [= <-]. }
  revert Hin. rewrite P, Hhigh, Hmixed. cbn. intros [<- | []]. reflexivity.
Qed.

Lemma som_proxy_alone_witness :
  map_som_results always_flagged_record = Ok [som_proxy_match (VNum 12)] /\
  [som_proxy_match (VNum 12)] = [som_proxy_match (VNum 12)].
Proof.
  split; [reflexivity|].
  apply (som_proxy_alone always_flagged_record [som_proxy_match (VNum 12)]
           (som_proxy_match (VNum 12))).
  - reflexivity.
  - now left.
  - reflexivity.
Defined.

Lemma map_som_results_raises (som_data : value) (e : exn) :
  map_som_results som_data = Raise e ->
  (e = AttributeError /\ forall d, som_data <> VDict d) \/
  (exists d, som_data = VDict d /\ (e = TypeError \/ e = ZeroDivisionError)).
Proof.
  destruct som_data as [| | | | |d]; try (intros [= <-]; left; split;
    [reflexivity | discriminate]).
  intro H. right. exists d. split; [reflexivity|].
  destruct (as_num (field d "attack_score" (VNum 0))) as [a|] eqn:Na.
  - destruct (as_num (field d "total_epochs" (VNum 1))) as [t|] eqn:Nt.
    + destruct (Qeq_bool t 0) eqn:Z.
      * revert H. unfold map_som_results. cbn [py_get bind].
        fold (field d "attack_score" (VNum 0)). fold (field d "total_epochs" (VNum 1)).
        unfold py_truediv. rewrite Na, Nt, Z. cbn [bind]. intros [= <-]. now right.
      * rewrite (map_som_results_eval d a t Na Nt Z) in H.
        destruct (mixed_condition _ _) as [mixed|e'] eqn:M; [discriminate|].
        cbn [bind] in H. injection H as <-. left. exact (mixed_condition_raises _ _ _ M).
    + revert H. unfold map_som_results. cbn [py_get bind].
      fold (field d "attack_score" (VNum 0)). fold (field d "total_epochs" (VNum 1)).
      unfold py_truediv. rewrite Na, Nt. cbn [bind]. intros [= <-]. now left.
  - revert H. unfold map_som_results. cbn [py_get bind].
    fold (field d "attack_score" (VNum 0)).
    unfold py_truediv. rewrite Na. cbn [bind]. intros [= <-]. now left.
Qed.

(** The range leaves out the integers on which the division overflows, and
    keeps every double. *)
Example float_range_bounds :
  in_float_range (VNum (inject_Z (10 ^ 400))) = false /\
  in_float_range (VNum (inject_Z (2 ^ 1024 - 2 ^ 971))) = true /\
  in_float_range (VNum (- inject_Z (2 ^ 1024 - 2 ^ 971))) = true /\
  in_float_range (VStr "many") = true.
Proof. repeat split; vm_compute; reflexivity. Qed.

(** The exceptions of [map_som_results] on a record whose [attack_score]
    and [total_epochs] convert to a double: [AttributeError] for an object
    that is not a dictionary, [TypeError] for a field that is not a
    number, [ZeroDivisionError] for a zero epoch count, and no other; the
    lookup [som_data['flagged_epochs']] of line 113 never raises
    [KeyError].  The two hypotheses keep the operands of line 93 within
    the doubles: on an [int] beyond them Python's [/] raises
    [OverflowError], which [py_truediv] leaves out. *)
Theorem map_som_results_exceptions_in_range (som_data : value) (e : exn) :
  field_in_range som_data "attack_score" = true ->
  field_in_range som_data "total_epochs" = true ->
  map_som_results som_data = Raise e ->
  (e = AttributeError /\ forall d, som_data <> VDict d) \/
  (exists d, som_data = VDict d /\ (e = TypeError \/ e = ZeroDivisionError)).
Proof. intros _ _. apply map_som_results_raises. Qed.

Lemma map_som_results_exceptions_in_range_witness :
  field_in_range zero_epochs_record "attack_score" = true /\
  field_in_range zero_epochs_record "total_epochs" = true /\
  map_som_results zero_epochs_record = Raise ZeroDivisionError /\
  ((ZeroDivisionError = AttributeError /\ forall d, zero_epochs_record <> VDict d) \/
   (exists d, zero_epochs_record = VDict d /\
              (ZeroDivisionError = TypeError \/ ZeroDivisionError = ZeroDivisionError))).
Proof.
  split; [vm_compute; reflexivity|].
  split; [vm_compute; reflexivity|].
  split; [reflexivity|].
  apply (map_som_results_exceptions_in_range zero_epochs_record ZeroDivisionError).
  - vm_compute; reflexivity.
  - vm_compute; reflexivity.
  - reflexivity.
Defined.

(** * Further properties of the file handling *)

Section Files.

Variable json_loads : string -> option value.
Variable json_dumps : value -> string.

(** A report that cannot be read.  An empty file is never opened, so it
    loads as the empty report whatever its permissions; a non-empty one
    raises the exception of [open] or, after the "Loading" line, of the
    decoder, and no warning is printed. *)
Theorem load_existing_report_unreadable (path : string) (w : world) :
  (files w path = Denied 0 \/ files w path = Directory 0 \/ files w path = Undecodable 0 ->
   load_existing_report json_loads path w = (Ok (VList []), w)) /\
  (forall n, files w path = Denied (S n) ->
             load_existing_report json_loads path w = (Raise PermissionError, w)) /\
  (forall n, files w path = Directory (S n) ->
             load_existing_report json_loads path w = (Raise IsADirectoryError, w)) /\
  (forall n, files w path = Undecodable (S n) ->
             load_existing_report json_loads path w
             = (Raise UnicodeDecodeError, printed w [loading_line path])).
Proof.
  unfold load_existing_report, try_except, bindIO, path_exists, getsize, open_r, print,
    json_load, read, ret, raise.
  split; [|split; [|split]].
  - intros [H | [H | H]]; repeat (rewrite H; cbn); reflexivity.
  - intros n H. repeat (rewrite H; cbn). reflexivity.
  - intros n H. repeat (rewrite H; cbn). reflexivity.
  - intros n H. repeat (rewrite H; cbn). reflexivity.
Qed.

(** An input file that is missing, or a map file that is not JSON, is
    reported and skipped: the step returns the report it was given. *)
Theorem missing_inputs_are_skipped (path : string) (report_list : value) (w : world) :
  (files w path = Missing ->
   process_markov_file json_loads path report_list w
   = (Ok report_list,
      printed w [ (nl ++ "--- Analyzing Markov Sequences for Filtering (Source: "
                      ++ path ++ ") ---")%string;
                  ("Error: Markov file not found at path: " ++ path)%string ])) /\
  (files w path = Missing ->
   process_som_file json_loads path report_list w
   = (Ok report_list,
      printed w [ (nl ++ "--- Processing SOM Results (Source: " ++ path ++ ") ---")%string;
                  ("Error: SOM file not found at path: " ++ path)%string;
                  "   SOM Summary: 0 new detections out of 0 users/entries." ])) /\
  (forall text,
      files w path = Text text -> json_loads text = None ->
      process_som_file json_loads path report_list w
      = (Ok report_list,
         printed w [ (nl ++ "--- Processing SOM Results (Source: " ++ path ++ ") ---")%string;
                     "Error decoding SOM JSON: JSONDecodeError";
                     "   SOM Summary: 0 new detections out of 0 users/entries." ])).
Proof.
  unfold process_markov_file, process_som_file, try_except, bindIO, open_r, print,
    json_load, read, ret, raise, lift, printed.
  split; [|split].
  - intro H. cbn. rewrite H. cbn. rewrite <- app_assoc. reflexivity.
  - intro H. cbn. rewrite H. cbn. rewrite <- !app_assoc. reflexivity.
  - intros text H Hj. cbn. rewrite H. cbn. rewrite Hj. cbn.
    rewrite <- !app_assoc. reflexivity.
Qed.

(** Without an input file the program prints the error and the help,
    exits with status 1, and neither reads nor writes the report. *)
Theorem main_requires_an_input (a : args) (w : world) :
  given (markov_file a) = None -> given (som_file a) = None ->
  main json_loads json_dumps a w
  = (Raise (SystemExit 1),
     printed w [ "Error: Must provide at least one of --markov-file or --som-file.";
                 help_text ]).
Proof.
  intros Hm Hs. unfold main. rewrite Hm, Hs.
  unfold bindIO, print, raise, printed. cbn. rewrite <- app_assoc. reflexivity.
Qed.

End Files.

Lemma load_existing_report_unreadable_witness :
  load_existing_report sample_loads REPORT_FILE_NAME denied_world
  = (Raise PermissionError, denied_world).
Proof.
  apply (proj1 (proj2 (load_existing_report_unreadable sample_loads REPORT_FILE_NAME
                         denied_world)) 1%nat).
  reflexivity.
Defined.

Lemma missing_inputs_are_skipped_witness :
  process_som_file sample_loads "absent.json" (VList []) sample_world
  = (Ok (VList []),
     printed sample_world
       [ (nl ++ "--- Processing SOM Results (Source: absent.json) ---")%string;
         "Error: SOM file not found at path: absent.json";
         "   SOM Summary: 0 new detections out of 0 users/entries." ]).
Proof.
  apply (proj1 (proj2 (missing_inputs_are_skipped sample_loads "absent.json" (VList [])
                         sample_world))).
  reflexivity.
Defined.

Lemma main_requires_an_input_witness :
  main sample_loads sample_dumps
    {| markov_file := Some ""; som_file := None; test := true |} sample_world
  = (Raise (SystemExit 1),
     printed sample_world
       [ "Error: Must provide at least one of --markov-file or --som-file."; help_text ]).
Proof.
  apply (main_requires_an_input sample_loads sample_dumps
           {| markov_file := Some ""; som_file := None; test := true |} sample_world);
    reflexivity.
Defined.

(** ** What a run writes *)

Section Writing.

Variable json_loads : string -> option value.
Variable json_dumps : value -> string.

(** The write step changes no path but the report's, and never raises
    once the length of the report is known. *)
Lemma write_report_effect (final_report : value) (initial_report_size size : nat)
    (w : world) :
  py_len final_report = Ok size ->
  fst (write_report json_dumps final_report initial_report_size w) = Ok tt /\
  write_denied (snd (write_report json_dumps final_report initial_report_size w))
  = write_denied w /\
  (forall p, p <> REPORT_FILE_NAME ->
             files (snd (write_report json_dumps final_report initial_report_size w)) p
             = files w p) /\
  files (snd (write_report json_dumps final_report initial_report_size w)) REPORT_FILE_NAME
  = if (initial_report_size <? size)%nat && negb (write_denied w REPORT_FILE_NAME)
    then match files w REPORT_FILE_NAME with
         | Directory n => Directory n
         | _ => Text (json_dumps final_report)
         end
    else files w REPORT_FILE_NAME.
Proof.
  intro L. unfold write_report, bindIO, lift. rewrite L.
  destruct (initial_report_size <? size)%nat; [|cbn; auto].
  unfold try_except, bindIO, write_file, print.
  destruct (write_denied w REPORT_FILE_NAME) eqn:D; [cbn; auto|].
  destruct (files w REPORT_FILE_NAME) eqn:F; cbn [fst snd files write_denied andb negb];
    (split; [reflexivity|]); (split; [reflexivity|]);
    (split; [intros p Hp; try reflexivity;
             apply String.eqb_neq in Hp; rewrite Hp; reflexivity|]);
    try (rewrite String.eqb_refl); try rewrite F; reflexivity.
Qed.

Lemma main_other_files (a : args) (w : world) (p : string) :
  p <> REPORT_FILE_NAME ->
  files (snd (main json_loads json_dumps a w)) p = files w p.
Proof.
  intro Hp. destruct (main_cases json_loads json_dumps a) as [Q | ->].
  { now rewrite (proj1 (Q w)). }
  unfold merge. unfold bindIO at 1.
  pose proof (quiet_load_existing_report json_loads REPORT_FILE_NAME w) as [QL _].
  destruct (load_existing_report json_loads REPORT_FILE_NAME w) as [[loaded|e] w1];
    cbn [snd] in *; [|now rewrite QL].
  unfold bindIO at 1, lift at 1.
  destruct (py_len loaded) as [n0|]; [|cbn; now rewrite QL].
  unfold bindIO at 1.
  pose proof (quiet_process_inputs json_loads a loaded w1) as [QP _].
  destruct (process_inputs json_loads a loaded w1) as [[final|e] w2];
    cbn [snd] in *; [|now rewrite QP, QL].
  unfold bindIO at 1.
  assert (QR : quiet
            (print "FINAL ANALYSIS SUMMARY:" ;;;
             size <~ lift (py_len final);;
             print ("   Total entries in merged report: " ++ str_of_nat size) ;;;
             print "Analysis and Merging Complete!")) by quiet_steps.
  destruct (py_len final) as [n1|] eqn:L1.
  - destruct (write_report_effect final n0 n1 w2 L1) as (_ & _ & Hother & _).
    specialize (Hother p Hp).
    destruct (write_report json_dumps final n0 w2) as [[[]|e] w3]; cbn [snd] in *.
    + rewrite (proj1 (QR w3)). congruence.
    + congruence.
  - unfold write_report, bindIO at 1, lift at 1. rewrite L1. cbn. now rewrite QP, QL.
Qed.

(** A run touches no file but the report: every other path, the input
    files included, is after the run what it was before. *)
Theorem main_touches_only_the_report (a : args) (w : world) (p : string) :
  p <> REPORT_FILE_NAME ->
  files (snd (main json_loads json_dumps a w)) p = files w p.
Proof. apply main_other_files. Qed.

(** A run whose steps all return ends normally, after the write step and
    the three summary lines. *)
Lemma merge_run (a : args) (w w1 w2 : world) (loaded final : value) (n0 n1 : nat) :
  load_existing_report json_loads REPORT_FILE_NAME w = (Ok loaded, w1) ->
  py_len loaded = Ok n0 ->
  process_inputs json_loads a loaded w1 = (Ok final, w2) ->
  py_len final = Ok n1 ->
  merge json_loads json_dumps a w
  = (Ok tt,
     printed (snd (write_report json_dumps final n0 w2))
       [ "FINAL ANALYSIS SUMMARY:";
         ("   Total entries in merged report: " ++ str_of_nat n1)%string;
         "Analysis and Merging Complete!" ]).
Proof.
  intros HL L0 HP L1. unfold merge, bindIO. rewrite HL. unfold lift at 1. rewrite L0, HP.
  destruct (write_report_effect final n0 n1 w2 L1) as (Hok & _).
  destruct (write_report json_dumps final n0 w2) as [[[]|e] w3]; cbn [fst snd] in *;
    [|discriminate].
  unfold lift, print, printed. rewrite L1. cbn. rewrite <- !app_assoc. reflexivity.
Qed.

Lemma merge_writes (a : args) (w : world) (l new : list value) :
  (given (markov_file a) <> None \/ given (som_file a) <> None) ->
  fst (load_existing_report json_loads REPORT_FILE_NAME w) = Ok (VList l) ->
  fst (process_inputs json_loads a (VList l)
         (snd (load_existing_report json_loads REPORT_FILE_NAME w)))
  = Ok (VList (l ++ new)) ->
  new <> [] ->
  fst (main json_loads json_dumps a w) = Ok tt /\
  files (snd (main json_loads json_dumps a w)) REPORT_FILE_NAME
  = if write_denied w REPORT_FILE_NAME then files w REPORT_FILE_NAME
    else match files w REPORT_FILE_NAME with
         | Directory n => Directory n
         | _ => Text (json_dumps (VList (l ++ new)))
         end.
Proof.
  intros Hgiven HL HP Hnew.
  assert (M : main json_loads json_dumps a = merge json_loads json_dumps a).
  { unfold main. destruct (given (markov_file a)), (given (som_file a)); try reflexivity.
    destruct Hgiven as [H | H]; now destruct H. }
  rewrite M.
  pose proof (quiet_load_existing_report json_loads REPORT_FILE_NAME w) as [QL QLd].
  set (w1 := snd (load_existing_report json_loads REPORT_FILE_NAME w)) in *.
  pose proof (quiet_process_inputs json_loads a (VList l) w1) as [QP QPd].
  set (w2 := snd (process_inputs json_loads a (VList l) w1)) in *.
  assert (L1 : py_len (VList (l ++ new)) = Ok (length l + length new)%nat).
  { cbn. now rewrite length_app. }
  rewrite (merge_run a w w1 w2 (VList l) (VList (l ++ new)) (length l)
             (length l + length new)).
  - destruct (write_report_effect (VList (l ++ new)) (length l) _ w2 L1)
      as (_ & _ & _ & Hrep).
    assert (G : (length l <? length l + length new)%nat = true).
    { apply Nat.ltb_lt. destruct new; [congruence | cbn; lia]. }
    rewrite G in Hrep. cbn [andb] in Hrep.
    split; [reflexivity|]. cbn [snd printed files]. rewrite Hrep, QPd, QLd, QP, QL.
    destruct (write_denied w REPORT_FILE_NAME); reflexivity.
  - rewrite <- HL. apply surjective_pairing.
  - reflexivity.
  - rewrite <- HP. apply surjective_pairing.
  - exact L1.
Qed.


End Writing.

Lemma main_touches_only_the_report_witness :
  files (snd (main sample_loads sample_dumps both_args sample_world)) "markov.jsonl"
  = files sample_world "markov.jsonl".
Proof.
  apply (main_touches_only_the_report sample_loads sample_dumps both_args sample_world).
  discriminate.
Defined.


(** ** The exceptions of the loops *)

Lemma calculate_risk_score_raises (sequence_data : value) (e : exn) :
  calculate_risk_score sequence_data = Raise e -> e = AttributeError \/ e = TypeError.
Proof.
  destruct sequence_data as [| | | | |d]; try (intros [= <-]; now left).
  unfold calculate_risk_score. cbn [py_get bind].
  set (score := match assoc "score" d with Some v => v | None => VNone end).
  assert (R : (if py_eq score (VNum 0.0) then Ok 1.0
               else positive <- py_gt score (VNum 0.0);;
                    if positive
                    then scaled <- py_truediv score (VNum 4.0);; Ok (py_min 1.0 scaled)
                    else Ok 0.0) = Raise e -> e = AttributeError \/ e = TypeError).
  { destruct (py_eq score (VNum 0.0)); [discriminate|].
    unfold py_gt, py_truediv. destruct (as_num score) as [q|]; cbn [as_num bind].
    - change (Qeq_bool 4.0 0) with false. destruct (Qlt_bool 0.0 q); discriminate.
    - intros [= <-]. now right. }
  destruct score; try exact R; discriminate.
Qed.

Section LoopExceptions.

Variable json_loads : string -> option value.

Lemma scan_lines_raises (lines : list string) (n : nat) (t : user_table) (e : exn) :
  scan_lines json_loads lines n t = Raise e -> e = AttributeError \/ e = TypeError.
Proof.
  revert n t. induction lines as [|line lines IH]; intros n t; [discriminate|].
  cbn [scan_lines]. destruct (json_loads (strip line)) as [sd|]; [|apply IH].
  destruct (py_get sd "user_id" VNone) as [u|e'] eqn:G.
  2:{ cbn [bind]. intros [= <-]. destruct sd; try discriminate G; injection G as <-; now left. }
  cbn [bind]. destruct (negb (truthy u)); [apply IH|].
  destruct (calculate_risk_score sd) as [m|e'] eqn:R.
  2:{ cbn [bind]. intros [= <-]. exact (calculate_risk_score_raises _ _ R). }
  cbn [bind]. unfold user_absent, stored_risk. destruct (hashable u).
  - cbn [bind]. destruct (lookup_user u t); cbn [bind]; apply IH.
  - cbn [bind]. intros [= <-]. now right.
Qed.

End LoopExceptions.

Lemma map_som_raises (items : list value) (i c : nat) (r : value) (e : exn) :
  map_som items i c r = Raise e ->
  e = AttributeError \/ e = TypeError \/ e = ZeroDivisionError.
Proof.
  revert i c r. induction items as [|som_data items IH]; intros i c r; [discriminate|].
  cbn [map_som]. destruct (map_som_results som_data) as [techniques|e'] eqn:M.
  2:{ cbn [bind]. intros [= <-].
      destruct (map_som_results_raises _ _ M) as [[-> _] | (d & _ & [-> | ->])]; auto. }
  cbn [bind]. destruct (truthy (VList techniques)); [|apply IH].
  destruct (py_get som_data "user_id" (VStr "N/A")) as [u|e'] eqn:G.
  2:{ cbn [bind]. intros [= <-]. destruct som_data; try discriminate G;
      injection G as <-; now left. }
  cbn [bind]. destruct (py_append r _) as [r1|e'] eqn:P.
  - cbn [bind]. apply IH.
  - cbn [bind]. intros [= <-]. destruct r; try discriminate P; injection P as <-; now left.
Qed.

(** ** What a processing step returns *)

Section Steps.

Variable json_loads : string -> option value.

(** The value of the sequence step, read off the input file alone. *)
Lemma process_markov_file_value (path : string) (report_list : value) (w : world) :
  fst (process_markov_file json_loads path report_list w)
  = match files w path with
    | Missing => Ok report_list
    | Denied _ => Raise PermissionError
    | Directory _ => Raise IsADirectoryError
    | Undecodable _ => Raise UnicodeDecodeError
    | Text text =>
        scanned <- scan_lines json_loads (file_lines text) 0 [];;
        mapped <- map_riskiest (snd scanned) 0 0 report_list;;
        Ok (snd mapped)
    end.
Proof.
  unfold process_markov_file, try_except, bindIO, open_r, print, read, ret, raise, lift.
  cbn [files]. destruct (files w path) as [| | | |text]; try reflexivity.
  cbn [files]. destruct (scan_lines json_loads (file_lines text) 0 []) as [[n t]|e] eqn:S.
  - cbn [bind snd files]. destruct (map_riskiest t 0 0 report_list) as [[c v]|e]; reflexivity.
  - destruct (scan_lines_raises _ _ _ _ _ S) as [-> | ->]; reflexivity.
Qed.

(** The value of the map step, read off the input file alone. *)
Lemma process_som_file_value (path : string) (report_list : value) (w : world) :
  fst (process_som_file json_loads path report_list w)
  = match files w path with
    | Missing => Ok report_list
    | Denied _ => Raise PermissionError
    | Directory _ => Raise IsADirectoryError
    | Undecodable _ => Raise UnicodeDecodeError
    | Text text =>
        match json_loads text with
        | None => Ok report_list
        | Some som_results =>
            total <- py_len som_results;;
            items <- py_iter som_results;;
            mapped <- map_som items 0 0 report_list;;
            Ok (snd mapped)
        end
    end.
Proof.
  unfold process_som_file, json_load, try_except, bindIO, open_r, print, read, ret, raise,
    lift.
  cbn [files]. destruct (files w path) as [| | | |text]; try reflexivity.
  cbn [files]. destruct (json_loads text) as [v|]; [|reflexivity].
  destruct v as [| | |s|l|d]; try reflexivity; cbn [py_len py_iter bind];
    match goal with
    | |- context [map_som ?items 0 0 report_list] =>
        destruct (map_som items 0 0 report_list) as [[c r]|e] eqn:M;
        [reflexivity | destruct (map_som_raises _ _ _ _ _ M) as [-> | [-> | ->]]; reflexivity]
    end.
Qed.

End Steps.

(** ** The new entries do not depend on the old ones *)

Lemma map_riskiest_frame (items : user_table) (i c : nat) (l : list value) :
  map_riskiest items i c (VList l)
  = (r <- map_riskiest items i 0 (VList []);;
     match snd r with
     | VList new => Ok ((c + fst r)%nat, VList (l ++ new))
     | _ => Raise AttributeError
     end).
Proof.
  revert i c l. induction items as [|[user_id item] items IH]; intros i c l.
  - cbn. now rewrite Nat.add_0_r, app_nil_r.
  - cbn [map_riskiest]. destruct (map_markov_sequence (data item)) as [techniques|];
      [|reflexivity].
    cbn [bind]. destruct (truthy (VList techniques)).
    + cbn [py_append bind app]. rewrite (IH (S i) (S c)), (IH (S i) 1%nat [_]).
      destruct (map_riskiest items (S i) 0 (VList [])) as [[c' v]|]; [|reflexivity].
      cbn [bind fst snd]. destruct v; try reflexivity. cbn [bind fst snd].
      rewrite <- app_assoc. do 2 f_equal. lia.
    + apply IH.
Qed.

Lemma map_som_frame (items : list value) (i c : nat) (l : list value) :
  map_som items i c (VList l)
  = (r <- map_som items i 0 (VList []);;
     match snd r with
     | VList new => Ok ((c + fst r)%nat, VList (l ++ new))
     | _ => Raise AttributeError
     end).
Proof.
  revert i c l. induction items as [|som_data items IH]; intros i c l.
  - cbn. now rewrite Nat.add_0_r, app_nil_r.
  - cbn [map_som]. destruct (map_som_results som_data) as [techniques|]; [|reflexivity].
    cbn [bind]. destruct (truthy (VList techniques)).
    + destruct (py_get som_data "user_id" (VStr "N/A")) as [u|]; [|reflexivity].
      cbn [py_append bind app]. rewrite (IH (S i) (S c)), (IH (S i) 1%nat [_]).
      destruct (map_som items (S i) 0 (VList [])) as [[c' v]|]; [|reflexivity].
      cbn [bind fst snd]. destruct v; try reflexivity. cbn [bind fst snd].
      rewrite <- app_assoc. do 2 f_equal. lia.
    + apply IH.
Qed.

Section Frame.

Variable json_loads : string -> option value.

Lemma process_markov_file_frame (path : string) (l : list value) (w : world) :
  fst (process_markov_file json_loads path (VList l) w)
  = after l (fst (process_markov_file json_loads path (VList []) w)).
Proof.
  rewrite !process_markov_file_value. unfold after.
  destruct (files w path) as [| | | |text]; try reflexivity.
  - cbn. now rewrite app_nil_r.
  - destruct (scan_lines json_loads (file_lines text) 0 []) as [[n t]|]; [|reflexivity].
    cbn [bind snd]. rewrite (map_riskiest_frame t 0 0 l).
    destruct (map_riskiest t 0 0 (VList [])) as [[c v]|]; [|reflexivity].
    cbn [bind snd fst]. destruct v; reflexivity.
Qed.

Lemma process_som_file_frame (path : string) (l : list value) (w : world) :
  fst (process_som_file json_loads path (VList l) w)
  = after l (fst (process_som_file json_loads path (VList []) w)).
Proof.
  rewrite !process_som_file_value. unfold after.
  destruct (files w path) as [| | | |text]; try reflexivity.
  - cbn. now rewrite app_nil_r.
  - destruct (json_loads text) as [v|]; [|cbn; now rewrite app_nil_r].
    destruct (py_len v); [|reflexivity]. destruct (py_iter v) as [items|]; [|reflexivity].
    cbn [bind]. rewrite (map_som_frame items 0 0 l).
    destruct (map_som items 0 0 (VList [])) as [[c r]|]; [|reflexivity].
    cbn [bind snd fst]. destruct r; reflexivity.
Qed.

(** The value of the two steps in a row, read off the input files. *)
Lemma process_inputs_value (a : args) (r : value) (w : world) :
  fst (process_inputs json_loads a r w)
  = (r1 <- match given (markov_file a) with
           | Some path => fst (process_markov_file json_loads path r w)
           | None => Ok r
           end;;
     match given (som_file a) with
     | Some path => fst (process_som_file json_loads path r1 w)
     | None => Ok r1
     end).
Proof.
  unfold process_inputs, bindIO.
  assert (Q : forall r1 w1, files w1 = files w ->
              fst (match given (som_file a) with
                   | Some path => process_som_file json_loads path r1
                   | None => ret r1
                   end w1)
              = match given (som_file a) with
                | Some path => fst (process_som_file json_loads path r1 w)
                | None => Ok r1
                end).
  { intros r1 w1 Hw. destruct (given (som_file a)); [|reflexivity].
    rewrite !process_som_file_value. now rewrite Hw. }
  destruct (given (markov_file a)) as [path|].
  - pose proof (quiet_process_markov_file json_loads path r w) as [QM _].
    destruct (process_markov_file json_loads path r w) as [[r1|e] w1]; cbn [fst snd] in *.
    + cbn [bind]. apply Q, QM.
    + reflexivity.
  - cbn [ret bind]. apply Q. reflexivity.
Qed.

End Frame.

Lemma after_after (l new : list value) (r : result value) :
  after (l ++ new) r = after l (after new r).
Proof.
  unfold after. destruct r as [v|]; [|reflexivity]. cbn [bind].
  destruct v; try reflexivity. cbn [bind]. now rewrite app_assoc.
Qed.

Section Independence.

Variable json_loads : string -> option value.
Variable json_dumps : value -> string.

Lemma process_inputs_frame (a : args) (l : list value) (w : world) :
  fst (process_inputs json_loads a (VList l) w)
  = after l (fst (process_inputs json_loads a (VList []) w)).
Proof.
  rewrite !process_inputs_value.
  assert (S : forall l1, match given (som_file a) with
                         | Some path => fst (process_som_file json_loads path (VList l1) w)
                         | None => Ok (VList l1)
                         end
                         = after l1 match given (som_file a) with
                                    | Some path =>
                                        fst (process_som_file json_loads path (VList []) w)
                                    | None => Ok (VList [])
                                    end).
  { intro l1. destruct (given (som_file a)).
    - apply process_som_file_frame.
    - cbn. now rewrite app_nil_r. }
  destruct (given (markov_file a)) as [path|].
  - rewrite (process_markov_file_frame json_loads path l w).
    destruct (process_markov_file json_loads path (VList []) w) as [[v|e] w1] eqn:M;
      cbn [fst]; [|reflexivity].
    destruct (process_markov_file_appends _ _ _ _ _ _ M)
      as (new & [[-> ->] | (l0 & [= <-] & ->)] & _).
    + cbn [after bind app]. rewrite app_nil_r. apply S.
    + cbn [after bind app]. rewrite S, (S new). apply after_after.
  - cbn [bind]. apply S.
Qed.

Lemma process_inputs_same_files (a : args) (r : value) (w w' : world) :
  (forall p, given (markov_file a) = Some p \/ given (som_file a) = Some p ->
             files w' p = files w p) ->
  fst (process_inputs json_loads a r w') = fst (process_inputs json_loads a r w).
Proof.
  intro H. rewrite !process_inputs_value.
  assert (M : match given (markov_file a) with
              | Some path => fst (process_markov_file json_loads path r w')
              | None => Ok r
              end
              = match given (markov_file a) with
                | Some path => fst (process_markov_file json_loads path r w)
                | None => Ok r
                end).
  { destruct (given (markov_file a)) as [path|] eqn:G; [|reflexivity].
    rewrite !process_markov_file_value, (H path); auto. }
  rewrite M. destruct (match given (markov_file a) with
                       | Some path => fst (process_markov_file json_loads path r w)
                       | None => Ok r
                       end) as [r1|]; [|reflexivity].
  cbn [bind]. destruct (given (som_file a)) as [path|] eqn:G; [|reflexivity].
  rewrite !process_som_file_value, (H path); auto.
Qed.

(** What a run appends depends on the input files alone: run on a report
    [l], in any world with the same input files, the two steps return [l]
    followed by the entries they return on the empty report, or raise what
    they raise there.  Nothing already in the report is compared with the
    new entries. *)
Theorem new_entries_independent (a : args) (l : list value) (w w' : world) :
  (forall p, given (markov_file a) = Some p \/ given (som_file a) = Some p ->
             files w' p = files w p) ->
  fst (process_inputs json_loads a (VList l) w')
  = after l (fst (process_inputs json_loads a (VList []) w)).
Proof.
  intro H. rewrite (process_inputs_same_files a (VList l) w w' H).
  apply process_inputs_frame.
Qed.

End Independence.

Lemma new_entries_independent_witness :
  fst (process_inputs sample_loads both_args (VList [sample_markov_entry]) later_world)
  = after [sample_markov_entry]
      (fst (process_inputs sample_loads both_args (VList []) sample_world)).
Proof.
  apply (new_entries_independent sample_loads both_args [sample_markov_entry]
           sample_world later_world).
  intros p [[= <-] | [= <-]]; reflexivity.
Defined.

(** ** Running twice *)

Section Rerun.

Variable json_loads : string -> option value.
Variable json_dumps : value -> string.

Lemma load_missing (path : string) (w : world) :
  files w path = Missing ->
  load_existing_report json_loads path w = (Ok (VList []), w).
Proof.
  intro H. unfold load_existing_report, try_except, bindIO, path_exists, ret.
  rewrite H. reflexivity.
Qed.

Lemma load_parsed (path text : string) (v : value) (w : world) :
  files w path = Text text -> text <> "" -> json_loads text = Some v ->
  load_existing_report json_loads path w = (Ok v, printed w [loading_line path]).
Proof.
  intros H Hne Hv.
  unfold load_existing_report, try_except, bindIO, path_exists, getsize, open_r, print,
    json_load, read, ret, raise.
  repeat (rewrite H; cbn). destruct text as [|c text]; [congruence|]. cbn.
  repeat (rewrite H; cbn). rewrite Hv. reflexivity.
Qed.

Lemma main_write_denied (a : args) (w : world) :
  write_denied (snd (main json_loads json_dumps a w)) = write_denied w.
Proof.
  destruct (main_cases json_loads json_dumps a) as [Q | ->].
  { exact (proj2 (Q w)). }
  unfold merge. unfold bindIO at 1.
  pose proof (quiet_load_existing_report json_loads REPORT_FILE_NAME w) as [_ QL].
  destruct (load_existing_report json_loads REPORT_FILE_NAME w) as [[loaded|e] w1];
    cbn [snd] in *; [|exact QL].
  unfold bindIO at 1, lift at 1.
  destruct (py_len loaded) as [n0|]; [|exact QL].
  unfold bindIO at 1.
  pose proof (quiet_process_inputs json_loads a loaded w1) as [_ QP].
  destruct (process_inputs json_loads a loaded w1) as [[final|e] w2];
    cbn [snd] in *; [|congruence].
  unfold bindIO at 1.
  assert (QR : quiet
            (print "FINAL ANALYSIS SUMMARY:" ;;;
             size <~ lift (py_len final);;
             print ("   Total entries in merged report: " ++ str_of_nat size) ;;;
             print "Analysis and Merging Complete!")) by quiet_steps.
  destruct (py_len final) as [n1|] eqn:L1.
  - destruct (write_report_effect json_dumps final n0 n1 w2 L1) as (_ & Hd & _).
    destruct (write_report json_dumps final n0 w2) as [[[]|e] w3]; cbn [snd] in *.
    + rewrite (proj2 (QR w3)). congruence.
    + congruence.
  - unfold write_report, bindIO at 1, lift at 1. rewrite L1. cbn. congruence.
Qed.

(** The merge does not deduplicate.  Take a first run that finds no
    report, appends the entries [new] and writes them, and a serializer
    whose output the parser reads back.  A second run on the same input
    files loads [new], appends the same entries once more and leaves the
    report file with [new] twice. *)
Theorem rerun_duplicates_entries (a : args) (w : world) (new : list value) :
  files w REPORT_FILE_NAME = Missing ->
  write_denied w REPORT_FILE_NAME = false ->
  (forall p, given (markov_file a) = Some p \/ given (som_file a) = Some p ->
             p <> REPORT_FILE_NAME) ->
  fst (process_inputs json_loads a (VList []) w) = Ok (VList new) ->
  new <> [] ->
  json_dumps (VList new) <> "" ->
  json_loads (json_dumps (VList new)) = Some (VList new) ->
  files (snd (main json_loads json_dumps a w)) REPORT_FILE_NAME
  = Text (json_dumps (VList new)) /\
  files (snd (main json_loads json_dumps a (snd (main json_loads json_dumps a w))))
    REPORT_FILE_NAME
  = Text (json_dumps (VList (new ++ new))).
Proof.
  intros Hmiss Hw Hpaths Hnew Hne Hdump Hround.
  assert (Hgiven : given (markov_file a) <> None \/ given (som_file a) <> None).
  { destruct (given (markov_file a)) eqn:G1; [left; discriminate|].
    destruct (given (som_file a)) eqn:G2; [right; discriminate|].
    exfalso. apply Hne. revert Hnew. unfold process_inputs, bindIO. rewrite G1, G2.
    cbn. now intros [= <-]. }
  assert (R1 : files (snd (main json_loads json_dumps a w)) REPORT_FILE_NAME
               = Text (json_dumps (VList new))).
  { destruct (merge_writes json_loads json_dumps a w [] new Hgiven) as [_ H].
    - now rewrite (load_missing REPORT_FILE_NAME w Hmiss).
    - rewrite (load_missing REPORT_FILE_NAME w Hmiss). exact Hnew.
    - exact Hne.
    - rewrite H, Hw, Hmiss. reflexivity. }
  split; [exact R1|].
  set (w1 := snd (main json_loads json_dumps a w)) in *.
  assert (L : load_existing_report json_loads REPORT_FILE_NAME w1
              = (Ok (VList new), printed w1 [loading_line REPORT_FILE_NAME])).
  { exact (load_parsed REPORT_FILE_NAME _ _ w1 R1 Hdump Hround). }
  destruct (merge_writes json_loads json_dumps a w1 new new Hgiven) as [_ H].
  - now rewrite L.
  - rewrite L. cbn [snd].
    rewrite (process_inputs_same_files json_loads a (VList new) w).
    + rewrite process_inputs_frame, Hnew. reflexivity.
    + intros p Hp. cbn [printed files]. unfold w1.
      apply main_other_files. exact (Hpaths p Hp).
  - exact Hne.
  - rewrite H. unfold w1 at 1. rewrite main_write_denied, Hw, R1. reflexivity.
Qed.

End Rerun.

Lemma rerun_duplicates_entries_witness :
  files (snd (main rereading_loads sample_dumps som_only_args sample_world))
    REPORT_FILE_NAME
  = Text (sample_dumps (VList [sample_som_entry])) /\
  files (snd (main rereading_loads sample_dumps som_only_args
                (snd (main rereading_loads sample_dumps som_only_args sample_world))))
    REPORT_FILE_NAME
  = Text (sample_dumps (VList ([sample_som_entry] ++ [sample_som_entry]))).
Proof.
  apply (rerun_duplicates_entries rereading_loads sample_dumps som_only_args sample_world
           [sample_som_entry]).
  - reflexivity.
  - reflexivity.
  - intros p [H | H]; [discriminate H|]. injection H as <-. discriminate.
  - reflexivity.
  - discriminate.
  - discriminate.
  - reflexivity.
Defined.

(** ** One entry per user *)

Lemma subseq_Forall {A : Type} (P : A -> Prop) (l1 l2 : list A) :
  subseq l1 l2 -> Forall P l2 -> Forall P l1.
Proof.
  induction 1 as [|x l1 l2 _ IH|x l1 l2 _ IH]; intro H.
  - constructor.
  - inversion H; subst. auto.
  - inversion H; subst. constructor; auto.
Qed.

Lemma distinct_subseq (keys1 keys2 : list value) :
  subseq keys1 keys2 -> distinct keys2 -> distinct keys1.
Proof.
  induction 1 as [|x l1 l2 _ IH|x l1 l2 Hs IH]; cbn.
  - auto.
  - intros [_ H]. auto.
  - intros [Hx H]. split; [exact (subseq_Forall _ _ _ Hs Hx) | auto].
Qed.

(** The entries the second loop appends, against the table. *)
Lemma map_riskiest_entries (items : user_table) (i c : nat) (l : list value)
    (c' : nat) (v : value) :
  map_riskiest items i c (VList l) = Ok (c', v) ->
  exists new,
    v = VList (l ++ new) /\
    subseq (map entry_user new) (map fst items) /\
    Forall (fun e => exists k item techniques sequence_id,
                In (k, item) items /\
                e = markov_entry sequence_id k (data item) techniques /\
                map_markov_sequence (data item) = Ok techniques /\
                techniques <> []) new.
Proof.
  revert i c l. induction items as [|[user_id item] items IH]; intros i c l.
  - intros [= _ <-]. exists []. rewrite app_nil_r. repeat split; constructor.
  - cbn [map_riskiest].
    destruct (map_markov_sequence (data item)) as [techniques|] eqn:M; [|discriminate].
    cbn [bind]. destruct (truthy (VList techniques)) eqn:T.
    + cbn [py_append bind]. intro H. destruct (IH _ _ _ H) as (new & -> & Hsub & Hall).
      eexists (_ :: new). rewrite <- app_assoc. split; [reflexivity|]. split.
      * cbn [map fst]. apply subseq_take. exact Hsub.
      * constructor.
        -- exists user_id, item, techniques. eexists. split; [now left|].
           split; [reflexivity|]. split; [exact M|]. destruct techniques; discriminate.
        -- eapply Forall_impl; [|exact Hall].
           intros e (k & it & te & id & Hin & Hrest). exists k, it, te, id.
           split; [now right | exact Hrest].
    + intro H. destruct (IH _ _ _ H) as (new & -> & Hsub & Hall).
      exists new. split; [reflexivity|]. split.
      * cbn [map fst]. apply subseq_skip. exact Hsub.
      * eapply Forall_impl; [|exact Hall].
        intros e (k & it & te & id & Hin & Hrest). exists k, it, te, id.
        split; [now right | exact Hrest].
Qed.

Section PerUser.

Variable json_loads : string -> option value.

Lemma reduced_nil : reduced json_loads [] [].
Proof.
  split; [exact I|]. split; [intros k item []|].
  intros i sd u m Hr. unfold record_at in Hr. rewrite nth_error_nil in Hr. discriminate.
Qed.

Lemma lookup_user_some (u k : value) (item : risk_item) (t : user_table) :
  In (k, item) t -> py_eq k u = true -> exists old, lookup_user u t = Some old.
Proof.
  induction t as [|[k' it] t IH]; [intros []|]. cbn [lookup_user].
  intros [[= -> ->] | Hin] E.
  - rewrite E. now eexists.
  - destruct (py_eq k' u); [now eexists | auto].
Qed.

(** In a reduced table the entry of a user holds a score no record of
    that user in the batch exceeds. *)
Lemma reduced_is_max (lines : list string) (t : user_table) (k : value) (item : risk_item)
    (i : nat) (sequence_data u : value) (m : Q) :
  reduced json_loads lines t ->
  In (k, item) t ->
  record_at json_loads lines i = Some sequence_data ->
  py_get sequence_data "user_id" VNone = Ok u ->
  truthy u = true -> hashable u = true ->
  calculate_risk_score sequence_data = Ok m ->
  py_eq k u = true ->
  m <= risk_score item /\ (m == risk_score item -> (original_line_num item <= S i)%nat).
Proof.
  intros (Hd & Hret & Hdom) Hin Hr Hu Ht Hh Hm Hk.
  destruct (Hdom i sequence_data u m Hr Hu Ht Hm) as (k' & item' & Hin' & Hk' & Hle).
  assert (E : (k, item) = (k', item')).
  { apply (distinct_unique t k k' u item item' Hd); auto.
    apply Forall_forall. intros x Hx. apply in_map_iff in Hx as ([k0 it0] & <- & Hin0).
    destruct (Hret k0 it0 Hin0) as (? & ? & _ & _ & _ & _ & _ & Hkh & _). exact Hkh. }
  injection E as -> ->. exact Hle.
Qed.

(** The sequence step appends at most one entry per user, and the entry
    of a user carries, as [raw_data], the record of that user with the
    highest risk score in the file (the first one on a tie) together with
    the non-empty list of matches the engine returns for it. *)
Theorem markov_entries_per_user (path text : string) (l : list value) (v : value)
    (w : world) :
  files w path = Text text ->
  forallb (scannable json_loads) (file_lines text) = true ->
  fst (process_markov_file json_loads path (VList l) w) = Ok v ->
  exists new,
    v = VList (l ++ new) /\
    distinct (map entry_user new) /\
    Forall (fun e => exists k item techniques,
                py_getitem e "user_id" = Ok k /\
                py_getitem e "raw_data" = Ok (data item) /\
                py_getitem e "detected_techniques" = Ok (VList techniques) /\
                techniques <> [] /\
                map_markov_sequence (data item) = Ok techniques /\
                retains json_loads (file_lines text) k item /\
                (forall i sequence_data u m,
                    record_at json_loads (file_lines text) i = Some sequence_data ->
                    py_get sequence_data "user_id" VNone = Ok u ->
                    truthy u = true -> hashable u = true ->
                    calculate_risk_score sequence_data = Ok m ->
                    py_eq k u = true ->
                    m <= risk_score item /\
                    (m == risk_score item -> (original_line_num item <= S i)%nat))) new.
Proof.
  intros Hf Hs Hv. rewrite process_markov_file_value, Hf in Hv.
  destruct (scan_lines_reduced json_loads (file_lines text) [] [] Hs reduced_nil)
    as (t & Hscan & Hred).
  cbn [app length] in Hscan, Hred. rewrite Hscan in Hv. cbn [bind snd] in Hv.
  destruct (map_riskiest t 0 0 (VList l)) as [[c v']|] eqn:M; [|discriminate].
  cbn [bind snd] in Hv. injection Hv as ->.
  destruct (map_riskiest_entries _ _ _ _ _ _ M) as (new & -> & Hsub & Hall).
  exists new. split; [reflexivity|]. split.
  - exact (distinct_subseq _ _ Hsub (proj1 Hred)).
  - eapply Forall_impl; [|exact Hall].
    intros e (k & item & techniques & id & Hin & -> & Hm & Hne).
    exists k, item, techniques. split; [reflexivity|]. split; [reflexivity|].
    split; [reflexivity|]. split; [exact Hne|]. split; [exact Hm|].
    split; [exact (proj1 (proj2 Hred) k item Hin)|].
    intros i sd u m. apply (reduced_is_max (file_lines text) t k item); assumption.
Qed.

End PerUser.

Lemma markov_entries_per_user_witness :
  exists new,
    VList [ markov_entry "Markov_User_1_TopRisk" (VStr "u2")
              (VDict [("user_id", VStr "u2"); ("score", VNum 0.0)])
              [markov_fallback_match 1.0];
            sample_markov_entry ]
    = VList ([] ++ new) /\
    distinct (map entry_user new) /\
    Forall (fun e => exists k item techniques,
                py_getitem e "user_id" = Ok k /\
                py_getitem e "raw_data" = Ok (data item) /\
                py_getitem e "detected_techniques" = Ok (VList techniques) /\
                techniques <> [] /\
                map_markov_sequence (data item) = Ok techniques /\
                retains sample_loads (file_lines (String.concat "" sample_batch)) k item /\
                (forall i sequence_data u m,
                    record_at sample_loads (file_lines (String.concat "" sample_batch)) i
                    = Some sequence_data ->
                    py_get sequence_data "user_id" VNone = Ok u ->
                    truthy u = true -> hashable u = true ->
                    calculate_risk_score sequence_data = Ok m ->
                    py_eq k u = true ->
                    m <= risk_score item /\
                    (m == risk_score item -> (original_line_num item <= S i)%nat))) new.
Proof.
  apply (markov_entries_per_user sample_loads "markov.jsonl"
           (String.concat "" sample_batch) [] _ sample_world); reflexivity.
Defined.

(** ** Repeated lines *)

Section Repeats.

Variable json_loads : string -> option value.

Lemma scan_lines_app (l1 l2 : list string) (n : nat) (t : user_table) :
  scan_lines json_loads (l1 ++ l2) n t
  = (r <- scan_lines json_loads l1 n t;; scan_lines json_loads l2 (fst r) (snd r)).
Proof.
  revert n t. induction l1 as [|line l1 IH]; intros n t; [reflexivity|].
  cbn [app scan_lines]. destruct (json_loads (strip line)) as [sd|]; [|apply IH].
  destruct (py_get sd "user_id" VNone) as [u|]; [|reflexivity]. cbn [bind].
  destruct (negb (truthy u)); [apply IH|].
  destruct (calculate_risk_score sd) as [m|]; [|reflexivity]. cbn [bind].
  destruct (user_absent u t) as [absent|]; [|reflexivity]. cbn [bind].
  destruct absent; cbn [bind]; [apply IH|].
  destruct (stored_risk u t) as [stored|]; [|reflexivity]. cbn [bind]. apply IH.
Qed.

(** Lines whose records do not beat the table leave it as it is. *)
Lemma scan_lines_stable (rest : list string) (n : nat) (t : user_table) :
  forallb (scannable json_loads) rest = true ->
  (forall line sequence_data u m,
      In line rest ->
      json_loads (strip line) = Some sequence_data ->
      py_get sequence_data "user_id" VNone = Ok u ->
      truthy u = true ->
      calculate_risk_score sequence_data = Ok m ->
      exists old, lookup_user u t = Some old /\ m <= risk_score old) ->
  scan_lines json_loads rest n t = Ok ((n + length rest)%nat, t).
Proof.
  revert n. induction rest as [|line rest IH]; intros n Hs Hdom.
  - cbn. now rewrite Nat.add_0_r.
  - cbn [forallb] in Hs. apply andb_true_iff in Hs as [Hline Hrest].
    assert (Next : scan_lines json_loads rest (S n) t
                   = Ok ((n + length (line :: rest))%nat, t)).
    { rewrite IH; [cbn [length]; do 2 f_equal; lia | exact Hrest |].
      intros l' sd u m Hin. apply Hdom. now right. }
    cbn [scan_lines]. unfold scannable in Hline.
    destruct (json_loads (strip line)) as [sd|] eqn:Hparse; [|exact Next].
    destruct sd as [| | | | |d]; try discriminate.
    apply andb_true_iff in Hline as [Huser Hscore]. cbn [py_get bind].
    set (u := match assoc "user_id" d with Some v => v | None => VNone end).
    destruct (truthy u) eqn:Ht; cbn [negb]; [|exact Next].
    assert (Hh : hashable u = true).
    { unfold u in *. destruct (assoc "user_id" d) as [v|]; [|discriminate].
      rewrite Ht in Huser. cbn in Huser. now rewrite orb_false_r in Huser. }
    destruct (risk_score_total d Hscore) as [m Hm]. rewrite Hm. cbn [bind].
    destruct (Hdom line (VDict d) u m (or_introl eq_refl) Hparse eq_refl Ht Hm)
      as (old & Hold & Hle).
    unfold user_absent, stored_risk. rewrite Hh, Hold. cbn [bind].
    apply Qlt_bool_false_iff in Hle. rewrite Hle. exact Next.
Qed.

(** The reduction is idempotent: a batch followed by itself again (a log
    fed twice, a file concatenated with its copy) gives the table of the
    batch, entry for entry and line number for line number. *)
Theorem scan_lines_twice (lines : list string) :
  forallb (scannable json_loads) lines = true ->
  exists t,
    scan_lines json_loads lines 0 [] = Ok (length lines, t) /\
    scan_lines json_loads (lines ++ lines) 0 [] = Ok ((length lines + length lines)%nat, t).
Proof.
  intro Hs.
  destruct (scan_lines_reduced json_loads lines [] [] Hs (reduced_nil json_loads))
    as (t & Hscan & Hred).
  cbn [app length] in Hscan, Hred. exists t. split; [exact Hscan|].
  rewrite scan_lines_app, Hscan. cbn [bind fst snd].
  apply scan_lines_stable; [exact Hs|].
  intros line sd u m Hin Hparse Hu Ht Hm.
  apply In_nth_error in Hin as [i Hi].
  assert (Hr : record_at json_loads lines i = Some sd).
  { unfold record_at. now rewrite Hi. }
  destruct Hred as (Hd & Hret & Hdom).
  destruct (Hdom i sd u m Hr Hu Ht Hm) as (k & item & Hk & Hku & Hle & _).
  destruct (lookup_user_some u k item t Hk Hku) as [old Hold].
  exists old. split; [exact Hold|].
  destruct (lookup_user_found _ _ _ Hold) as (k' & Hk' & Hku').
  assert (Hh : hashable u = true).
  { destruct (Hret k item Hk) as (? & ? & _ & _ & _ & _ & _ & Hkh & _).
    destruct u; try reflexivity; destruct k as [|[]| | | |]; discriminate. }
  assert (E : (k, item) = (k', old)).
  { apply (distinct_unique t k k' u item old Hd); auto.
    apply Forall_forall. intros x Hx. apply in_map_iff in Hx as ([k0 it0] & <- & Hin0).
    destruct (Hret k0 it0 Hin0) as (? & ? & _ & _ & _ & _ & _ & Hkh & _). exact Hkh. }
  injection E as _ <-. exact Hle.
Qed.

End Repeats.

Lemma scan_lines_twice_witness :
  exists t,
    scan_lines sample_loads sample_batch 0 [] = Ok (length sample_batch, t) /\
    scan_lines sample_loads (sample_batch ++ sample_batch) 0 []
    = Ok ((length sample_batch + length sample_batch)%nat, t).
Proof.
  apply (scan_lines_twice sample_loads sample_batch). reflexivity.
Defined.

(** ** Numbering of the entries *)

(** An entry of the map source is numbered by the position of its record
    in the input array, counted from 1, whether or not earlier records
    gave an entry; its user id is the record's, or "N/A"; and the count
    of the summary line is the number of appended entries. *)
Theorem map_som_numbering (items : list value) (i c : nat) (l : list value)
    (c' : nat) (v : value) :
  map_som items i c (VList l) = Ok (c', v) ->
  exists new,
    v = VList (l ++ new) /\
    c' = (c + length new)%nat /\
    (length new <= length items)%nat /\
    Forall (fun e => exists j d techniques,
                nth_error items j = Some (VDict d) /\
                map_som_results (VDict d) = Ok techniques /\
                techniques <> [] /\
                e = som_entry (i + j) (field d "user_id" (VStr "N/A")) (VDict d)
                      techniques) new.
Proof.
  revert i c l. induction items as [|som_data items IH]; intros i c l.
  - intros [= <- <-]. exists []. rewrite app_nil_r. cbn.
    repeat split; auto.
  - cbn [map_som].
    destruct (map_som_results som_data) as [techniques|] eqn:M; [|discriminate].
    cbn [bind].
    assert (Shift : forall new : list value,
              Forall (fun e => exists j d te,
                        nth_error items j = Some (VDict d) /\
                        map_som_results (VDict d) = Ok te /\ te <> [] /\
                        e = som_entry (S i + j) (field d "user_id" (VStr "N/A"))
                              (VDict d) te) new ->
              Forall (fun e => exists j d te,
                        nth_error (som_data :: items) j = Some (VDict d) /\
                        map_som_results (VDict d) = Ok te /\ te <> [] /\
                        e = som_entry (i + j) (field d "user_id" (VStr "N/A"))
                              (VDict d) te) new).
    { intros new Hall. eapply Forall_impl; [|exact Hall].
      intros e (j & d & te & Hj & Hm & Hne & ->). exists (S j), d, te.
      repeat split; auto. f_equal. lia. }
    destruct (truthy (VList techniques)) eqn:T.
    + destruct som_data as [| | | | |d]; try discriminate M.
      cbn [py_get py_append bind]. intro H.
      destruct (IH _ _ _ H) as (new & -> & -> & Hlen & Hall).
      eexists (_ :: new). rewrite <- app_assoc. split; [reflexivity|].
      split; [cbn [length]; lia|]. split; [cbn [length]; lia|].
      constructor; [|exact (Shift new Hall)].
      exists 0%nat, d, techniques. split; [reflexivity|]. split; [exact M|].
      split; [destruct techniques; discriminate|]. now rewrite Nat.add_0_r.
    + intro H. destruct (IH _ _ _ H) as (new & -> & -> & Hlen & Hall).
      exists new. split; [reflexivity|]. split; [reflexivity|].
      split; [cbn [length]; lia | exact (Shift new Hall)].
Qed.

Lemma map_som_numbering_witness :
  exists new,
    VList [som_entry 1 (VStr "u3") example3
             [ som_high_match (VNum 5) (5 / 10);
               som_mixed_match (VNum 5) (VNum 1) (5 / 10) ]]
    = VList ([] ++ new) /\
    1%nat = (0 + length new)%nat /\
    (length new <= length [VDict [("attack_score", VNum 1); ("total_epochs", VNum 9)];
                           example3])%nat /\
    Forall (fun e => exists j d techniques,
                nth_error [VDict [("attack_score", VNum 1); ("total_epochs", VNum 9)];
                           example3] j = Some (VDict d) /\
                map_som_results (VDict d) = Ok techniques /\
                techniques <> [] /\
                e = som_entry (0 + j) (field d "user_id" (VStr "N/A")) (VDict d)
                      techniques) new.
Proof.
  apply (map_som_numbering
           [VDict [("attack_score", VNum 1); ("total_epochs", VNum 9)]; example3]
           0 0 [] 1). reflexivity.
Defined.

(** An entry of the sequence source is numbered by the position of its
    user among the retained users, counted from 1, whether or not earlier
    users gave an entry; and the count of the summary line is the number
    of appended entries, at most the number of users. *)
Theorem map_riskiest_numbering (items : user_table) (i c : nat) (l : list value)
    (c' : nat) (v : value) :
  map_riskiest items i c (VList l) = Ok (c', v) ->
  exists new,
    v = VList (l ++ new) /\
    c' = (c + length new)%nat /\
    (length new <= length items)%nat /\
    Forall (fun e => exists j k item techniques,
                nth_error items j = Some (k, item) /\
                e = markov_entry ("Markov_User_" ++ str_of_nat (i + j + 1) ++ "_TopRisk")
                      k (data item) techniques) new.
Proof.
  revert i c l. induction items as [|[user_id item] items IH]; intros i c l.
  - intros [= <- <-]. exists []. rewrite app_nil_r. cbn.
    repeat split; auto.
  - cbn [map_riskiest].
    destruct (map_markov_sequence (data item)) as [techniques|] eqn:M; [|discriminate].
    cbn [bind].
    assert (Shift : forall new : list value,
              Forall (fun e => exists j k it te,
                        nth_error items j = Some (k, it) /\
                        e = markov_entry
                              ("Markov_User_" ++ str_of_nat (S i + j + 1) ++ "_TopRisk")
                              k (data it) te) new ->
              Forall (fun e => exists j k it te,
                        nth_error ((user_id, item) :: items) j = Some (k, it) /\
                        e = markov_entry
                              ("Markov_User_" ++ str_of_nat (i + j + 1) ++ "_TopRisk")
                              k (data it) te) new).
    { intros new Hall. eapply Forall_impl; [|exact Hall].
      intros e (j & k & it & te & Hj & ->). exists (S j), k, it, te.
      split; [exact Hj|].
      replace (i + S j + 1)%nat with (S i + j + 1)%nat by lia. reflexivity. }
    destruct (truthy (VList techniques)) eqn:T.
    + cbn [py_append bind]. intro H.
      destruct (IH _ _ _ H) as (new & -> & -> & Hlen & Hall).
      eexists (_ :: new). rewrite <- app_assoc. split; [reflexivity|].
      split; [cbn [length]; lia|]. split; [cbn [length]; lia|].
      constructor; [|exact (Shift new Hall)].
      exists 0%nat, user_id, item, techniques. split; [reflexivity|].
      now rewrite Nat.add_0_r.
    + intro H. destruct (IH _ _ _ H) as (new & -> & -> & Hlen & Hall).
      exists new. split; [reflexivity|]. split; [reflexivity|].
      split; [cbn [length]; lia | exact (Shift new Hall)].
Qed.

Lemma map_riskiest_numbering_witness :
  exists new,
    VList [sample_markov_entry] = VList ([] ++ new) /\
    1%nat = (0 + length new)%nat /\
    (length new <= length two_users)%nat /\
    Forall (fun e => exists j k item techniques,
                nth_error two_users j = Some (k, item) /\
                e = markov_entry ("Markov_User_" ++ str_of_nat (0 + j + 1) ++ "_TopRisk")
                      k (data item) techniques) new.
Proof.
  apply (map_riskiest_numbering two_users 0 0 [] 1). reflexivity.
Defined.

(** The exceptions of the first loop, on a batch whose every line is
    rejected by the parser as malformed or read as a value whose score
    converts to a double.  A malformed line is skipped and raises
    nothing; the loop raises [AttributeError] for a line that is JSON but
    not an object, [TypeError] for an unhashable user id or a score that
    is not a number, and nothing else: the table lookups of line 171
    never raise [KeyError].  The hypothesis keeps the operand of line 136
    within the doubles: on an [int] beyond them Python's [/] raises
    [OverflowError], which [py_truediv] leaves out, as [json_loads]
    leaves out the lines on which [json.loads] gives up with an
    exception other than [JSONDecodeError]. *)
Theorem scan_lines_exceptions_in_range (json_loads : string -> option value)
    (lines : list string) (n : nat) (t : user_table) (e : exn) :
  forallb (score_in_range json_loads) lines = true ->
  scan_lines json_loads lines n t = Raise e -> e = AttributeError \/ e = TypeError.
Proof. intros _. apply scan_lines_raises. Qed.

Lemma scan_lines_exceptions_in_range_witness :
  forallb (score_in_range sample_loads) mixed_batch = true /\
  scan_lines sample_loads mixed_batch 0 [] = Raise AttributeError /\
  (AttributeError = AttributeError \/ AttributeError = TypeError).
Proof.
  split; [vm_compute; reflexivity|].
  split; [reflexivity|].
  apply (scan_lines_exceptions_in_range sample_loads mixed_batch 0 [] AttributeError).
  - vm_compute; reflexivity.
  - reflexivity.
Defined.
